(** * Expense tracker: a shallow embedding of [app.py]

    The Flask application of [app.py] has five routes over two SQLite
    tables.  This development embeds the routes as functions over an
    explicit store (the database file, the connection's uncommitted view
    and the session cookie), together with the parts of the Python
    standard library and of SQLite the routes rely on:

    - [Text]: [str.split], [int(str)] with the white space and the
      decimal digits of Unicode, and the decimal renderings used by
      [date.isoformat] and [strftime];
    - [Calendar]: the proleptic Gregorian ordinal arithmetic of the
      [datetime] module ([_ymd2ord], [_ord2ymd], [_isoweek1monday],
      [fromisocalendar], [isocalendar], [timedelta] addition);
    - [Float64]: binary64 arithmetic on [spec_float], [round(x, 2)],
      [sum], [max] and [list.index];
    - [Sqlite]: the two tables, their constraints, and the three
      statements the routes execute;
    - [Routes]: [index], [signup], [login], [logout] and [dashboard],
      written in a monad of state and exceptions;
    - [Sample]: a stand-in for the libraries the routes take as given
      (werkzeug's hashing, [float(str)]) and sample data;
    - [Views]: the vocabulary of the statements;
    - [Schema]: the database file and [init_db];
    - [App]: the five routes as one application, and the states that
      requests lead to from an empty database;
    - [Invariants] and [Grouping]: what the routes maintain on the
      store, and the groups of the aggregation.

    The properties follow: facts about text and the calendar, then the
    session guard, accounts, the insertion, the aggregation and the
    weekly window; then further properties of the routes taken together
    (invariants of the store, failures, the order and the totals of the
    aggregation, the default week).

    Text is modelled as [string]: the bytes of its UTF-8 encoding, which
    is what SQLite compares and what [str.split] on an ASCII separator
    cuts.  The library is the one of CPython 3.11 on Linux (glibc renders
    [%Y]).  Sums of floats add from left to right. *)

From Stdlib Require Import ZArith List String Ascii Bool Lia SpecFloat Sorted.
From stdpp Require Import base option list gmap strings.

Local Open Scope string_scope.
Local Open Scope Z_scope.

(** ** Exceptions and outcomes *)

(** The exceptions the routes can meet.  [BadRequestKeyError] is raised by
    [request.form[k]] on a missing field and is turned by Flask into an
    HTTP 400 response; every other exception that leaves a route is an
    unhandled server error (HTTP 500). *)
Inductive exn : Type :=
| ValueError
| OverflowError
| TypeError
| IndexError
| IntegrityError
| BadRequestKeyError.

Inductive outcome (A : Type) : Type :=
| Return (a : A)
| Raise (e : exn).
Arguments Return {A} a.
Arguments Raise {A} e.

Definition obind {A B} (m : outcome A) (k : A → outcome B) : outcome B :=
  match m with
  | Return a => k a
  | Raise e => Raise e
  end.

Declare Scope outcome_scope.
Delimit Scope outcome_scope with outcome.
Notation "'let?' x := m 'in' k" := (obind m (fun x => k))
  (at level 10, x pattern, m at level 100, k at level 200,
   format "'[v' 'let?'  x  :=  m  'in' '/' k ']'") : outcome_scope.
Local Open Scope outcome_scope.

Definition of_option {A} (e : exn) (o : option A) : outcome A :=
  match o with
  | Some a => Return a
  | None => Raise e
  end.

(** ** Text: digits, [int(str)], [str.split] *)

Module Text.

(** The character of a decimal digit [0 <= d <= 9]. *)
Definition digit_char (d : Z) : ascii := ascii_of_N (Z.to_N (48 + d)).

Definition digit_value (c : ascii) : option Z :=
  let n := Z.of_N (N_of_ascii c) in
  if (48 <=? n) && (n <=? 57) then Some (n - 48) else None.

(** ["%02d" % n] for [0 <= n <= 99]. *)
Definition two_digits (n : Z) : string :=
  String (digit_char (n / 10)) (String (digit_char (n mod 10)) "").

(** ["%04d" % n] for [0 <= n <= 9999]. *)
Definition four_digits (n : Z) : string :=
  String (digit_char (n / 1000))
    (String (digit_char (n / 100 mod 10))
       (String (digit_char (n / 10 mod 10))
          (String (digit_char (n mod 10)) ""))).

(** ["%d" % n] for [0 <= n <= 9999]: no padding. *)
Definition unpadded (n : Z) : string :=
  if n <? 10 then String (digit_char n) ""
  else if n <? 100 then two_digits n
  else if n <? 1000 then String (digit_char (n / 100)) (two_digits (n mod 100))
  else four_digits n.

(** The byte of a code point below 256. *)
Definition byte (n : Z) : ascii := ascii_of_N (Z.to_N n).

Definition code (c : ascii) : Z := Z.of_N (N_of_ascii c).

(** A continuation byte [10xxxxxx] of UTF-8 and its six bits. *)
Definition continuation (c : ascii) : option Z :=
  if (128 <=? code c) && (code c <? 192) then Some (code c - 128) else None.

(** The code points of a text, from the bytes of its UTF-8 encoding.
    Bytes that encode no text ([None]) are overlong forms, surrogates,
    code points beyond U+10FFFF and broken sequences. *)
Fixpoint decode_utf8 (s : string) : option (list Z) :=
  match s with
  | "" => Some []
  | String c r =>
      let n := code c in
      if n <? 128 then cons n <$> decode_utf8 r
      else if n <? 192 then None
      else if n <? 224 then
        match r with
        | String c1 r1 =>
            match continuation c1 with
            | Some k1 =>
                let cp := (n - 192) * 64 + k1 in
                if cp <? 128 then None else cons cp <$> decode_utf8 r1
            | None => None
            end
        | _ => None
        end
      else if n <? 240 then
        match r with
        | String c1 (String c2 r2) =>
            match continuation c1, continuation c2 with
            | Some k1, Some k2 =>
                let cp := ((n - 224) * 64 + k1) * 64 + k2 in
                if (cp <? 2048) || ((55296 <=? cp) && (cp <=? 57343))
                then None
                else cons cp <$> decode_utf8 r2
            | _, _ => None
            end
        | _ => None
        end
      else if n <? 248 then
        match r with
        | String c1 (String c2 (String c3 r3)) =>
            match continuation c1, continuation c2, continuation c3 with
            | Some k1, Some k2, Some k3 =>
                let cp := (((n - 240) * 64 + k1) * 64 + k2) * 64 + k3 in
                if (cp <? 65536) || (1114111 <? cp)
                then None
                else cons cp <$> decode_utf8 r3
            | _, _, _ => None
            end
        | _ => None
        end
      else None
  end.

(** [Py_UNICODE_ISSPACE] beyond ASCII. *)
Definition unicode_space (cp : Z) : bool :=
  (cp =? 133) || (cp =? 160) || (cp =? 5760)
  || ((8192 <=? cp) && (cp <=? 8202))
  || (cp =? 8232) || (cp =? 8233) || (cp =? 8239) || (cp =? 8287)
  || (cp =? 12288).

(** The code point of the digit zero of every script with decimal
    digits (Unicode 14.0, the database of CPython 3.11); the nine
    digits that follow it are the digits 1 to 9 of the script. *)
Definition decimal_zeros : list Z :=
  [48; 1632; 1776; 1984; 2406; 2534; 2662; 2790; 2918; 3046; 3174; 3302;
   3430; 3558; 3664; 3792; 3872; 4160; 4240; 6112; 6160; 6470; 6608; 6784;
   6800; 6992; 7088; 7232; 7248; 42528; 43216; 43264; 43472; 43504; 43600;
   44016; 65296; 66720; 68912; 69734; 69872; 69942; 70096; 70384; 70736;
   70864; 71248; 71360; 71472; 71904; 72016; 72784; 73040; 73120; 92768;
   92864; 93008; 120782; 120792; 120802; 120812; 120822; 123200; 123632;
   125264; 130032].

(** [Py_UNICODE_TODECIMAL]. *)
Definition unicode_decimal (cp : Z) : option Z :=
  (λ zero, cp - zero)
    <$> List.find (λ zero, (zero <=? cp) && (cp <? zero + 10)) decimal_zeros.

(** [_PyUnicode_TransformDecimalAndSpaceToASCII]: code points below
    127 stay, white space beyond becomes a space and a decimal digit
    its ASCII digit; the text is cut at any other code point, which
    leaves a question mark. *)
Fixpoint to_ascii (cps : list Z) : string :=
  match cps with
  | [] => ""
  | cp :: rest =>
      if cp <? 127 then String (byte cp) (to_ascii rest)
      else if unicode_space cp then String " " (to_ascii rest)
      else match unicode_decimal cp with
           | Some d => String (digit_char d) (to_ascii rest)
           | None => "?"
           end
  end.

(** White space as [PyLong_FromString] skips it ([Py_ISSPACE]): TAB,
    LF, VT, FF, CR and the space. *)
Definition is_space (c : ascii) : bool :=
  let n := Z.of_N (N_of_ascii c) in
  ((9 <=? n) && (n <=? 13)) || (n =? 32).

Fixpoint lstrip (s : string) : string :=
  match s with
  | "" => ""
  | String c r => if is_space c then lstrip r else s
  end.

Fixpoint rstrip (s : string) : string :=
  match s with
  | "" => ""
  | String c r =>
      match rstrip r with
      | "" => if is_space c then "" else String c ""
      | r' => String c r'
      end
  end.

Definition strip (s : string) : string := rstrip (lstrip s).

(** The longest digit string [int(str)] converts (CPython 3.11 and
    later); beyond it [int] raises [ValueError]. *)
Definition int_max_str_digits : Z := 4300.

(** Digits after the first one; a single underscore may separate two
    digits.  [count] is the number of digits read, and [underscore]
    tells that the previous character was an underscore. *)
Fixpoint more_digits (acc count : Z) (underscore : bool) (s : string)
  : option Z :=
  match s with
  | "" =>
      if underscore || (int_max_str_digits <? count) then None else Some acc
  | String c r =>
      if Ascii.eqb c "_"
      then if underscore then None else more_digits acc count true r
      else match digit_value c with
           | Some d => more_digits (10 * acc + d) (count + 1) false r
           | None => None
           end
  end.

Definition digits (s : string) : option Z :=
  match s with
  | "" => None
  | String c r =>
      match digit_value c with
      | Some d => more_digits d 1 false r
      | None => None
      end
  end.

(** [int(s)] in base ten.  The text is brought to ASCII (white space
    and decimal digits of any script); then surrounding white space is
    dropped, an optional sign follows, then the digits.  [ValueError]
    otherwise. *)
Definition py_int (s : string) : outcome Z :=
  of_option ValueError
    (cps ← decode_utf8 s;
     match strip (to_ascii cps) with
     | String "+" r => digits r
     | String "-" r => Z.opp <$> digits r
     | r => digits r
     end).

(** [s.split(sep)] for a non-empty separator: the pieces between the
    occurrences of [sep], found left to right without overlap.
    [split_from sep skip s] returns the piece that is being read and the
    pieces after it; [skip] counts the characters of a separator still
    to be passed over. *)
Fixpoint split_from (sep : string) (skip : nat) (s : string)
  : string * list string :=
  match s with
  | "" => ("", [])
  | String c r =>
      match skip with
      | S k => split_from sep k r
      | O =>
          if String.prefix sep s
          then let '(piece, rest) := split_from sep (String.length sep - 1) r in
               ("", piece :: rest)
          else let '(piece, rest) := split_from sep 0 r in
               (String c piece, rest)
      end
  end.

Definition split (sep s : string) : list string :=
  let '(piece, rest) := split_from sep 0 s in piece :: rest.

End Text.

(** ** Calendar: the [datetime] module *)

Module Calendar.

Definition MINYEAR : Z := 1.
Definition MAXYEAR : Z := 9999.
(** [date.max.toordinal()], the ordinal of 9999-12-31. *)
Definition MAXORDINAL : Z := 3652059.

Definition is_leap (y : Z) : bool :=
  (y mod 4 =? 0) && (negb (y mod 100 =? 0) || (y mod 400 =? 0)).

(** The day a leap year has beyond 365. *)
Definition leap_days (y : Z) : Z := if is_leap y then 1 else 0.

(** Number of days before January 1st of [year]. *)
Definition days_before_year (year : Z) : Z :=
  let y := year - 1 in
  y * 365 + y / 4 - y / 100 + y / 400.

Definition DAYS_IN_MONTH (m : Z) : Z :=
  match m with
  | 1 => 31 | 2 => 28 | 3 => 31 | 4 => 30 | 5 => 31 | 6 => 30
  | 7 => 31 | 8 => 31 | 9 => 30 | 10 => 31 | 11 => 30 | 12 => 31
  | _ => -1
  end.

Definition DAYS_BEFORE_MONTH (m : Z) : Z :=
  match m with
  | 1 => 0 | 2 => 31 | 3 => 59 | 4 => 90 | 5 => 120 | 6 => 151
  | 7 => 181 | 8 => 212 | 9 => 243 | 10 => 273 | 11 => 304 | 12 => 334
  | _ => -1
  end.

Definition days_in_month (year month : Z) : Z :=
  if (month =? 2) && is_leap year then 29 else DAYS_IN_MONTH month.

Definition days_before_month (year month : Z) : Z :=
  DAYS_BEFORE_MONTH month + (if (month >? 2) && is_leap year then 1 else 0).

(** [_ymd2ord]: the ordinal of a day, 0001-01-01 being day 1. *)
Definition ymd2ord (year month day : Z) : Z :=
  days_before_year year + days_before_month year month + day.

Definition DI400Y : Z := 146097.
Definition DI100Y : Z := 36524.
Definition DI4Y : Z := 1461.

(** The month and day of the [n]-th day (from 0) of a year. *)
Definition month_day (leapyear : bool) (n : Z) : Z * Z :=
  let month := Z.shiftr (n + 50) 5 in
  let preceding :=
    DAYS_BEFORE_MONTH month + (if (month >? 2) && leapyear then 1 else 0) in
  if preceding >? n
  then let month := month - 1 in
       let preceding :=
         preceding
         - (DAYS_IN_MONTH month + (if (month =? 2) && leapyear then 1 else 0)) in
       (month, n - preceding + 1)
  else (month, n - preceding + 1).

(** [_ord2ymd]: the year, month and day of an ordinal. *)
Definition ord2ymd (n : Z) : Z * Z * Z :=
  let n := n - 1 in
  let n400 := n / DI400Y in
  let n := n mod DI400Y in
  let year := n400 * 400 + 1 in
  let n100 := n / DI100Y in
  let n := n mod DI100Y in
  let n4 := n / DI4Y in
  let n := n mod DI4Y in
  let n1 := n / 365 in
  let n := n mod 365 in
  let year := year + (n100 * 100 + n4 * 4 + n1) in
  if (n1 =? 4) || (n100 =? 4)
  then (year - 1, 12, 31)
  else
    let leapyear := (n1 =? 3) && (negb (n4 =? 24) || (n100 =? 3)) in
    let '(month, day) := month_day leapyear n in
    (year, month, day).

Record date : Type := Date { year : Z; month : Z; day : Z }.

(** A [datetime]: a date and the time of day, in microseconds since
    midnight.  The routes never look at the time of day. *)
Record datetime : Type := DateTime { date_of : date; time_of : Z }.

(** What the constructor of [date] accepts. *)
Definition valid_date (d : date) : bool :=
  (MINYEAR <=? year d) && (year d <=? MAXYEAR)
  && (1 <=? month d) && (month d <=? 12)
  && (1 <=? day d) && (day d <=? days_in_month (year d) (month d)).

Definition toordinal (d : date) : Z := ymd2ord (year d) (month d) (day d).

Definition fromordinal (n : Z) : date :=
  let '(y, m, d) := ord2ymd n in Date y m d.

(** Monday is 0, Sunday is 6. *)
Definition weekday (d : date) : Z := (toordinal d + 6) mod 7.

(** [_isoweek1monday]: the ordinal of the Monday that starts ISO week 1
    of [year], the week with the year's first Thursday. *)
Definition isoweek1monday (year : Z) : Z :=
  let firstday := ymd2ord year 1 1 in
  let firstweekday := (firstday + 6) mod 7 in
  let week1monday := firstday - firstweekday in
  if firstweekday >? 3 then week1monday + 7 else week1monday.

(** [date.isocalendar()]: ISO year, ISO week number, ISO weekday. *)
Definition isocalendar (d : date) : Z * Z * Z :=
  let y := year d in
  let week1monday := isoweek1monday y in
  let today := toordinal d in
  let week := (today - week1monday) / 7 in
  let wday := (today - week1monday) mod 7 in
  if week <? 0
  then let week1monday := isoweek1monday (y - 1) in
       (y - 1, (today - week1monday) / 7 + 1, (today - week1monday) mod 7 + 1)
  else if (week >=? 52) && (today >=? isoweek1monday (y + 1))
       then (y + 1, 1, wday + 1)
       else (y, week + 1, wday + 1).

(** ISO years have 53 weeks when they start on a Thursday, or on a
    Wednesday and are leap years. *)
Definition long_year (year : Z) : bool :=
  let first_weekday := ymd2ord year 1 1 mod 7 in
  (first_weekday =? 4) || ((first_weekday =? 3) && is_leap year).

(** The integers a C [int] holds; the arguments of [fromisocalendar]
    are converted to that type. *)
Definition fits_int (n : Z) : bool := (- 2 ^ 31 <=? n) && (n <? 2 ^ 31).

(** [datetime.fromisocalendar(year, week, day)], at midnight:
    [ValueError] for an argument that is no C [int] (the
    [OverflowError] of the conversion is replaced), and for a year, week
    or day out of range. *)
Definition fromisocalendar (year week day : Z) : outcome datetime :=
  if negb (fits_int year && fits_int week && fits_int day)
  then Raise ValueError
  else if negb ((MINYEAR <=? year) && (year <=? MAXYEAR)) then Raise ValueError
  else if negb ((0 <? week) && (week <? 53))
          && negb ((week =? 53) && long_year year)
  then Raise ValueError
  else if negb ((0 <? day) && (day <? 8)) then Raise ValueError
  else
    let day_offset := (week - 1) * 7 + (day - 1) in
    let day_1 := isoweek1monday year in
    let d := fromordinal (day_1 + day_offset) in
    if valid_date d then Return (DateTime d 0) else Raise ValueError.

(** [dt + timedelta(days=n)]: [OverflowError] outside
    [date.min .. date.max]. *)
Definition add_days (dt : datetime) (n : Z) : outcome datetime :=
  let o := toordinal (date_of dt) + n in
  if (0 <? o) && (o <=? MAXORDINAL)
  then Return (DateTime (fromordinal o) (time_of dt))
  else Raise OverflowError.

(** [date.isoformat()], which is also how the [sqlite3] module binds a
    [date] parameter: ["%04d-%02d-%02d"]. *)
Definition isoformat (d : date) : string :=
  Text.four_digits (year d) +:+ "-" +:+ Text.two_digits (month d)
    +:+ "-" +:+ Text.two_digits (day d).

(** [dt.strftime("%Y-W%V")]: the Gregorian year, then the ISO week
    number on two digits.  The C library renders the year; glibc does
    not pad it, so that year 999 gives ["999"]. *)
Definition strftime_Y_W_V (dt : datetime) : string :=
  Text.unpadded (year (date_of dt)) +:+ "-W"
    +:+ Text.two_digits (isocalendar (date_of dt)).1.2.

End Calendar.

(** ** Float64: Python floats and the numbers of a rendering *)

Module Float64.

(** A Python [float] and an SQLite [REAL] are IEEE 754 binary64 values. *)
Abbreviation float := spec_float (only parsing).
Definition prec : Z := 53.
Definition emax : Z := 1024.

Definition zero : float := S754_zero false.
Definition fadd : float → float → float := SFadd prec emax.
Definition fdiv : float → float → float := SFdiv prec emax.
Definition flt : float → float → bool := SFltb.
Definition fle : float → float → bool := SFleb.
Definition feq : float → float → bool := SFeqb.

Definition is_nan (x : float) : bool :=
  match x with
  | S754_nan => true
  | _ => false
  end.

(** [float(n)] for an integer [n] that is exactly representable. *)
Definition of_int (n : Z) : float := binary_normalize prec emax n 0 false.

(** The quotient [p / q] rounded to the nearest integer, ties to even. *)
Definition round_half_even (p q : Z) : Z :=
  let n := p / q in
  match 2 * (p mod q) ?= q with
  | Lt => n
  | Gt => n + 1
  | Eq => if Z.even n then n else n + 1
  end.

(** [round(x, 2)] on a float: the exact value of [x] is rounded to two
    decimals, ties to even, and the decimal [n / 100] so obtained is
    converted back to the nearest float.  Infinities and NaN round to
    themselves, and so do the floats that are integers. *)
Definition round2 (x : float) : float :=
  match x with
  | S754_finite s m e =>
      if 0 <=? e then x
      else
        match round_half_even (Z.pos m * 100) (2 ^ (- e)) with
        | Z.pos n => fdiv (S754_finite s n 0) (S754_finite false 100 0)
        | _ => S754_zero s
        end
  | _ => x
  end.

(** A number as the dashboard computes it: [sum] of an empty list is
    the integer [0], otherwise a float. *)
Inductive pynum : Type :=
| PyInt (n : Z)
| PyFloat (x : float).

(** A column value read back from SQLite: [None] is SQL [NULL]. *)
Abbreviation value := (option spec_float) (only parsing).

(** [acc + item] inside [sum]: an integer accumulator is converted to
    float; adding [None] raises [TypeError]. *)
Definition py_add (acc : pynum) (item : value) : outcome pynum :=
  match item with
  | None => Raise TypeError
  | Some x =>
      match acc with
      | PyInt n => Return (PyFloat (fadd (of_int n) x))
      | PyFloat a => Return (PyFloat (fadd a x))
      end
  end.

(** [sum(items)], starting from the integer [0] and adding from left to
    right. *)
Fixpoint py_sum_from (acc : pynum) (items : list value) : outcome pynum :=
  match items with
  | [] => Return acc
  | item :: rest => let? acc' := py_add acc item in py_sum_from acc' rest
  end.

Definition py_sum (items : list value) : outcome pynum :=
  py_sum_from (PyInt 0) items.

(** [round(n, 2)]: an integer is returned as it is. *)
Definition py_round2 (n : pynum) : pynum :=
  match n with
  | PyInt k => PyInt k
  | PyFloat x => PyFloat (round2 x)
  end.

(** [a > b]; ordering [None] against anything raises [TypeError]. *)
Definition py_gt (a b : value) : outcome bool :=
  match a, b with
  | Some x, Some y => Return (flt y x)
  | _, _ => Raise TypeError
  end.

(** [a == b]. *)
Definition py_eq (a b : value) : bool :=
  match a, b with
  | Some x, Some y => feq x y
  | None, None => true
  | _, _ => false
  end.

(** [max(items)]: the first of the largest items; [ValueError] on an
    empty list. *)
Fixpoint py_max_from (best : value) (items : list value) : outcome value :=
  match items with
  | [] => Return best
  | item :: rest =>
      let? greater := py_gt item best in
      py_max_from (if greater then item else best) rest
  end.

Definition py_max (items : list value) : outcome value :=
  match items with
  | [] => Raise ValueError
  | first :: rest => py_max_from first rest
  end.

(** [items.index(v)]: the first position holding a value equal to [v];
    [ValueError] when there is none. *)
Fixpoint py_index (items : list value) (v : value) : outcome nat :=
  match items with
  | [] => Raise ValueError
  | item :: rest =>
      if py_eq item v then Return O
      else let? i := py_index rest v in Return (S i)
  end.

(** [items[i]]; [IndexError] out of range. *)
Definition py_getitem {A} (items : list A) (i : nat) : outcome A :=
  of_option IndexError (items !! i).

End Float64.

(** ** Sqlite: the two tables and the statements run on them *)

Module Sqlite.
Import Float64.

Record user_row : Type := UserRow {
  u_id : Z;
  u_email : string;
  u_password : string
}.

Record expense_row : Type := ExpenseRow {
  e_id : Z;
  e_user_id : Z;
  e_amount : float;
  e_category : string;
  e_date : string
}.

(** A database file: the rows of each table in rowid order. *)
Record database : Type := Database {
  users : list user_row;
  expenses : list expense_row
}.

(** [INTEGER PRIMARY KEY AUTOINCREMENT]: one more than the largest rowid
    of the table (no statement of the application deletes a row). *)
Definition next_rowid (ids : list Z) : Z := foldr Z.max 0 ids + 1.

(** TEXT comparison under the BINARY collation. *)
Definition text_le (a b : string) : bool :=
  match String.compare a b with
  | Gt => false
  | _ => true
  end.

(** [x BETWEEN lo AND hi]. *)
Definition between (x lo hi : string) : bool := text_le lo x && text_le x hi.

(** [INSERT INTO users (email, password) VALUES (?, ?)]: the [UNIQUE]
    constraint on [email] raises [IntegrityError]. *)
Definition insert_user (email password : string) (db : database)
  : outcome database :=
  if existsb (λ u, String.eqb (u_email u) email) (users db)
  then Raise IntegrityError
  else Return (Database
                 (users db ++ [UserRow (next_rowid (u_id <$> users db)) email password])
                 (expenses db)).

(** [SELECT * FROM users WHERE email = ?] followed by [fetchone()]. *)
Definition select_user (email : string) (db : database) : option user_row :=
  List.find (λ u, String.eqb (u_email u) email) (users db).

(** [INSERT INTO expenses (user_id, amount, category, date) VALUES
    (?, ?, ?, ?)].  A NaN is bound as [NULL], which [amount REAL NOT
    NULL] rejects with [IntegrityError]. *)
Definition insert_expense (user_id : Z) (amount : float)
    (category date : string) (db : database) : outcome database :=
  if is_nan amount then Raise IntegrityError
  else Return (Database
                 (users db)
                 (expenses db ++
                    [ExpenseRow (next_rowid (e_id <$> expenses db))
                       user_id amount category date])).

(** The [WHERE] clause of the aggregation. *)
Definition in_window (user_id : Z) (lo hi : string) (e : expense_row) : bool :=
  (e_user_id e =? user_id) && between (e_date e) lo hi.

(** [GROUP BY category] with [SUM(amount)]: the groups come out in
    ascending order of the category, each group adding its amounts to
    the float [0.0] in rowid order. *)
Fixpoint group_add (category : string) (amount : float)
    (groups : list (string * float)) : list (string * float) :=
  match groups with
  | [] => [(category, fadd zero amount)]
  | (c, total) :: rest =>
      match String.compare category c with
      | Lt => (category, fadd zero amount) :: groups
      | Eq => (c, fadd total amount) :: rest
      | Gt => (c, total) :: group_add category amount rest
      end
  end.

Definition group_sum (rows : list expense_row) : list (string * float) :=
  foldl (λ groups e, group_add (e_category e) (e_amount e) groups) [] rows.

(** A float handed back as a result column: NaN becomes [NULL]. *)
Definition result_double (x : float) : value :=
  if is_nan x then None else Some x.

(** [SELECT category, SUM(amount) as total FROM expenses WHERE user_id = ?
    AND date BETWEEN ? AND ? GROUP BY category], with [fetchall()]. *)
Definition select_totals (user_id : Z) (lo hi : string) (db : database)
  : list (string * value) :=
  prod_map id result_double
    <$> group_sum (List.filter (in_window user_id lo hi) (expenses db)).

End Sqlite.

(** ** Routes: requests, the store, and the routes of [app.py] *)

Module Routes.
Import Float64 Sqlite.

Inductive http_method : Type := GET | HEAD | POST.

Definition is_post (m : http_method) : bool :=
  match m with
  | POST => true
  | _ => false
  end.

(** A request: its method, the form fields of its body ([request.form])
    and the parameters of its query string ([request.args]). *)
Record request : Type := Request {
  method : http_method;
  form : gmap string string;
  args : gmap string string
}.

(** What a route reads from outside the request and the store: the
    clock ([datetime.today()]) and the salt that
    [generate_password_hash] draws. *)
Record environment : Type := Environment {
  today : Calendar.datetime;
  salt : string
}.

(** The store a route runs on: the committed database file, the view of
    the open connection (which includes what it has not committed yet),
    and the session. *)
Record store : Type := Store {
  disk : database;
  conn : database;
  session : gmap string Z
}.

(** The values [render_template("dashboard.html", ...)] receives. *)
Record dashboard_context : Type := DashboardContext {
  selected_week : string;
  total_spent : pynum;
  top_category : option string;
  categories : list string;
  amounts : list value
}.

Inductive context : Type :=
| NoContext
| ErrorContext (error : string)
| Dashboard (c : dashboard_context).

Inductive response : Type :=
| redirect (endpoint : string)
| render_template (template : string) (ctx : context).

(** *** The monad of route handlers: state and exceptions *)

Definition handler (A : Type) : Type := store → outcome A * store.

Definition ret {A} (a : A) : handler A := λ s, (Return a, s).

Definition lift {A} (o : outcome A) : handler A := λ s, (o, s).

Definition bind {A B} (m : handler A) (k : A → handler B) : handler B :=
  λ s, match m s with
       | (Return a, s') => k a s'
       | (Raise e, s') => (Raise e, s')
       end.

Notation "'let*' x := m 'in' k" := (bind m (fun x => k))
  (at level 10, x pattern, m at level 100, k at level 200,
   format "'[v' 'let*'  x  :=  m  'in' '/' k ']'").

Definition exn_eqb (a b : exn) : bool :=
  match a, b with
  | ValueError, ValueError | OverflowError, OverflowError
  | TypeError, TypeError | IndexError, IndexError
  | IntegrityError, IntegrityError
  | BadRequestKeyError, BadRequestKeyError => true
  | _, _ => false
  end.

(** [try: m  except e: h]. *)
Definition try_except {A} (m : handler A) (e : exn) (h : handler A)
  : handler A :=
  λ s, match m s with
       | (Raise e', s') => if exn_eqb e e' then h s' else (Raise e', s')
       | r => r
       end.

(** [try: m  finally: c], for a [c] that does not raise. *)
Definition try_finally {A} (m : handler A) (c : handler unit) : handler A :=
  λ s, let '(o, s') := m s in (o, (c s').2).

(** *** The connection *)

(** [get_db()]: a new connection sees the committed database. *)
Definition get_db : handler unit :=
  λ s, (Return tt, Store (disk s) (disk s) (session s)).

(** A statement that changes the database does so in the connection's
    view only. *)
Definition execute (stmt : database → outcome database) : handler unit :=
  λ s, match stmt (conn s) with
       | Return db => (Return tt, Store (disk s) db (session s))
       | Raise e => (Raise e, s)
       end.

Definition query {A} (q : database → A) : handler A :=
  λ s, (Return (q (conn s)), s).

(** [conn.commit()]. *)
Definition commit : handler unit :=
  λ s, (Return tt, Store (conn s) (conn s) (session s)).

(** [conn.close()]: what was not committed is rolled back. *)
Definition close : handler unit :=
  λ s, (Return tt, Store (disk s) (disk s) (session s)).

(** *** The request and the session *)

(** [request.form[key]]. *)
Definition form_field (req : request) (key : string) : handler string :=
  lift (of_option BadRequestKeyError (form req !! key)).

(** [current_user()]: [session.get("user_id")]. *)
Definition current_user : handler (option Z) :=
  λ s, (Return (session s !! "user_id"), s).

(** Truth value of [current_user()]: [None] and [0] are false. *)
Definition logged_in (user : option Z) : bool :=
  match user with
  | Some n => negb (n =? 0)
  | None => false
  end.

Definition session_set (key : string) (v : Z) : handler unit :=
  λ s, (Return tt, Store (disk s) (conn s) (<[key := v]> (session s))).

Definition session_clear : handler unit :=
  λ s, (Return tt, Store (disk s) (conn s) ∅).

(** [year, week = map(int, selected_week.split("-W"))]: every failure,
    of [int] or of the unpacking, is a [ValueError]. *)
Definition parse_week (selected_week : string) : outcome (Z * Z) :=
  match Text.split "-W" selected_week with
  | [a; b] =>
      let? year := Text.py_int a in
      let? week := Text.py_int b in
      Return (year, week)
  | _ => Raise ValueError
  end.

(** The Monday of the week a token names:
    [datetime.fromisocalendar(year, week, 1)]. *)
Definition week_monday (selected_week : string) : outcome Calendar.datetime :=
  let? (year, week) := parse_week selected_week in
  Calendar.fromisocalendar year week 1.

(** [categories[amounts.index(max(amounts))] if amounts else None] *)
Definition pick_top (categories : list string) (amounts : list value)
  : outcome (option string) :=
  match amounts with
  | [] => Return None
  | _ =>
      let? best := py_max amounts in
      let? i := py_index amounts best in
      let? c := py_getitem categories i in
      Return (Some c)
  end.

(** The data preparation of [/dashboard], from the rows of the
    aggregation to the rendering. *)
Definition prepare (selected_week : string) (rows : list (string * value))
  : outcome response :=
  let categories := rows.*1 in
  let amounts := rows.*2 in
  let? total := py_sum amounts in
  let total_spent := py_round2 total in
  let? top_category := pick_top categories amounts in
  Return (render_template "dashboard.html"
            (Dashboard
               (DashboardContext selected_week total_spent top_category
                  categories amounts))).

(** The week selection of [/dashboard]: the Monday that starts the
    window and the week token handed to the template.  An absent or
    empty [week] parameter selects the week of [today]. *)
Definition select_week (env : environment) (req : request)
  : outcome (Calendar.datetime * string) :=
  match args req !! "week" with
  | Some (String c w) =>
      let? start_date := week_monday (String c w) in
      Return (start_date, String c w)
  | _ =>
      let today := today env in
      let? start_date :=
        Calendar.add_days today
          (- Calendar.weekday (Calendar.date_of today)) in
      Return (start_date, Calendar.strftime_Y_W_V today)
  end.

(** The week selection, the aggregation and the data preparation of
    [/dashboard]. *)
Definition aggregate (env : environment) (req : request) (user_id : Z)
  : handler response :=
  let* (start_date, selected_week) := lift (select_week env req) in
  let* end_date := lift (Calendar.add_days start_date 6) in
  let* rows :=
    query (select_totals user_id
             (Calendar.isoformat (Calendar.date_of start_date))
             (Calendar.isoformat (Calendar.date_of end_date))) in
  let* _ := close in
  lift (prepare selected_week rows).

(** [login_required()]: the redirect for a visitor who is not logged in,
    [None] otherwise.  No route calls it; [/dashboard] repeats its
    test. *)
Definition login_required : handler (option response) :=
  let* user := current_user in
  if negb (logged_in user) then ret (Some (redirect "login")) else ret None.

(** [/] *)
Definition index : handler response :=
  ret (render_template "start_page.html" NoContext).

(** [/logout] *)
Definition logout : handler response :=
  let* _ := session_clear in
  ret (redirect "login").

Section Library.

(** The library functions taken as given: werkzeug's password
    hashing, with the salt made explicit, and Python's [float(str)],
    which answers [None] where it raises [ValueError]. *)
Variable generate_password_hash : string → string → string.
Variable check_password_hash : string → string → bool.
Variable py_float : string → option float.

(** [/signup] *)
Definition signup (env : environment) (req : request) : handler response :=
  if is_post (method req) then
    let* email := form_field req "email" in
    let* plain := form_field req "password" in
    let password := generate_password_hash (salt env) plain in
    let* _ := get_db in
    let* returned :=
      try_finally
        (try_except
           (let* _ := execute (insert_user email password) in
            let* _ := commit in
            ret None)
           IntegrityError
           (ret (Some (render_template "signup.html"
                         (ErrorContext "Email already exists.")))))
        close in
    match returned with
    | Some r => ret r
    | None => ret (redirect "login")
    end
  else ret (render_template "signup.html" NoContext).

(** [/login] *)
Definition login (req : request) : handler response :=
  if is_post (method req) then
    let* email := form_field req "email" in
    let* password := form_field req "password" in
    let* _ := get_db in
    let* user := query (select_user email) in
    let* _ := close in
    match user with
    | Some u =>
        if check_password_hash (u_password u) password
        then let* _ := session_set "user_id" (u_id u) in
             ret (redirect "dashboard")
        else ret (render_template "login.html"
                    (ErrorContext "Invalid credentials."))
    | None => ret (render_template "login.html"
                     (ErrorContext "Invalid credentials."))
    end
  else ret (render_template "login.html" NoContext).

(** The expense insertion of [/dashboard]. *)
Definition add_expense (user_id : Z) (req : request) : handler unit :=
  let* text := form_field req "amount" in
  let* amount := lift (of_option ValueError (py_float text)) in
  let* category := form_field req "category" in
  let* date := form_field req "date" in
  let* _ := execute (insert_expense user_id amount category date) in
  commit.

(** [/dashboard] *)
Definition dashboard (env : environment) (req : request) : handler response :=
  let* user := current_user in
  if negb (logged_in user) then ret (redirect "login")
  else
    let user_id := default 0 user in
    let* _ := get_db in
    let* _ := if is_post (method req) then add_expense user_id req else ret tt in
    aggregate env req user_id.

End Library.

(** Serving a request: the handler runs on a store whose connection
    view is the committed database; what the request leaves behind is
    the committed database and the session.  An exception that leaves
    the handler drops the connection, and with it what was not
    committed. *)
Definition serve (h : handler response) (db : database)
    (cookie : gmap string Z) : outcome response * database * gmap string Z :=
  let '(o, s) := h (Store db db cookie) in
  (o, disk s, session s).

End Routes.

(** ** A sample library, to run the routes on concrete requests *)

Module Sample.
Import Float64.

(** A stand-in for werkzeug's hashing: the hash holds the plain text
    behind the salt.  It verifies what it generated, which is all the
    routes use. *)
Definition generate_password_hash (salt plain : string) : string :=
  plain +:+ "$" +:+ salt.

Definition check_password_hash (hash plain : string) : bool :=
  String.prefix (plain +:+ "$") hash.

(** [float(str)] on plain unsigned decimals [ddd] and [ddd.ddd]; the
    quotient of the two integers is rounded to the nearest float. *)
Fixpoint decimal (mantissa scale : Z) (seen_point : bool) (s : string)
  : option (Z * Z) :=
  match s with
  | "" => Some (mantissa, scale)
  | String c r =>
      if Ascii.eqb c "."
      then if seen_point then None else decimal mantissa scale true r
      else match Text.digit_value c with
           | Some d =>
               decimal (10 * mantissa + d)
                 (if seen_point then 10 * scale else scale) seen_point r
           | None => None
           end
  end.

Definition py_float (s : string) : option float :=
  match s with
  | "" | "." => None
  | _ =>
      match decimal 0 1 false s with
      | Some (Z.pos m, Z.pos k) =>
          Some (fdiv (S754_finite false m 0) (S754_finite false k 0))
      | Some (0, _) => Some zero
      | _ => None
      end
  end.

(** The float [42.5], which is [float("42.50")]. *)
Definition amount_42_50 : float := S754_finite false 5981343255101440 (-47).

Definition signup := Routes.signup generate_password_hash.
Definition login := Routes.login check_password_hash.
Definition dashboard := Routes.dashboard py_float.

(** Sample data: Thursday 2024-01-18 at midnight, one account with one
    expense, the session of that account, and a few requests. *)
Definition env : Routes.environment :=
  Routes.Environment (Calendar.DateTime (Calendar.Date 2024 1 18) 0) "c0ffee".

Definition ann : Sqlite.user_row :=
  Sqlite.UserRow 1 "ann@example.org" (generate_password_hash "c0ffee" "secret").

Definition db : Sqlite.database :=
  Sqlite.Database [ann]
    [Sqlite.ExpenseRow 1 1 amount_42_50 "Food" "2024-01-17"].

Definition cookie : gmap string Z := {["user_id" := 1]}.

Definition credentials (email password : string) : Routes.request :=
  Routes.Request Routes.POST
    (<["email" := email]> {["password" := password]}) ∅.

Definition view_week (token : string) : Routes.request :=
  Routes.Request Routes.GET ∅ {["week" := token]}.

Definition post_expense (amount category date : string)
    (query : gmap string string) : Routes.request :=
  Routes.Request Routes.POST
    (<["amount" := amount]> (<["category" := category]> {["date" := date]}))
    query.

End Sample.

(** ** Boolean checks, for facts settled by computation over a range *)

Module Checks.

(** The outcome is the integer [n]. *)
Definition reads_back (n : Z) (o : outcome Z) : bool :=
  match o with
  | Return v => v =? n
  | Raise _ => false
  end.

(** Two comparisons agree. *)
Definition same_comparison (c1 c2 : comparison) : bool :=
  match c1, c2 with
  | Eq, Eq | Lt, Lt | Gt, Gt => true
  | _, _ => false
  end.

End Checks.

(** ** Vocabulary of the statements *)

Module Views.
Import Float64 Sqlite Routes.

(** What a user owns in the expenses table: amount, category and date
    of the rows with that [user_id], in rowid order. *)
Definition user_view (user_id : Z) (db : database)
  : list (float * string * string) :=
  (λ e, (e_amount e, e_category e, e_date e))
    <$> List.filter (λ e, e_user_id e =? user_id) (expenses db).

(** The week selection, the window and the data preparation of
    [/dashboard] as a function of the database the aggregation reads. *)
Definition summary (env : environment) (req : request) (user_id : Z)
    (db : database) : outcome response :=
  let? (start_date, selected_week) := select_week env req in
  let? end_date := Calendar.add_days start_date 6 in
  prepare selected_week
    (select_totals user_id
       (Calendar.isoformat (Calendar.date_of start_date))
       (Calendar.isoformat (Calendar.date_of end_date)) db).

(** The database the insertion step of [/dashboard] commits: the one it
    found for a request that is no POST, the one with the new row for a
    POST whose form is accepted; the exception of the step otherwise. *)
Definition inserted (py_float : string → option float) (user_id : Z)
    (req : request) (db : database) : outcome database :=
  if is_post (method req) then
    let? text := of_option BadRequestKeyError (form req !! "amount") in
    let? amount := of_option ValueError (py_float text) in
    let? category := of_option BadRequestKeyError (form req !! "category") in
    let? date := of_option BadRequestKeyError (form req !! "date") in
    insert_expense user_id amount category date db
  else Return db.

(** The well-formed week token [YYYY-Www]. *)
Definition week_token (year week : Z) : string :=
  Text.four_digits year +:+ "-W" +:+ Text.two_digits week.

(** The weeks an ISO year has: 1 to 52, and 53 in a long year. *)
Definition valid_week (year week : Z) : bool :=
  (Calendar.MINYEAR <=? year) && (year <=? Calendar.MAXYEAR)
  && (1 <=? week)
  && ((week <=? 52) || ((week =? 53) && Calendar.long_year year)).

(** The ordinal of the Monday of ISO week [week] of [year]. *)
Definition monday_ordinal (year week : Z) : Z :=
  Calendar.isoweek1monday year + (week - 1) * 7.

(** The values SQLite can hand back for [SUM(amount)]: [NULL] or a
    float that is not NaN. *)
Definition sql_value (v : value) : Prop :=
  v = None ∨ ∃ x, v = Some x ∧ is_nan x = false.

(** Floats proper. *)
Definition number (v : value) : Prop :=
  ∃ x, v = Some x ∧ is_nan x = false.

(** The float of [q] hundredths with the sign [negative]: the quotient
    of the two integers, as the conversion of a decimal rounds it. *)
Definition hundredths (negative : bool) (q : Z) : float :=
  match q with
  | Z.pos n => fdiv (S754_finite negative n 0) (S754_finite false 100 0)
  | _ => S754_zero negative
  end.

(** [r] is [x] rounded to two decimals.  For a float [m * 2 ^ e] with
    binary places ([e < 0]) it is the float of [q] hundredths, where
    [q] is the integer nearest to [100 * m * 2 ^ e], the even one of
    the two when they are equally near; a float without binary places,
    an infinity and NaN are left as they are. *)
Definition rounded_to_cents (x r : float) : Prop :=
  match x with
  | S754_finite s m e =>
      if e <? 0 then
        ∃ q,
          0 ≤ q
          ∧ 2 * Z.abs (100 * Z.pos m - q * 2 ^ (- e)) ≤ 2 ^ (- e)
          ∧ (2 * Z.abs (100 * Z.pos m - q * 2 ^ (- e)) = 2 ^ (- e) →
             Z.even q = true)
          ∧ r = hundredths s q
      else r = x
  | _ => r = x
  end.

End Views.

(** ** The schema: [init_db] *)

Module Schema.
Import Sqlite.

(** The database file as the process finds it when it starts: each of
    the two tables is absent or holds its rows. *)
Record db_file : Type := DbFile {
  users_table : option (list user_row);
  expenses_table : option (list expense_row)
}.

(** [CREATE TABLE IF NOT EXISTS]: an absent table is created empty, a
    table that exists is left alone. *)
Definition create_table_if_not_exists {A} (table : option (list A))
  : option (list A) :=
  match table with
  | Some rows => Some rows
  | None => Some []
  end.

(** [init_db()]: both statements, then the commit. *)
Definition init_db (file : db_file) : db_file :=
  DbFile (create_table_if_not_exists (users_table file))
    (create_table_if_not_exists (expenses_table file)).

(** The database the routes work on: both tables are needed. *)
Definition tables (file : db_file) : option database :=
  match users_table file, expenses_table file with
  | Some users, Some expenses => Some (Database users expenses)
  | _, _ => None
  end.

End Schema.

(** ** The application: its routes, and the states requests lead to *)

Module App.
Import Float64 Sqlite Routes.

Section Library.
Variable generate_password_hash : string → string → string.
Variable check_password_hash : string → string → bool.
Variable py_float : string → option float.

(** A request to one of the five routes, with what the route reads. *)
Inductive call : Type :=
| ToIndex
| ToSignup (env : environment) (req : request)
| ToLogin (req : request)
| ToLogout
| ToDashboard (env : environment) (req : request).

Definition route (c : call) : handler response :=
  match c with
  | ToIndex => index
  | ToSignup env req => signup generate_password_hash env req
  | ToLogin req => login check_password_hash req
  | ToLogout => logout
  | ToDashboard env req => dashboard py_float env req
  end.

(** The states of a deployment that starts on an empty database: the
    database file and the session cookies issued so far.  A client
    presents any cookie that was issued (the cookie is signed, so it
    presents no other) and receives the session the route leaves. *)
Inductive reachable : database → list (gmap string Z) → Prop :=
| reachable_start : reachable (Database [] []) [∅]
| reachable_request db issued cookie c o db' cookie' :
    reachable db issued →
    cookie ∈ issued →
    serve (route c) db cookie = (o, db', cookie') →
    reachable db' (cookie' :: issued).

End Library.

End App.

(** ** Invariants of the store *)

Module Invariants.
Import Float64 Sqlite Routes.

(** What the constraints of the schema and the routes maintain on the
    database: emails and ids are unique, ids are positive, no amount is
    NaN, and every expense belongs to an account. *)
Record consistent (db : database) : Prop := Consistent {
  emails_unique : NoDup (u_email <$> users db);
  user_ids_unique : NoDup (u_id <$> users db);
  user_ids_positive : ∀ u, u ∈ users db → 0 < u_id u;
  expense_ids_unique : NoDup (e_id <$> expenses db);
  amounts_not_nan : ∀ e, e ∈ expenses db → is_nan (e_amount e) = false;
  expenses_owned :
    ∀ e, e ∈ expenses db → ∃ u, u ∈ users db ∧ u_id u = e_user_id e
}.

(** A session names no account, or an account of the database. *)
Definition session_owned (db : database) (cookie : gmap string Z) : Prop :=
  ∀ uid, cookie !! "user_id" = Some uid → ∃ u, u ∈ users db ∧ u_id u = uid.

(** [l1] is [l2] with rows added at the end. *)
Definition extended_by {A} (l1 l2 : list A) : Prop :=
  ∃ added, l2 = (l1 ++ added)%list.

End Invariants.

(** ** The groups of the aggregation *)

Module Grouping.
Import Float64 Sqlite.

(** Groups in strictly ascending order of their categories. *)
Definition ascending (groups : list (string * float)) : Prop :=
  StronglySorted (λ a b, String.compare a b = Lt) groups.*1.

(** The total a category has in a list of groups. *)
Definition total_of (category : string) (groups : list (string * float))
  : option float :=
  snd <$> List.find (λ g, String.eqb g.1 category) groups.

(** The amounts of the rows of a category, in order. *)
Definition amounts_of (category : string) (rows : list expense_row)
  : list float :=
  e_amount <$> List.filter (λ e, String.eqb (e_category e) category) rows.

(** Adding the amounts [xs] to the total [init] of a group that may not
    exist yet. *)
Definition add_all (init : option float) (xs : list float) : option float :=
  match xs with
  | [] => init
  | _ => Some (foldl fadd (default zero init) xs)
  end.

End Grouping.

(** * Properties of the routes *)

Import Float64 Sqlite Routes Views.

(** Unfolds the handler monad so that a route applied to a store
    computes. *)
Ltac run_handler :=
  unfold serve, bind, ret, lift, try_finally, try_except, get_db, execute,
    query, commit, close, form_field, current_user, session_set,
    session_clear, of_option; simpl.

(** ** Facts about text *)

Module TextFacts.
Import Text Checks.

(** A boolean check that holds on a whole range holds at each of its
    points: finite facts about digits are settled by computation. *)
Lemma range_check (P : Z → bool) (lo n : Z) :
  forallb P (seqZ lo n) = true → ∀ k, lo ≤ k < lo + n → P k = true.
Proof.
  intros Hall k Hk.
  apply (proj1 (forallb_forall P (seqZ lo n)) Hall).
  apply list_elem_of_In, elem_of_seqZ. lia.
Qed.

Lemma reads_back_spec n o : reads_back n o = true → o = Return n.
Proof.
  destruct o as [v|e]; simpl; [|done].
  by intros ->%Z.eqb_eq.
Qed.

Lemma same_comparison_spec c1 c2 : same_comparison c1 c2 = true → c1 = c2.
Proof. by destruct c1, c2. Qed.

Lemma digit_value_char d : 0 ≤ d ≤ 9 → digit_value (digit_char d) = Some d.
Proof.
  intros Hd.
  assert (Hall : forallb
                   (λ d, reads_back d
                           (of_option ValueError (digit_value (digit_char d))))
                   (seqZ 0 10) = true) by (by vm_compute).
  pose proof (range_check _ 0 10 Hall d ltac:(lia)) as Hd'.
  apply reads_back_spec in Hd'.
  by destruct (digit_value (digit_char d)); inversion Hd'.
Qed.

(** [int] reads the zero-padded renderings back. *)
Lemma py_int_four_digits y : 0 ≤ y ≤ 9999 → py_int (four_digits y) = Return y.
Proof.
  intros Hy.
  assert (Hall : forallb (λ y, reads_back y (py_int (four_digits y)))
                   (seqZ 0 10000) = true) by (by vm_compute).
  apply reads_back_spec, (range_check _ 0 10000 Hall). lia.
Qed.

Lemma py_int_two_digits w : 0 ≤ w ≤ 99 → py_int (two_digits w) = Return w.
Proof.
  intros Hw.
  assert (Hall : forallb (λ w, reads_back w (py_int (two_digits w)))
                   (seqZ 0 100) = true) by (by vm_compute).
  apply reads_back_spec, (range_check _ 0 100 Hall). lia.
Qed.

(** Digit characters are ordered as the digits. *)
Lemma ascii_compare_digits a b :
  0 ≤ a ≤ 9 → 0 ≤ b ≤ 9 →
  Ascii.compare (digit_char a) (digit_char b) = (a ?= b).
Proof.
  intros Ha Hb.
  assert (Hall : forallb
                   (λ a, forallb
                           (λ b, same_comparison
                                   (Ascii.compare (digit_char a) (digit_char b))
                                   (a ?= b))
                           (seqZ 0 10))
                   (seqZ 0 10) = true) by (by vm_compute).
  apply same_comparison_spec.
  apply (range_check _ 0 10 (range_check _ 0 10 Hall a ltac:(lia))). lia.
Qed.

(** Linear arithmetic with division and remainder by constants. *)
Ltac div_lia := Z.to_euclidean_division_equations; lia.

Lemma digit_cases d :
  0 ≤ d ≤ 9 →
  d = 0 ∨ d = 1 ∨ d = 2 ∨ d = 3 ∨ d = 4 ∨ d = 5 ∨ d = 6 ∨ d = 7 ∨ d = 8
  ∨ d = 9.
Proof. lia. Qed.

(** A digit starts no separator. *)
Lemma split_from_digit d r :
  0 ≤ d ≤ 9 →
  split_from "-W" 0 (String (digit_char d) r)
  = (String (digit_char d) (split_from "-W" 0 r).1, (split_from "-W" 0 r).2).
Proof.
  intros Hd.
  destruct (digit_cases d Hd) as [->|[->|[->|[->|[->|[->|[->|[->|[->| ->]]]]]]]]];
    simpl; by destruct (split_from "-W" 0 r).
Qed.

Lemma split_week_token (a b c d e f : Z) :
  0 ≤ a ≤ 9 → 0 ≤ b ≤ 9 → 0 ≤ c ≤ 9 →
  0 ≤ d ≤ 9 → 0 ≤ e ≤ 9 → 0 ≤ f ≤ 9 →
  split "-W"
    (String (digit_char a) (String (digit_char b) (String (digit_char c)
       (String (digit_char d)
          (String "-" (String "W"
             (String (digit_char e) (String (digit_char f) ""))))))))
  = [String (digit_char a) (String (digit_char b) (String (digit_char c)
       (String (digit_char d) "")));
     String (digit_char e) (String (digit_char f) "")].
Proof.
  intros Ha Hb Hc Hd He Hf. unfold split.
  rewrite !split_from_digit by done.
  change (split_from "-W" 0 (String "-" (String "W" ?r)))
    with (let '(piece, rest) := split_from "-W" 0 r in ("", piece :: rest)).
  rewrite !split_from_digit by done. reflexivity.
Qed.

(** Comparison of strings, one character at a time. *)
Lemma compare_cons c1 c2 s1 s2 :
  String.compare (String c1 s1) (String c2 s2)
  = match Ascii.compare c1 c2 with
    | Eq => String.compare s1 s2
    | ne => ne
    end.
Proof. reflexivity. Qed.

Lemma append_cons c s t : String c s +:+ t = String c (s +:+ t).
Proof. reflexivity. Qed.

Lemma append_nil t : "" +:+ t = t.
Proof. reflexivity. Qed.

(** Zero-padded numbers of the same width compare as numbers. *)
Lemma compare_two_digits a b s t :
  0 ≤ a ≤ 99 → 0 ≤ b ≤ 99 →
  String.compare (two_digits a +:+ s) (two_digits b +:+ t)
  = match a ?= b with
    | Eq => String.compare s t
    | ne => ne
    end.
Proof.
  intros Ha Hb. unfold two_digits. rewrite !append_cons, !append_nil.
  rewrite !compare_cons, !ascii_compare_digits by div_lia.
  destruct (Z.compare_spec (a / 10) (b / 10)),
    (Z.compare_spec (a mod 10) (b mod 10)),
    (Z.compare_spec a b); try done; div_lia.
Qed.

Lemma four_digits_split y s :
  0 ≤ y ≤ 9999 →
  four_digits y +:+ s = two_digits (y / 100) +:+ two_digits (y mod 100) +:+ s.
Proof.
  intros Hy. unfold four_digits, two_digits.
  rewrite !append_cons, !append_nil.
  replace (y / 100 / 10) with (y / 1000) by div_lia.
  replace (y / 100 mod 10) with ((y / 100) mod 10) by done.
  replace (y mod 100 / 10) with (y / 10 mod 10) by div_lia.
  replace ((y mod 100) mod 10) with (y mod 10) by div_lia.
  reflexivity.
Qed.

Lemma compare_four_digits a b s t :
  0 ≤ a ≤ 9999 → 0 ≤ b ≤ 9999 →
  String.compare (four_digits a +:+ s) (four_digits b +:+ t)
  = match a ?= b with
    | Eq => String.compare s t
    | ne => ne
    end.
Proof.
  intros Ha Hb. rewrite !four_digits_split by done.
  rewrite !compare_two_digits by div_lia.
  destruct (Z.compare_spec (a / 100) (b / 100)),
    (Z.compare_spec (a mod 100) (b mod 100)),
    (Z.compare_spec a b); try done; div_lia.
Qed.

End TextFacts.

(** ** Facts about the calendar *)

Module CalendarFacts.
Import Text Calendar TextFacts.

Ltac leap_cases y :=
  unfold leap_days, is_leap in *;
  destruct (Z.eqb_spec (y mod 4) 0), (Z.eqb_spec (y mod 100) 0),
    (Z.eqb_spec (y mod 400) 0); simpl in *.

(** A year has 365 days, and one more when it is a leap year. *)
Lemma days_before_year_succ y :
  days_before_year (y + 1) = days_before_year y + 365 + leap_days y.
Proof.
  unfold days_before_year. leap_cases y; div_lia.
Qed.

Lemma days_before_year_mono y1 y2 :
  y1 ≤ y2 → days_before_year y1 + 365 * (y2 - y1) ≤ days_before_year y2.
Proof.
  unfold days_before_year. intros. div_lia.
Qed.

Lemma month_cases m : 1 ≤ m ≤ 12 →
  m = 1 ∨ m = 2 ∨ m = 3 ∨ m = 4 ∨ m = 5 ∨ m = 6 ∨ m = 7 ∨ m = 8 ∨ m = 9
  ∨ m = 10 ∨ m = 11 ∨ m = 12.
Proof. lia. Qed.

Ltac month_split m H :=
  destruct (month_cases m H)
    as [->|[->|[->|[->|[->|[->|[->|[->|[->|[->|[->| ->]]]]]]]]]]].

Lemma valid_date_spec d :
  valid_date d = true ↔
  1 ≤ year d ≤ 9999
  ∧ 1 ≤ month d ≤ 12
  ∧ 1 ≤ day d ≤ days_in_month (year d) (month d).
Proof.
  unfold valid_date, MINYEAR, MAXYEAR.
  rewrite !andb_true_iff, !Z.leb_le. tauto.
Qed.

(** The day of the year of a valid month and day. *)
Lemma day_of_year_bounds y m d :
  1 ≤ m ≤ 12 → 1 ≤ d ≤ days_in_month y m →
  1 ≤ days_before_month y m + d ≤ 365 + leap_days y.
Proof.
  intros Hm Hd. unfold days_before_month, days_in_month, leap_days in *.
  destruct (is_leap y); month_split m Hm; simpl in *; lia.
Qed.

(** Within a year, days are ordered as (month, day) pairs. *)
Lemma day_of_year_compare y m1 d1 m2 d2 :
  1 ≤ m1 ≤ 12 → 1 ≤ d1 ≤ days_in_month y m1 →
  1 ≤ m2 ≤ 12 → 1 ≤ d2 ≤ days_in_month y m2 →
  (days_before_month y m1 + d1 ?= days_before_month y m2 + d2)
  = match m1 ?= m2 with
    | Eq => d1 ?= d2
    | ne => ne
    end.
Proof.
  intros Hm1 Hd1 Hm2 Hd2. unfold days_before_month, days_in_month in *.
  destruct (is_leap y); month_split m1 Hm1; month_split m2 Hm2; simpl in *;
    try reflexivity;
    first [ apply Z.compare_lt_iff; lia | apply Z.compare_gt_iff; lia
          | destruct (Z.compare_spec d1 d2);
            first [ apply Z.compare_eq_iff | apply Z.compare_lt_iff
                  | apply Z.compare_gt_iff ]; lia ].
Qed.

(** Ordinals are ordered as (year, month, day) triples. *)
Lemma toordinal_compare d1 d2 :
  valid_date d1 = true → valid_date d2 = true →
  (toordinal d1 ?= toordinal d2)
  = match year d1 ?= year d2 with
    | Eq => match month d1 ?= month d2 with
            | Eq => day d1 ?= day d2
            | ne => ne
            end
    | ne => ne
    end.
Proof.
  intros (Hy1 & Hm1 & Hd1)%valid_date_spec (Hy2 & Hm2 & Hd2)%valid_date_spec.
  unfold toordinal, ymd2ord.
  pose proof (day_of_year_bounds _ _ _ Hm1 Hd1) as B1.
  pose proof (day_of_year_bounds _ _ _ Hm2 Hd2) as B2.
  destruct (Z.compare_spec (year d1) (year d2)) as [Heq|Hlt|Hgt].
  - rewrite Heq in *. rewrite <- !Z.add_assoc, Z.add_compare_mono_l.
    by apply day_of_year_compare.
  - apply Z.compare_lt_iff.
    pose proof (days_before_year_succ (year d1)).
    pose proof (days_before_year_mono (year d1 + 1) (year d2)). lia.
  - apply Z.compare_gt_iff.
    pose proof (days_before_year_succ (year d2)).
    pose proof (days_before_year_mono (year d2 + 1) (year d1)). lia.
Qed.

(** On valid dates the byte order of the ISO renderings is the order of
    the dates: this is what makes [BETWEEN] on TEXT a date window. *)
Lemma isoformat_compare d1 d2 :
  valid_date d1 = true → valid_date d2 = true →
  String.compare (isoformat d1) (isoformat d2) = (toordinal d1 ?= toordinal d2).
Proof.
  intros H1 H2. rewrite (toordinal_compare d1 d2 H1 H2).
  apply valid_date_spec in H1 as (Hy1 & Hm1 & Hd1).
  apply valid_date_spec in H2 as (Hy2 & Hm2 & Hd2).
  assert (Hdim : ∀ y m, 1 ≤ m ≤ 12 → days_in_month y m ≤ 31).
  { intros y m Hm. unfold days_in_month.
    destruct (_ && _); [lia|]. month_split m Hm; simpl; lia. }
  pose proof (Hdim (year d1) (month d1) Hm1).
  pose proof (Hdim (year d2) (month d2) Hm2).
  unfold isoformat.
  rewrite compare_four_digits by lia.
  destruct (year d1 ?= year d2); [|done..].
  rewrite ?(append_cons "-"), ?append_nil, compare_cons.
  change (Ascii.compare "-" "-") with Eq. cbv iota.
  rewrite compare_two_digits by lia.
  destruct (month d1 ?= month d2); [|done..].
  rewrite ?(append_cons "-"), ?append_nil, compare_cons.
  change (Ascii.compare "-" "-") with Eq. cbv iota.
  replace (two_digits (day d1)) with (two_digits (day d1) +:+ "")
    by (unfold two_digits; by rewrite !append_cons, append_nil).
  replace (two_digits (day d2)) with (two_digits (day d2) +:+ "")
    by (unfold two_digits; by rewrite !append_cons, append_nil).
  rewrite compare_two_digits by lia.
  by destruct (day d1 ?= day d2).
Qed.

(** The month estimate of [_ord2ymd] and its correction, checked on
    every day of a common and of a leap year. *)
Lemma month_day_spec (leap : bool) (n : Z) :
  0 ≤ n < 365 + (if leap then 1 else 0) →
  1 ≤ (month_day leap n).1 ≤ 12
  ∧ 1 ≤ (month_day leap n).2
  ∧ (month_day leap n).2
    ≤ DAYS_IN_MONTH (month_day leap n).1
      + (if ((month_day leap n).1 =? 2) && leap then 1 else 0)
  ∧ DAYS_BEFORE_MONTH (month_day leap n).1
    + (if ((month_day leap n).1 >? 2) && leap then 1 else 0)
    + (month_day leap n).2 = n + 1.
Proof.
  intros Hn.
  set (ok := λ (leap : bool) (n : Z),
         let '(m, d) := month_day leap n in
         (1 <=? m) && (m <=? 12) && (1 <=? d)
         && (d <=? DAYS_IN_MONTH m + (if (m =? 2) && leap then 1 else 0))
         && (DAYS_BEFORE_MONTH m + (if (m >? 2) && leap then 1 else 0) + d
             =? n + 1)).
  assert (Hok : ok leap n = true).
  { destruct leap.
    - apply (range_check (ok true) 0 366); [by vm_compute | lia].
    - apply (range_check (ok false) 0 365); [by vm_compute | lia]. }
  unfold ok in Hok. destruct (month_day leap n) as [m d]. simpl.
  rewrite !andb_true_iff, !Z.leb_le, Z.eqb_eq in Hok. lia.
Qed.

(** [_ord2ymd] inverts [_ymd2ord] on the ordinals of the calendar and
    yields a valid date. *)
Lemma ord2ymd_spec n :
  1 ≤ n ≤ MAXORDINAL →
  ∃ y m d,
    ord2ymd n = (y, m, d)
    ∧ 1 ≤ y ≤ 9999 ∧ 1 ≤ m ≤ 12 ∧ 1 ≤ d ≤ days_in_month y m
    ∧ ymd2ord y m d = n.
Proof.
  unfold MAXORDINAL. intros Hn. unfold ord2ymd, DI400Y, DI100Y, DI4Y.
  set (n0 := n - 1).
  set (n400 := n0 / 146097). set (r400 := n0 mod 146097).
  set (n100 := r400 / 36524). set (r100 := r400 mod 36524).
  set (n4 := r100 / 1461). set (r4 := r100 mod 1461).
  set (n1 := r4 / 365). set (r1 := r4 mod 365).
  assert (H400 : n0 = 146097 * n400 + r400 ∧ 0 ≤ r400 < 146097 ∧ 0 ≤ n400 ≤ 24)
    by (subst n0 n400 r400; div_lia).
  assert (H100 : r400 = 36524 * n100 + r100 ∧ 0 ≤ r100 < 36524 ∧ 0 ≤ n100 ≤ 4)
    by (subst n100 r100; div_lia).
  assert (H4 : r100 = 1461 * n4 + r4 ∧ 0 ≤ r4 < 1461 ∧ 0 ≤ n4 ≤ 24)
    by (subst n4 r4; div_lia).
  assert (H1 : r4 = 365 * n1 + r1 ∧ 0 ≤ r1 < 365 ∧ 0 ≤ n1 ≤ 4)
    by (subst n1 r1; div_lia).
  assert (Hn0 : n0 = n - 1) by done.
  clearbody n0 n400 r400 n100 r100 n4 r4 n1 r1.
  destruct ((n1 =? 4) || (n100 =? 4)) eqn:Hlast.
  - exists (n400 * 400 + 1 + (n100 * 100 + n4 * 4 + n1) - 1), 12, 31.
    split; [done|].
    apply orb_true_iff in Hlast. rewrite !Z.eqb_eq in Hlast.
    assert (Hy : days_before_year (n400 * 400 + 1 + (n100 * 100 + n4 * 4 + n1) - 1) + 365
                 + leap_days (n400 * 400 + 1 + (n100 * 100 + n4 * 4 + n1) - 1)
                 = n0 + 1 ∧ is_leap (n400 * 400 + 1 + (n100 * 100 + n4 * 4 + n1) - 1) = true).
    { unfold days_before_year. 
      set (y := n400 * 400 + 1 + (n100 * 100 + n4 * 4 + n1) - 1).
      assert (y = n400 * 400 + (n100 * 100 + n4 * 4 + n1)) by lia.
      leap_cases y; split; try done; div_lia. }
    destruct Hy as [Hy Hleap].
    unfold ymd2ord, days_before_month, days_in_month. rewrite Hleap. simpl.
    unfold leap_days in Hy. rewrite Hleap in Hy. 
    split; [div_lia|]. split; [lia|]. split; [lia|]. lia.
  - apply orb_false_iff in Hlast. rewrite !Z.eqb_neq in Hlast.
    set (y := n400 * 400 + 1 + (n100 * 100 + n4 * 4 + n1)).
    set (leapyear := (n1 =? 3) && (negb (n4 =? 24) || (n100 =? 3))).
    assert (Hleap : is_leap y = leapyear).
    { subst y leapyear. unfold is_leap.
      destruct (Z.eqb_spec n1 3), (Z.eqb_spec n4 24), (Z.eqb_spec n100 3);
        simpl;
        repeat match goal with
          | |- context [?a mod ?b =? 0] => destruct (Z.eqb_spec (a mod b) 0)
          end; simpl; try done; div_lia. }
    assert (Hy : days_before_year y = n0 - r1).
    { subst y. unfold days_before_year. div_lia. }
    assert (Hr1 : 0 ≤ r1 < 365 + (if leapyear then 1 else 0))
      by (destruct leapyear; lia).
    pose proof (month_day_spec leapyear r1 Hr1) as Hmd.
    destruct (month_day leapyear r1) as [m d]. simpl in Hmd.
    destruct Hmd as (Hm & Hd1 & Hd2 & Hsum).
    exists y, m, d. split; [done|].
    split; [subst y; lia|]. split; [lia|].
    unfold ymd2ord, days_in_month, days_before_month. rewrite Hleap.
    split.
    + split; [lia|].
      destruct (Z.eqb_spec m 2) as [->|_], leapyear; simpl in *; lia.
    + lia.
Qed.

(** January 1st. *)
Lemma first_day y : ymd2ord y 1 1 = days_before_year y + 1.
Proof. unfold ymd2ord, days_before_month. simpl. lia. Qed.

Lemma valid_week_spec y w :
  valid_week y w = true ↔
  1 ≤ y ≤ 9999 ∧ 1 ≤ w ∧ (w ≤ 52 ∨ (w = 53 ∧ long_year y = true)).
Proof.
  unfold valid_week, MINYEAR, MAXYEAR.
  rewrite !andb_true_iff, orb_true_iff, andb_true_iff, !Z.leb_le, Z.eqb_eq.
  tauto.
Qed.

(** The Monday of a valid ISO week is a date and a Monday; its Sunday
    is a date too, except for the last week of year 9999. *)
Lemma monday_bounds y w :
  valid_week y w = true →
  1 ≤ monday_ordinal y w ≤ MAXORDINAL
  ∧ (monday_ordinal y w + 6) mod 7 = 0
  ∧ ((y, w) ≠ (9999, 52) → monday_ordinal y w + 6 ≤ MAXORDINAL).
Proof.
  intros (Hy & Hw1 & Hw)%valid_week_spec.
  unfold monday_ordinal, isoweek1monday, long_year, MAXORDINAL in *.
  rewrite first_day in *.
  assert (HD : 0 ≤ days_before_year y
               ∧ (y ≤ 9998 → days_before_year y ≤ 3651329)
               ∧ (y = 1 → days_before_year y = 0)
               ∧ (y = 9999 → days_before_year y = 3651694)
               ∧ (2 ≤ y → 365 ≤ days_before_year y)).
  { unfold days_before_year. div_lia. }
  set (D := days_before_year y) in *. clearbody D.
  set (f := (D + 1 + 6) mod 7) in *.
  assert (Hf : 0 ≤ f < 7 ∧ ∃ k, D + 7 = 7 * k + f).
  { subst f. split; [div_lia|]. exists ((D + 1 + 6) / 7). div_lia. }
  destruct Hf as [Hf [k Hk]].
  assert (Hfw : (D + 1) mod 7 = (f + 1) mod 7) by (subst f; div_lia).
  rewrite Hfw in Hw. clearbody f.
  assert (Hlong : w ≤ 52 ∨ (w = 53 ∧ (f = 3 ∨ f = 2))).
  { destruct Hw as [?|[-> Hl]]; [by left|]. right. split; [done|].
    apply orb_true_iff in Hl as [Hl|Hl].
    - apply Z.eqb_eq in Hl. left. div_lia.
    - apply andb_true_iff in Hl as [Hl _]. apply Z.eqb_eq in Hl. right. div_lia. }
  clear Hw Hfw.
  assert (Hneq : (y, w) ≠ (9999, 52) → y ≠ 9999 ∨ w ≠ 52).
  { intros Hne. destruct (Z.eq_dec y 9999) as [->|]; [|by left].
    right. intros ->. by apply Hne. }
  destruct (Z.gtb_spec f 3).
  - split; [lia|]. split; [div_lia|]. intros Hne%Hneq. lia.
  - split; [lia|]. split; [div_lia|]. intros Hne%Hneq. lia.
Qed.

Lemma fromordinal_spec n :
  1 ≤ n ≤ MAXORDINAL →
  valid_date (fromordinal n) = true ∧ toordinal (fromordinal n) = n.
Proof.
  intros Hn. destruct (ord2ymd_spec n Hn) as (y & m & d & Hymd & Hy & Hm & Hd & Hord).
  unfold fromordinal, toordinal. rewrite Hymd. simpl. split; [|done].
  apply valid_date_spec. simpl. lia.
Qed.

(** The route reads a well-formed token back. *)
Lemma parse_week_token y w :
  0 ≤ y ≤ 9999 → 0 ≤ w ≤ 99 →
  parse_week (week_token y w) = Return (y, w).
Proof.
  intros Hy Hw. unfold parse_week, week_token.
  pose proof (py_int_four_digits y Hy) as Hpy.
  pose proof (py_int_two_digits w Hw) as Hpw.
  unfold four_digits, two_digits in *.
  rewrite !append_cons, !append_nil.
  rewrite split_week_token by div_lia.
  by rewrite Hpy, Hpw.
Qed.

Lemma week_monday_token y w :
  valid_week y w = true →
  week_monday (week_token y w)
  = Return (DateTime (fromordinal (monday_ordinal y w)) 0).
Proof.
  intros Hvalid.
  pose proof (monday_bounds y w Hvalid) as (Hrange & _ & _).
  apply valid_week_spec in Hvalid as (Hy & Hw1 & Hw).
  unfold week_monday. rewrite parse_week_token by lia. simpl obind.
  unfold fromisocalendar, MINYEAR, MAXYEAR.
  replace (fits_int y && fits_int w && fits_int 1) with true
    by (symmetry; unfold fits_int; rewrite !andb_true_iff, !Z.leb_le, !Z.ltb_lt;
        lia).
  simpl negb. cbv iota.
  replace ((1 <=? y) && (y <=? 9999)) with true
    by (symmetry; apply andb_true_iff; rewrite !Z.leb_le; lia).
  replace (negb ((0 <? w) && (w <? 53)) && negb ((w =? 53) && long_year y))
    with false.
  2:{ symmetry. destruct Hw as [Hw|[-> ->]]; [|done].
      replace ((0 <? w) && (w <? 53)) with true; [done|].
      symmetry; apply andb_true_iff; rewrite !Z.ltb_lt; lia. }
  simpl negb. cbv iota.
  replace ((w - 1) * 7 + (1 - 1)) with ((w - 1) * 7) by lia.
  fold (monday_ordinal y w).
  by destruct (fromordinal_spec _ Hrange) as [-> _].
Qed.

(** The year of a date is the one whose days surround its ordinal. *)
Lemma year_of_ordinal d y :
  valid_date d = true →
  days_before_year y < toordinal d ≤ days_before_year (y + 1) →
  year d = y.
Proof.
  intros (Hy & Hm & Hd)%valid_date_spec Hord.
  pose proof (day_of_year_bounds _ _ _ Hm Hd) as Hdoy.
  unfold toordinal, ymd2ord in Hord.
  pose proof (days_before_year_succ (year d)) as Hsucc.
  destruct (Z.lt_trichotomy (year d) y) as [Hlt|[Heq|Hgt]]; [|done|].
  - pose proof (days_before_year_mono (year d + 1) y). lia.
  - pose proof (days_before_year_mono (y + 1) (year d)). lia.
Qed.

(** The Monday of ISO week 1, in terms of the weekday of January 1st. *)
Lemma isoweek1monday_spec y :
  ∃ f, 0 ≤ f < 7
       ∧ (days_before_year y + 7) mod 7 = f
       ∧ isoweek1monday y
         = if f >? 3 then days_before_year y + 1 - f + 7
           else days_before_year y + 1 - f.
Proof.
  exists ((days_before_year y + 7) mod 7).
  split; [div_lia|]. split; [done|].
  unfold isoweek1monday. rewrite first_day.
  replace (days_before_year y + 1 + 6) with (days_before_year y + 7) by lia.
  by destruct (_ >? 3).
Qed.

(** A long year, in terms of the weekday of January 1st. *)
Lemma long_year_spec y f :
  (days_before_year y + 7) mod 7 = f →
  long_year y = (f =? 3) || ((f =? 2) && is_leap y).
Proof.
  intros Hf. unfold long_year. rewrite first_day.
  replace ((days_before_year y + 1) mod 7 =? 4) with (f =? 3).
  2:{ destruct (Z.eqb_spec f 3), (Z.eqb_spec ((days_before_year y + 1) mod 7) 4);
        try done; div_lia. }
  replace ((days_before_year y + 1) mod 7 =? 3) with (f =? 2); [done|].
  destruct (Z.eqb_spec f 2), (Z.eqb_spec ((days_before_year y + 1) mod 7) 3);
    try done; div_lia.
Qed.

(** [isocalendar] inverts [fromisocalendar] on Mondays: the day at
    [monday_ordinal y w] is day 1 of ISO week [w] of ISO year [y]. *)
Lemma isocalendar_monday y w :
  valid_week y w = true →
  isocalendar (fromordinal (monday_ordinal y w)) = (y, w, 1).
Proof.
  intros Hvalid.
  pose proof (monday_bounds y w Hvalid) as (Hrange & _ & _).
  destruct (fromordinal_spec _ Hrange) as [Hd Hord].
  apply valid_week_spec in Hvalid as (Hy & Hw1 & Hw).
  set (d := fromordinal (monday_ordinal y w)) in *.
  destruct (isoweek1monday_spec y) as (f & Hf & Hfmod & Hw1m).
  destruct (isoweek1monday_spec (y + 1)) as (f' & Hf' & Hfmod' & Hw1m').
  destruct (isoweek1monday_spec (y - 1)) as (f'' & Hf'' & Hfmod'' & Hw1m'').
  pose proof (days_before_year_succ y) as Hsucc.
  pose proof (days_before_year_succ (y - 1)) as Hpred.
  replace (y - 1 + 1) with y in Hpred by lia.
  rewrite (long_year_spec y f Hfmod) in Hw.
  assert (Hl : 0 ≤ leap_days y ≤ 1 ∧ 0 ≤ leap_days (y - 1) ≤ 1
               ∧ (is_leap y = true → leap_days y = 1)).
  { unfold leap_days. destruct (is_leap y), (is_leap (y - 1)); lia. }
  assert (HD1 : y = 1 → days_before_year y = 0) by (intros ->; done).
  unfold isocalendar. rewrite Hord.
  unfold monday_ordinal in *.
  set (D := days_before_year y) in *.
  set (D' := days_before_year (y + 1)) in *.
  set (D'' := days_before_year (y - 1)) in *.
  assert (Hlong : w ≤ 52 ∨ (w = 53 ∧ (f = 3 ∨ (f = 2 ∧ leap_days y = 1)))).
  { destruct Hw as [?|[-> Hl']]; [by left|]. right. split; [done|].
    apply orb_true_iff in Hl' as [Hl'|Hl'].
    - apply Z.eqb_eq in Hl'. by left.
    - apply andb_true_iff in Hl' as [Hl1 Hl2]. apply Z.eqb_eq in Hl1.
      right. split; [done|]. by apply Hl. }
  clear Hw.
  rewrite Hw1m in *.
  assert (Hyear : (D + 1 ≤ (if f >? 3 then D + 1 - f + 7 else D + 1 - f) + (w - 1) * 7
                   ∧ year d = y)
                  ∨ (w = 1 ∧ 2 ≤ y ∧ 1 ≤ f ≤ 3 ∧ year d = y - 1)).
  { destruct (Z.le_gt_cases (D + 1)
                ((if f >? 3 then D + 1 - f + 7 else D + 1 - f) + (w - 1) * 7))
      as [Hge|Hlt].
    - left. split; [done|]. apply year_of_ordinal; [done|].
      rewrite Hord. fold D D'. destruct (f >? 3) eqn:Hgt; lia.
    - right.
      assert (Hy2 : w = 1 ∧ 2 ≤ y ∧ 1 ≤ f ≤ 3).
      { destruct (Z.gtb_spec f 3); [lia|].
        destruct (Z.eq_dec y 1) as [Hy1|]; [|lia].
        specialize (HD1 Hy1). div_lia. }
      destruct Hy2 as (-> & Hy2 & Hf3).
      split; [done|]. split; [done|]. split; [done|].
      apply year_of_ordinal; [done|].
      rewrite Hord. replace (y - 1 + 1) with y by lia. fold D D''.
      destruct (Z.gtb_spec f 3); lia. }
  assert (Hrel' : f' = (f + 1 + leap_days y) mod 7) by div_lia.
  assert (Hrel'' : f = (f'' + 1 + leap_days (y - 1)) mod 7) by div_lia.
  clear Hfmod Hfmod' Hfmod'' Hd Hord HD1 Hrange.
  destruct Hyear as [[Hge ->]|(-> & Hy2 & Hf3 & ->)].
  - rewrite Hw1m, Hw1m'. fold D D'. clearbody D D' D''. clear d Hw1m Hw1m' Hw1m''.
    set (A := if f >? 3 then D + 1 - f + 7 else D + 1 - f) in *.
    replace (A + (w - 1) * 7 - A) with ((w - 1) * 7) by lia.
    rewrite Z.div_mul, Z.mod_mul by lia.
    destruct (Z.ltb_spec (w - 1) 0) as [?|_]; [lia|].
    replace ((w - 1 >=? 52)
             && (A + (w - 1) * 7 >=? (if f' >? 3 then D' + 1 - f' + 7 else D' + 1 - f')))
      with false; [by replace (w - 1 + 1) with w by lia|].
    symmetry. apply andb_false_iff.
    destruct Hlong as [Hw|[-> Hlong]].
    + left. rewrite Z.geb_leb. apply Z.leb_gt. lia.
    + right. rewrite Z.geb_leb. apply Z.leb_gt. subst A.
      destruct (Z.gtb_spec f 3), (Z.gtb_spec f' 3); div_lia.
  - replace (y - 1 + 1) with y by lia. rewrite Hw1m, Hw1m''. fold D D''.
    clearbody D D' D''. clear d Hw1m Hw1m' Hw1m''.
    destruct (Z.gtb_spec f 3) as [?|_]; [lia|].
    assert (Hdiff : D + 1 - f + (1 - 1) * 7
                    - (if f'' >? 3 then D'' + 1 - f'' + 7 else D'' + 1 - f'')
                    = 52 * 7).
    { destruct (Z.gtb_spec f'' 3); div_lia. }
    rewrite Hdiff, Z.div_mul, Z.mod_mul by lia.
    replace (D + 1 - f + (1 - 1) * 7 >=? D + 1 - f) with true
      by (symmetry; rewrite Z.geb_leb; apply Z.leb_le; lia).
    reflexivity.
Qed.

End CalendarFacts.

(** ** The session guard *)

Section Guard.
Variable py_float : string → option float.

(** Without a session user the dashboard redirects before it opens a
    connection. *)
Lemma dashboard_anonymous env req s :
  logged_in (session s !! "user_id") = false →
  dashboard py_float env req s = (Return (redirect "login"), s).
Proof.
  intros Hout. unfold dashboard. run_handler. by rewrite Hout.
Qed.

(** Once past the guard, the dashboard is the insertion (on a POST)
    followed by the aggregation for the selected week. *)
Lemma dashboard_logged_in env req db cookie uid :
  cookie !! "user_id" = Some uid →
  uid ≠ 0 →
  dashboard py_float env req (Store db db cookie)
  = match (if is_post (method req) then add_expense py_float uid req
           else ret tt) (Store db db cookie) with
    | (Return _, s) => aggregate env req uid s
    | (Raise e, s) => (Raise e, s)
    end.
Proof.
  intros Hin Hnz. unfold dashboard. unfold bind at 1, current_user.
  simpl. rewrite Hin. simpl.
  destruct (Z.eqb_spec uid 0) as [|_]; [done|]. simpl.
  unfold bind at 1, get_db. simpl. reflexivity.
Qed.

(** The aggregation reads the connection, closes it and writes
    nothing: on a store without uncommitted changes it is [summary]. *)
Lemma aggregation_run env req uid db cookie :
  aggregate env req uid (Store db db cookie)
  = (summary env req uid db, Store db db cookie).
Proof.
  unfold summary, aggregate. run_handler.
  destruct (select_week env req) as [[start_date w]|e]; [|done]. simpl.
  destruct (Calendar.add_days start_date 6) as [end_date|e]; [|done]. simpl.
  by destruct (prepare w _).
Qed.

(** The insertion step commits what [inserted] says, or fails and
    leaves the database file as it was. *)
Lemma insertion_run req db cookie uid :
  (if is_post (method req) then add_expense py_float uid req else ret tt)
    (Store db db cookie)
  = match inserted py_float uid req db with
    | Return db' => (Return tt, Store db' db' cookie)
    | Raise e => (Raise e, Store db db cookie)
    end.
Proof.
  unfold inserted, add_expense. destruct (is_post (method req)); [|done].
  run_handler.
  destruct (form req !! "amount") as [text|]; [|done]. simpl.
  destruct (py_float text) as [amount|]; [|done]. simpl.
  destruct (form req !! "category") as [category|]; [|done]. simpl.
  destruct (form req !! "date") as [date|]; [|done]. simpl.
  by destruct (insert_expense uid amount category date db).
Qed.

(** A request by a logged-in user: the insertion step, then the summary
    of the database it committed. *)
Lemma dashboard_run env req db cookie uid :
  cookie !! "user_id" = Some uid →
  uid ≠ 0 →
  serve (dashboard py_float env req) db cookie
  = match inserted py_float uid req db with
    | Return db' => (summary env req uid db', db', cookie)
    | Raise e => (Raise e, db, cookie)
    end.
Proof.
  intros Hin Hnz. unfold serve.
  rewrite (dashboard_logged_in env req db cookie uid Hin Hnz), insertion_run.
  destruct (inserted py_float uid req db) as [db'|e]; [|done].
  by rewrite aggregation_run.
Qed.

(** A request other than a POST by a logged-in user. *)
Lemma dashboard_read env req db cookie uid :
  cookie !! "user_id" = Some uid →
  uid ≠ 0 →
  is_post (method req) = false →
  serve (dashboard py_float env req) db cookie
  = (summary env req uid db, db, cookie).
Proof.
  intros Hin Hnz Hget. unfold serve.
  rewrite (dashboard_logged_in env req db cookie uid Hin Hnz), Hget.
  unfold ret. by rewrite aggregation_run.
Qed.

End Guard.

(** C6. A request to [/dashboard], whatever its method, form and query
    string, whose session holds no user id (or the id [0], which
    [current_user()] takes for false) is answered by a redirect to the
    login page, and leaves both tables and the session as they were. *)
Theorem dashboard_guard_redirects_without_mutation
    (py_float : string → option float) env req db cookie :
  logged_in (cookie !! "user_id") = false →
  serve (dashboard py_float env req) db cookie
  = (Return (redirect "login"), db, cookie).
Proof.
  intros Hout. unfold serve.
  by rewrite dashboard_anonymous.
Qed.

(** ** Accounts *)

Section Accounts.

Lemma insert_user_duplicate email password db u :
  u ∈ users db → u_email u = email →
  insert_user email password db = Raise IntegrityError.
Proof.
  intros Hin Hmail. unfold insert_user.
  replace (existsb _ (users db)) with true; [done|].
  symmetry. apply existsb_exists. exists u. split.
  - by apply list_elem_of_In.
  - by apply String.eqb_eq.
Qed.

Lemma find_email_fresh email (rows : list user_row) :
  (∀ u, u ∈ rows → u_email u ≠ email) →
  List.find (λ u, String.eqb (u_email u) email) rows = None.
Proof.
  induction rows as [|r rows IH]; intros Hfresh; [done|].
  simpl. destruct (String.eqb_spec (u_email r) email) as [Heq|_].
  - exfalso. apply (Hfresh r); [left | done].
  - apply IH. intros u Hu. apply Hfresh. by right.
Qed.

Lemma existsb_email_fresh email (rows : list user_row) :
  (∀ u, u ∈ rows → u_email u ≠ email) →
  existsb (λ u, String.eqb (u_email u) email) rows = false.
Proof.
  induction rows as [|r rows IH]; intros Hfresh; [done|].
  simpl. rewrite IH.
  - destruct (String.eqb_spec (u_email r) email) as [Heq|_]; [|done].
    exfalso. apply (Hfresh r); [left | done].
  - intros u Hu. apply Hfresh. by right.
Qed.

Lemma find_app_fresh email (rows : list user_row) (r : user_row) :
  (∀ u, u ∈ rows → u_email u ≠ email) →
  u_email r = email →
  List.find (λ u, String.eqb (u_email u) email) (rows ++ [r]) = Some r.
Proof.
  intros Hfresh Hr.
  induction rows as [|r0 rows IH]; simpl.
  - by rewrite Hr, String.eqb_refl.
  - destruct (String.eqb_spec (u_email r0) email) as [Heq|_].
    + exfalso. apply (Hfresh r0); [left | done].
    + apply IH. intros u Hu. apply Hfresh. by right.
Qed.

Variable generate_password_hash : string → string → string.
Variable check_password_hash : string → string → bool.

(** werkzeug verifies the hashes it generates, whatever the salt. *)
Hypothesis check_generated :
  ∀ salt plain,
    check_password_hash (generate_password_hash salt plain) plain = true.

(** C3. A signup whose email is already in the users table: the
    [INSERT] raises [IntegrityError] (the duplicate-email condition),
    the route catches it and shows the registration form again with
    the inline error, and the database, hence the existing account's
    row, is what it was. *)
Theorem signup_duplicate_email env req db cookie email plain u :
  method req = POST →
  form req !! "email" = Some email →
  form req !! "password" = Some plain →
  u ∈ users db →
  u_email u = email →
  insert_user email (generate_password_hash (salt env) plain) db
  = Raise IntegrityError
  ∧ serve (signup generate_password_hash env req) db cookie
    = (Return (render_template "signup.html"
                 (ErrorContext "Email already exists.")),
       db, cookie).
Proof.
  intros Hpost Hmail Hplain Hin Hu.
  pose proof (insert_user_duplicate email
                (generate_password_hash (salt env) plain) db u Hin Hu) as Hdup.
  split; [done|].
  unfold signup. rewrite Hpost. run_handler.
  rewrite Hmail, Hplain. simpl. by rewrite Hdup.
Qed.

(** C4. Signup with an email that is not registered yet, followed by
    a login with the same email and password: the signup stores the
    salted hash and redirects to the login page; the login finds that
    row, the hash verifies, the session receives the row's id and the
    answer is a redirect to the dashboard. *)
Theorem signup_then_login env req req' db cookie cookie' email plain :
  method req = POST →
  form req !! "email" = Some email →
  form req !! "password" = Some plain →
  method req' = POST →
  form req' !! "email" = Some email →
  form req' !! "password" = Some plain →
  (∀ u, u ∈ users db → u_email u ≠ email) →
  ∃ db' uid,
    serve (signup generate_password_hash env req) db cookie
    = (Return (redirect "login"), db', cookie)
    ∧ select_user email db'
      = Some (UserRow uid email (generate_password_hash (salt env) plain))
    ∧ serve (login check_password_hash req') db' cookie'
      = (Return (redirect "dashboard"), db', <["user_id" := uid]> cookie').
Proof using check_generated.
  intros Hpost Hmail Hplain Hpost' Hmail' Hplain' Hfresh.
  set (hash := generate_password_hash (salt env) plain).
  set (row := UserRow (next_rowid (u_id <$> users db)) email hash).
  exists (Database (users db ++ [row]) (expenses db)), (u_id row).
  assert (Hfound : select_user email
                     (Database (users db ++ [row]) (expenses db)) = Some row).
  { unfold select_user. simpl. by apply find_app_fresh. }
  split; [|split].
  - unfold signup. rewrite Hpost. run_handler.
    rewrite Hmail, Hplain. simpl.
    unfold insert_user. by rewrite (existsb_email_fresh email _ Hfresh).
  - exact Hfound.
  - unfold login. rewrite Hpost'. run_handler.
    rewrite Hmail', Hplain'. simpl. rewrite Hfound. simpl.
    unfold hash. by rewrite check_generated.
Qed.

(** C5. The two ways a login fails, an email that is in no row and a
    password that does not verify against the row found, are answered
    alike: the login form with the message "Invalid credentials.", the
    session and the database untouched. *)
Theorem login_failures_indistinguishable
    req1 req2 db cookie email1 password1 email2 password2 u :
  method req1 = POST →
  form req1 !! "email" = Some email1 →
  form req1 !! "password" = Some password1 →
  method req2 = POST →
  form req2 !! "email" = Some email2 →
  form req2 !! "password" = Some password2 →
  select_user email1 db = None →
  select_user email2 db = Some u →
  check_password_hash (u_password u) password2 = false →
  serve (login check_password_hash req1) db cookie
  = (Return (render_template "login.html"
               (ErrorContext "Invalid credentials.")),
     db, cookie)
  ∧ serve (login check_password_hash req2) db cookie
    = serve (login check_password_hash req1) db cookie.
Proof.
  intros Hp1 He1 Hw1 Hp2 He2 Hw2 Hnone Hsome Hbad.
  assert (H1 : serve (login check_password_hash req1) db cookie
               = (Return (render_template "login.html"
                            (ErrorContext "Invalid credentials.")),
                  db, cookie)).
  { unfold login. rewrite Hp1. run_handler.
    rewrite He1, Hw1. simpl. by rewrite Hnone. }
  split; [done|]. rewrite H1.
  unfold login. rewrite Hp2. run_handler.
  rewrite He2, Hw2. simpl. rewrite Hsome. simpl. by rewrite Hbad.
Qed.

End Accounts.

(** ** The order of insertion and week selection *)

Section Insertion.
Variable py_float : string → option float.

(** A POST with a numeric amount: the store after the insertion and
    its commit. *)
Lemma add_expense_commits uid req s text amount category date :
  form req !! "amount" = Some text →
  py_float text = Some amount →
  is_nan amount = false →
  form req !! "category" = Some category →
  form req !! "date" = Some date →
  ∃ db',
    insert_expense uid amount category date (conn s) = Return db'
    ∧ add_expense py_float uid req s = (Return tt, Store db' db' (session s)).
Proof.
  intros Htext Hnum Hnan Hcat Hdate.
  unfold insert_expense. rewrite Hnan. eexists. split; [done|].
  unfold add_expense. run_handler.
  rewrite Htext. simpl. rewrite Hnum. simpl. rewrite Hcat. simpl.
  rewrite Hdate. simpl. unfold insert_expense. by rewrite Hnan.
Qed.

End Insertion.

(** C10. A POST to [/dashboard] by a logged-in user with a numeric
    amount: the expense row is inserted and committed before the [week]
    parameter is looked at, so the database the request leaves behind
    holds the new row whatever that parameter is; when the parameter
    is malformed ([week_monday] raises), the request fails with that
    exception and the row is persisted all the same. *)
Theorem post_commits_before_week_is_parsed
    (py_float : string → option float) env req db cookie uid
    text amount category date :
  cookie !! "user_id" = Some uid →
  uid ≠ 0 →
  method req = POST →
  form req !! "amount" = Some text →
  py_float text = Some amount →
  is_nan amount = false →
  form req !! "category" = Some category →
  form req !! "date" = Some date →
  ∃ db',
    insert_expense uid amount category date db = Return db'
    ∧ expenses db'
      = (expenses db
         ++ [ExpenseRow (next_rowid (e_id <$> expenses db)) uid amount
               category date])%list
    ∧ (serve (dashboard py_float env req) db cookie).1.2 = db'
    ∧ ∀ w e,
        args req !! "week" = Some w →
        w ≠ "" →
        week_monday w = Raise e →
        serve (dashboard py_float env req) db cookie = (Raise e, db', cookie).
Proof.
  intros Hin Hnz Hpost Htext Hnum Hnan Hcat Hdate.
  destruct (add_expense_commits py_float uid req (Store db db cookie)
              text amount category date Htext Hnum Hnan Hcat Hdate)
    as (db' & Hins & Hadd).
  simpl in Hins. exists db'. split; [done|]. split.
  { unfold insert_expense in Hins. rewrite Hnan in Hins. by inversion Hins. }
  assert (Hrun : serve (dashboard py_float env req) db cookie
                 = (summary env req uid db', db', cookie)).
  { unfold serve.
    rewrite (dashboard_logged_in py_float env req db cookie uid Hin Hnz).
    rewrite Hpost. cbn [is_post]. by rewrite Hadd, aggregation_run. }
  split.
  - by rewrite Hrun.
  - intros w e Hweek Hne Hbad. rewrite Hrun.
    unfold summary, select_week. rewrite Hweek.
    destruct w as [|c w]; [done|]. by rewrite Hbad.
Qed.

(** ** Week tokens the route does not guard against *)


(** C7. The claim asks for a clean validation answer on a malformed
    week token.  The route has no guard: for a logged-in user, the token
    ["notaweek"] makes [int] raise [ValueError] and the token
    ["2024-W99"] makes [fromisocalendar] raise [ValueError]; in both
    cases the exception leaves the route. *)
Theorem dashboard_malformed_week_raises
    (py_float : string → option float) env db cookie (p : positive) :
  let cookie' := <["user_id" := Z.pos p]> cookie in
  serve (dashboard py_float env (Request GET ∅ {["week" := "notaweek"]}))
    db cookie'
  = (Raise ValueError, db, cookie')
  ∧ serve (dashboard py_float env (Request GET ∅ {["week" := "2024-W99"]}))
      db cookie'
    = (Raise ValueError, db, cookie').
Proof.
  intros cookie'.
  assert (Hin : cookie' !! "user_id" = Some (Z.pos p))
    by apply lookup_insert_eq.
  split; rewrite (dashboard_read py_float env _ db cookie' (Z.pos p) Hin);
    try done; unfold summary, select_week; simpl args;
    rewrite lookup_singleton_eq; reflexivity.
Qed.

(** C8. The claim asks for the ISO year in the echoed token.  The route
    formats the token with ["%Y-W%V"], the Gregorian year next to the
    ISO week number: on Monday 2024-12-30, which [isocalendar] places in
    week 1 of ISO year 2025, a request without [week] selects the right
    window (2024-12-30 to 2025-01-05) and echoes ["2024-W01"]. *)
Theorem dashboard_default_week_token_at_year_end
    (py_float : string → option float) salt time db cookie (p : positive) :
  let cookie' := <["user_id" := Z.pos p]> cookie in
  let env := Environment (Calendar.DateTime (Calendar.Date 2024 12 30) time) salt in
  Calendar.isocalendar (Calendar.Date 2024 12 30) = (2025, 1, 1)
  ∧ select_week env (Request GET ∅ ∅)
    = Return (Calendar.DateTime (Calendar.Date 2024 12 30) time, "2024-W01")
  ∧ serve (dashboard py_float env (Request GET ∅ ∅)) db cookie'
    = (prepare "2024-W01"
         (select_totals (Z.pos p) "2024-12-30" "2025-01-05" db),
       db, cookie').
Proof.
  intros cookie' env.
  assert (Hin : cookie' !! "user_id" = Some (Z.pos p))
    by apply lookup_insert_eq.
  split; [reflexivity|]. split; [reflexivity|].
  rewrite (dashboard_read py_float env _ db cookie' (Z.pos p) Hin); done.
Qed.

(** ** The aggregation reads one user's rows *)

Section Isolation.

(** Grouping looks at the category and the amount of a row only. *)
Lemma group_sum_from_ext (rows1 rows2 : list expense_row)
    (groups : list (string * float)) :
  (λ e, (e_category e, e_amount e)) <$> rows1
  = (λ e, (e_category e, e_amount e)) <$> rows2 →
  foldl (λ groups e, group_add (e_category e) (e_amount e) groups) groups rows1
  = foldl (λ groups e, group_add (e_category e) (e_amount e) groups) groups rows2.
Proof.
  revert rows2 groups.
  induction rows1 as [|r1 rows1 IH]; intros [|r2 rows2] groups Heq;
    try done.
  simpl in *. inversion Heq as [[Hc Ha Hrest]].
  rewrite Hc, Ha. by apply IH.
Qed.

(** The [WHERE] clause first keeps the user's rows, then the dates of
    the window. *)
Lemma filter_in_window uid lo hi (rows : list expense_row) :
  List.filter (in_window uid lo hi) rows
  = List.filter (λ e, between (e_date e) lo hi)
      (List.filter (λ e, e_user_id e =? uid) rows).
Proof.
  induction rows as [|r rows IH]; [done|].
  simpl. unfold in_window at 1.
  destruct (e_user_id r =? uid); simpl; [|done].
  destruct (between (e_date r) lo hi); by rewrite IH.
Qed.

Lemma filter_window_ext lo hi (rows1 rows2 : list expense_row) :
  (λ e, (e_amount e, e_category e, e_date e)) <$> rows1
  = (λ e, (e_amount e, e_category e, e_date e)) <$> rows2 →
  (λ e, (e_category e, e_amount e))
    <$> List.filter (λ e, between (e_date e) lo hi) rows1
  = (λ e, (e_category e, e_amount e))
    <$> List.filter (λ e, between (e_date e) lo hi) rows2.
Proof.
  revert rows2.
  induction rows1 as [|r1 rows1 IH]; intros [|r2 rows2] Heq; try done.
  simpl in *. inversion Heq as [[Ha Hc Hd Hrest]].
  rewrite Hd. destruct (between (e_date r2) lo hi); simpl.
  - rewrite Hc, Ha. f_equal. by apply IH.
  - by apply IH.
Qed.

(** The rows of the aggregation are a function of the user's view. *)
Lemma select_totals_view uid lo hi db1 db2 :
  user_view uid db1 = user_view uid db2 →
  select_totals uid lo hi db1 = select_totals uid lo hi db2.
Proof.
  intros Hview. unfold select_totals, group_sum. f_equal.
  rewrite !filter_in_window.
  apply group_sum_from_ext, filter_window_ext, Hview.
Qed.

Lemma summary_view env req uid db1 db2 :
  user_view uid db1 = user_view uid db2 →
  summary env req uid db1 = summary env req uid db2.
Proof.
  intros Hview. unfold summary.
  destruct (select_week env req) as [[start_date w]|e]; [|done]. simpl.
  destruct (Calendar.add_days start_date 6) as [end_date|e]; [|done]. simpl.
  by rewrite (select_totals_view uid _ _ db1 db2 Hview).
Qed.

(** Inserting the same expense for [uid] keeps two views equal. *)
Lemma insert_expense_view uid amount category date db1 db2 db1' :
  user_view uid db1 = user_view uid db2 →
  insert_expense uid amount category date db1 = Return db1' →
  ∃ db2',
    insert_expense uid amount category date db2 = Return db2'
    ∧ user_view uid db1' = user_view uid db2'.
Proof.
  intros Hview. unfold insert_expense.
  destruct (is_nan amount); [done|]. intros [= <-].
  eexists. split; [done|].
  unfold user_view in *. simpl.
  rewrite !List.filter_app, !fmap_app. simpl.
  by rewrite Z.eqb_refl, Hview.
Qed.

Lemma insert_expense_raises uid amount category date db1 db2 e :
  insert_expense uid amount category date db1 = Raise e →
  insert_expense uid amount category date db2 = Raise e.
Proof. unfold insert_expense. by destruct (is_nan amount). Qed.

Variable py_float : string → option float.

(** The insertion step on two stores with equal views: the same
    outcome, and views that are still equal. *)
Lemma add_expense_view uid req db1 db2 cookie :
  user_view uid db1 = user_view uid db2 →
  ∃ o db1' db2',
    add_expense py_float uid req (Store db1 db1 cookie)
    = (o, Store db1' db1' cookie)
    ∧ add_expense py_float uid req (Store db2 db2 cookie)
      = (o, Store db2' db2' cookie)
    ∧ user_view uid db1' = user_view uid db2'.
Proof.
  intros Hview. unfold add_expense. run_handler.
  destruct (form req !! "amount") as [text|]; simpl;
    [|by exists (Raise BadRequestKeyError), db1, db2].
  destruct (py_float text) as [amount|]; simpl;
    [|by exists (Raise ValueError), db1, db2].
  destruct (form req !! "category") as [category|]; simpl;
    [|by exists (Raise BadRequestKeyError), db1, db2].
  destruct (form req !! "date") as [date|]; simpl;
    [|by exists (Raise BadRequestKeyError), db1, db2].
  destruct (insert_expense uid amount category date db1) as [db1'|e] eqn:H1.
  - destruct (insert_expense_view _ _ _ _ _ db2 _ Hview H1)
      as (db2' & -> & Hview').
    by exists (Return tt), db1', db2'.
  - rewrite (insert_expense_raises _ _ _ _ db1 db2 e H1).
    by exists (Raise e), db1, db2.
Qed.

End Isolation.

(** C9. The answer of [/dashboard] depends on the expenses table only
    through the rows of the session's user: on two databases whose rows
    for that user carry the same amounts, categories and dates, the same
    request by the same session gets the same outcome; in a rendering
    that is the same categories, totals, [total_spent] and
    [top_category].  Rows of other users never enter it. *)
Theorem dashboard_depends_on_own_rows_only
    (py_float : string → option float) env req db1 db2 cookie :
  user_view (default 0 (cookie !! "user_id")) db1
  = user_view (default 0 (cookie !! "user_id")) db2 →
  (serve (dashboard py_float env req) db1 cookie).1.1
  = (serve (dashboard py_float env req) db2 cookie).1.1.
Proof.
  intros Hview.
  destruct (logged_in (cookie !! "user_id")) eqn:Hlog.
  - destruct (cookie !! "user_id") as [uid|] eqn:Hin; [|done].
    simpl in Hview, Hlog.
    assert (Hnz : uid ≠ 0) by (by destruct (Z.eqb_spec uid 0)).
    unfold serve.
    rewrite (dashboard_logged_in py_float env req db1 cookie uid Hin Hnz).
    rewrite (dashboard_logged_in py_float env req db2 cookie uid Hin Hnz).
    destruct (is_post (method req)).
    + destruct (add_expense_view py_float uid req db1 db2 cookie Hview)
        as (o & db1' & db2' & -> & -> & Hview').
      destruct o as [[]|e]; [|done].
      rewrite !aggregation_run. simpl. by apply summary_view.
    + unfold ret. rewrite !aggregation_run. simpl.
      by apply summary_view.
  - unfold serve. by rewrite !dashboard_anonymous.
Qed.

(** ** Order on floats *)

Module FloatOrder.

Ltac float_cases :=
  repeat match goal with
         | x : spec_float |- _ => destruct x
         | s : bool |- _ => destruct s
         end;
  simpl; try discriminate; try reflexivity.

Ltac compare_cases :=
  repeat match goal with
         | |- context [Z.compare ?a ?b] =>
             destruct (Z.compare_spec a b); simpl
         | |- context [Pos.compare_cont Eq ?a ?b] =>
             change (Pos.compare_cont Eq a b) with (Pos.compare a b);
             destruct (Pos.compare_spec a b); simpl
         end;
  intros; try discriminate; try reflexivity; try lia.

Ltac float_order :=
  unfold flt, fle, feq, SFltb, SFleb, SFeqb, SFcompare;
  float_cases; compare_cases.

(** Apart from NaN the comparison is total. *)
Lemma fle_of_not_flt (x y : float) :
  is_nan x = false → is_nan y = false → flt y x = false → fle x y = true.
Proof. intros Hx Hy. float_order. Qed.

Lemma fle_of_flt (x y : float) : flt x y = true → fle x y = true.
Proof. float_order. Qed.

Lemma fle_trans (x y z : float) :
  fle x y = true → fle y z = true → fle x z = true.
Proof. float_order. Qed.

Lemma fle_refl (x : float) : is_nan x = false → fle x x = true.
Proof.
  intros Hx. unfold fle, SFleb, SFcompare. float_cases;
    rewrite Z.compare_refl, Pos.compare_cont_refl; reflexivity.
Qed.

Lemma feq_refl (x : float) : is_nan x = false → feq x x = true.
Proof.
  intros Hx. unfold feq, SFeqb, SFcompare. float_cases;
    rewrite Z.compare_refl, Pos.compare_cont_refl; reflexivity.
Qed.

(** A float equal to an upper bound is an upper bound. *)
Lemma fle_feq (x y z : float) :
  feq x y = true → fle z y = true → fle z x = true.
Proof. float_order. Qed.

End FloatOrder.

(** ** The data preparation *)

Section Preparation.
Import FloatOrder.

Lemma result_double_sql_value x : sql_value (result_double x).
Proof.
  unfold result_double. destruct (is_nan x) eqn:Hx; [by left|].
  right. by exists x.
Qed.

Lemma select_totals_sql_values uid lo hi db :
  Forall sql_value (select_totals uid lo hi db).*2.
Proof.
  unfold select_totals.
  induction (group_sum _) as [|[c x] groups IH]; simpl; [constructor|].
  constructor; [apply result_double_sql_value | exact IH].
Qed.

(** [sum] succeeds only on a list without [None]. *)
Lemma py_sum_from_numbers acc items total :
  Forall sql_value items →
  py_sum_from acc items = Return total →
  Forall number items.
Proof.
  revert acc. induction items as [|v items IH]; intros acc Hsql Hsum;
    [constructor|].
  inversion Hsql as [|? ? Hv Hrest]; subst. simpl in Hsum.
  destruct v as [x|]; [|done].
  destruct Hv as [|[y [[= <-] Hy]]]; [done|].
  constructor; [by exists x|].
  destruct acc; simpl in Hsum; by eapply IH.
Qed.

(** [max] keeps an element that bounds all the others. *)
Lemma py_max_from_spec (b : float) (items : list value) :
  is_nan b = false →
  Forall number items →
  ∃ m,
    py_max_from (Some b) items = Return (Some m)
    ∧ is_nan m = false
    ∧ Some m ∈ Some b :: items
    ∧ ∀ x, Some x ∈ Some b :: items → fle x m = true.
Proof.
  revert b. induction items as [|v items IH]; intros b Hb Hnum.
  - exists b. split; [done|]. split; [done|]. split; [left|].
    intros x Hx. apply list_elem_of_singleton in Hx. inversion Hx; subst.
    by apply fle_refl.
  - inversion Hnum as [|? ? [x [-> Hx]] Hrest]; subst. simpl.
    destruct (flt b x) eqn:Hlt.
    + destruct (IH x Hx Hrest) as (m & Hmax & Hm & Hin & Hbound).
      exists m. split; [done|]. split; [done|]. split; [by right|].
      intros y Hy. apply elem_of_cons in Hy as [[= ->]|Hy].
      * apply (fle_trans _ x); [by apply fle_of_flt|]. apply Hbound. left.
      * by apply Hbound.
    + destruct (IH b Hb Hrest) as (m & Hmax & Hm & Hin & Hbound).
      exists m. split; [done|]. split; [done|]. split.
      { apply elem_of_cons in Hin as [Hin|Hin]; [rewrite Hin; left|].
        by do 2 right. }
      intros y Hy. apply elem_of_cons in Hy as [[= ->]|Hy].
      * apply Hbound. left.
      * apply elem_of_cons in Hy as [[= ->]|Hy].
        -- apply (fle_trans _ b); [by apply fle_of_not_flt|].
           apply Hbound. left.
        -- apply Hbound. by right.
Qed.

(** [index] finds the first element equal to one that is present. *)
Lemma py_index_spec (items : list value) (m : float) :
  is_nan m = false →
  Some m ∈ items →
  ∃ i v,
    py_index items (Some m) = Return i
    ∧ items !! i = Some v
    ∧ py_eq v (Some m) = true.
Proof.
  intros Hm. induction items as [|v items IH]; intros Hin.
  - by apply elem_of_nil in Hin.
  - simpl. destruct (py_eq v (Some m)) eqn:Heq.
    + by exists O, v.
    + apply elem_of_cons in Hin as [<-|Hin].
      { simpl in Heq. by rewrite feq_refl in Heq. }
      destruct (IH Hin) as (i & w & -> & Hlook & Hw).
      by exists (S i), w.
Qed.

(** On totals that are floats, the top category is the category at a
    position whose total bounds all totals. *)
Lemma pick_top_spec (categories : list string) (amounts : list value) :
  length categories = length amounts →
  amounts ≠ [] →
  Forall number amounts →
  ∃ i c a,
    pick_top categories amounts = Return (Some c)
    ∧ categories !! i = Some c
    ∧ amounts !! i = Some (Some a)
    ∧ ∀ j v, amounts !! j = Some v → ∃ x, v = Some x ∧ fle x a = true.
Proof.
  intros Hlen Hne Hnum. destruct amounts as [|v0 rest]; [done|].
  inversion Hnum as [|? ? [b [-> Hb]] Hrest]; subst.
  destruct (py_max_from_spec b _ Hb Hrest) as (m & Hmax & Hm & Hin & Hbound).
  destruct (py_index_spec (Some b :: rest) m Hm Hin)
    as (i & v & Hidx & Hlook & Heq).
  destruct v as [a|]; [|done]. simpl in Heq.
  destruct (lookup_lt_is_Some_2 categories i) as [c Hc].
  { rewrite Hlen. by eapply lookup_lt_Some. }
  exists i, c, a.
  split.
  { unfold pick_top, py_max. cbv beta iota. rewrite Hmax.
    cbv beta iota delta [obind]. rewrite Hidx.
    unfold py_getitem. by rewrite Hc. }
  split; [done|]. split; [done|].
  intros j w Hj.
  pose proof (proj1 (Forall_lookup _ _) Hnum j w) as Hw.
  destruct (Hw Hj) as (x & -> & Hx).
  exists x. split; [done|].
  apply (fle_feq a m); [done|]. apply Hbound.
  apply list_elem_of_lookup. by exists j.
Qed.

(** What [prepare] renders. *)
Lemma prepare_spec (w : string) (rows : list (string * value)) (r : response) :
  Forall sql_value rows.*2 →
  prepare w rows = Return r →
  ∃ total top,
    r = render_template "dashboard.html"
          (Dashboard (DashboardContext w (py_round2 total) top rows.*1 rows.*2))
    ∧ py_sum rows.*2 = Return total
    ∧ (rows = [] → total = PyInt 0 ∧ top = None)
    ∧ (rows ≠ [] →
       ∃ i c a,
         top = Some c
         ∧ rows.*1 !! i = Some c
         ∧ rows.*2 !! i = Some (Some a)
         ∧ ∀ j v, rows.*2 !! j = Some v → ∃ x, v = Some x ∧ fle x a = true).
Proof.
  intros Hsql. unfold prepare.
  destruct (py_sum rows.*2) as [total|e] eqn:Hsum; [|done].
  cbv beta iota delta [obind].
  pose proof (py_sum_from_numbers _ _ _ Hsql Hsum) as Hnum.
  destruct rows as [|row rows].
  - simpl. intros [= <-]. exists total, None.
    split; [done|]. split; [done|]. split; [|done].
    intros _. by inversion Hsum.
  - destruct (pick_top_spec (row :: rows).*1 (row :: rows).*2)
      as (i & c & a & -> & Hc & Ha & Hbound);
      [by rewrite !length_fmap | done | done |].
    intros [= <-]. exists total, (Some c).
    split; [done|]. split; [done|]. split; [done|].
    intros _. by exists i, c, a.
Qed.

(** Rounding a quotient to the nearest integer, ties to even. *)
Lemma round_half_even_spec p q :
  0 ≤ p → 0 < q →
  0 ≤ round_half_even p q
  ∧ 2 * Z.abs (p - round_half_even p q * q) ≤ q
  ∧ (2 * Z.abs (p - round_half_even p q * q) = q →
     Z.even (round_half_even p q) = true).
Proof.
  intros Hp Hq. unfold round_half_even.
  pose proof (Z.div_mod p q ltac:(lia)) as Hdiv.
  pose proof (Z.mod_pos_bound p q Hq) as Hmod.
  pose proof (Z.div_pos p q Hp Hq) as Hn.
  set (n := p / q) in *. set (m := p mod q) in *.
  destruct (Z.compare_spec (2 * m) q) as [Heq|Hlt|Hgt].
  - destruct (Z.even n) eqn:Heven.
    + split; [lia|]. split; [nia|done].
    + split; [lia|]. split; [nia|]. intros _.
      replace (n + 1) with (Z.succ n) by lia.
      by rewrite Z.even_succ, <- Z.negb_even, Heven.
  - split; [lia|]. split; [nia|]. intros Htie. exfalso. nia.
  - split; [lia|]. split; [nia|]. intros Htie. exfalso. nia.
Qed.

(** [round(x, 2)] rounds to the nearest hundredth. *)
Lemma round2_spec x : rounded_to_cents x (round2 x).
Proof.
  destruct x as [s| | |s m e]; try done.
  unfold rounded_to_cents, round2.
  destruct (Z.leb_spec 0 e), (Z.ltb_spec e 0); try lia; [done|].
  assert (Hpow : 0 < 2 ^ (- e)) by (apply Z.pow_pos_nonneg; lia).
  destruct (round_half_even_spec (Z.pos m * 100) (2 ^ (- e)) ltac:(lia) Hpow)
    as (Hq & Hnear & Htie).
  exists (round_half_even (Z.pos m * 100) (2 ^ (- e))).
  replace (100 * Z.pos m) with (Z.pos m * 100) by lia.
  split; [done|]. split; [done|]. split; [done|].
  unfold hundredths. by destruct (round_half_even _ _).
Qed.

(** [sum] on floats adds them to [0.0] from left to right. *)
Lemma py_sum_from_floats acc xs :
  py_sum_from (PyFloat acc) (Some <$> xs) = Return (PyFloat (foldl fadd acc xs)).
Proof.
  revert acc. induction xs as [|x xs IH]; intros acc; [done|].
  change (py_sum_from (PyFloat (fadd acc x)) (Some <$> xs)
          = Return (PyFloat (foldl fadd (fadd acc x) xs))).
  apply IH.
Qed.

Lemma py_sum_floats xs :
  py_sum (Some <$> xs)
  = Return match xs with
           | [] => PyInt 0
           | _ => PyFloat (foldl fadd zero xs)
           end.
Proof.
  destruct xs as [|x xs]; [done|].
  change (py_sum_from (PyFloat (fadd zero x)) (Some <$> xs)
          = Return (PyFloat (foldl fadd (fadd zero x) xs))).
  apply py_sum_from_floats.
Qed.

Lemma numbers_floats (items : list value) :
  Forall number items → ∃ xs, items = Some <$> xs.
Proof.
  induction 1 as [|v items (x & -> & _) _ (xs & ->)].
  - by exists [].
  - by exists (x :: xs).
Qed.

End Preparation.

(** C2. Whenever [/dashboard] renders, the numbers it hands to the
    template are those of the rows aggregated for the selected window.
    The amounts are floats; [total_spent] is their sum, added to [0.0]
    from left to right, rounded to two decimals: the float of [q]
    hundredths, [q] being the integer nearest to a hundred times the
    sum (the even one on a tie).  [top_category] is the category at a
    position whose total is at least every total of the window.  When
    no expense of the user falls in the window there are no rows,
    [total_spent] is the integer [0] and [top_category] is [None]. *)
Theorem dashboard_totals
    (py_float : string → option float) env req db cookie
    template ctx db' cookie' :
  serve (dashboard py_float env req) db cookie
  = (Return (render_template template (Dashboard ctx)), db', cookie') →
  ∃ uid start_date end_date total,
    cookie !! "user_id" = Some uid
    ∧ select_week env req = Return (start_date, selected_week ctx)
    ∧ Calendar.add_days start_date 6 = Return end_date
    ∧ let lo := Calendar.isoformat (Calendar.date_of start_date) in
      let hi := Calendar.isoformat (Calendar.date_of end_date) in
      let rows := select_totals uid lo hi db' in
      categories ctx = rows.*1
      ∧ amounts ctx = rows.*2
      ∧ py_sum (amounts ctx) = Return total
      ∧ total_spent ctx = py_round2 total
      ∧ (∃ xs,
           amounts ctx = Some <$> xs
           ∧ match xs with
             | [] => total_spent ctx = PyInt 0
             | _ =>
                 ∃ r, total_spent ctx = PyFloat r
                      ∧ rounded_to_cents (foldl fadd zero xs) r
             end)
      ∧ (List.filter (in_window uid lo hi) (expenses db') = [] →
         amounts ctx = []
         ∧ total_spent ctx = PyInt 0
         ∧ top_category ctx = None)
      ∧ (amounts ctx ≠ [] →
         ∃ i c a,
           top_category ctx = Some c
           ∧ categories ctx !! i = Some c
           ∧ amounts ctx !! i = Some (Some a)
           ∧ ∀ j v, amounts ctx !! j = Some v →
                    ∃ x, v = Some x ∧ fle x a = true).
Proof.
  intros Hrun.
  destruct (logged_in (cookie !! "user_id")) eqn:Hlog; cycle 1.
  { unfold serve in Hrun. by rewrite dashboard_anonymous in Hrun. }
  destruct (cookie !! "user_id") as [uid|] eqn:Hin; [|done].
  assert (Hnz : uid ≠ 0) by (simpl in Hlog; by destruct (Z.eqb_spec uid 0)).
  assert (Hsum : summary env req uid db'
                 = Return (render_template template (Dashboard ctx))).
  { unfold serve in Hrun.
    rewrite (dashboard_logged_in py_float env req db cookie uid Hin Hnz) in Hrun.
    destruct (is_post (method req)).
    - destruct (add_expense_view py_float uid req db db cookie eq_refl)
        as (o & db1 & db2 & Hadd & _ & _).
      rewrite Hadd in Hrun. destruct o as [[]|e]; [|done].
      rewrite aggregation_run in Hrun. simpl in Hrun. by inversion Hrun.
    - unfold ret in Hrun. rewrite aggregation_run in Hrun. simpl in Hrun.
      by inversion Hrun. }
  unfold summary in Hsum.
  destruct (select_week env req) as [[start_date w]|e] eqn:Hweek; [|done].
  cbv beta iota delta [obind] in Hsum.
  destruct (Calendar.add_days start_date 6) as [end_date|e] eqn:Hend; [|done].
  cbv beta iota in Hsum.
  pose proof (select_totals_sql_values uid
                (Calendar.isoformat (Calendar.date_of start_date))
                (Calendar.isoformat (Calendar.date_of end_date)) db') as Hsql.
  destruct (prepare_spec _ _ _ Hsql Hsum)
    as (total & top & Hr & Htotal & Hempty & Htop).
  pose proof (py_sum_from_numbers _ _ _ Hsql Htotal) as Hnum.
  inversion Hr; subst ctx template; clear Hr. simpl.
  exists uid, start_date, end_date, total.
  split; [done|]. split; [done|]. split; [done|].
  split; [done|]. split; [done|]. split; [done|]. split; [done|].
  split.
  { destruct (numbers_floats _ Hnum) as [xs Hxs].
    exists xs. split; [done|].
    rewrite Hxs, py_sum_floats in Htotal. injection Htotal as <-.
    destruct xs as [|x xs]; [done|].
    eexists. split; [reflexivity|]. apply round2_spec. }
  split.
  - intros Hnone.
    assert (Hrows : select_totals uid
                      (Calendar.isoformat (Calendar.date_of start_date))
                      (Calendar.isoformat (Calendar.date_of end_date)) db' = [])
      by (unfold select_totals; by rewrite Hnone).
    destruct (Hempty Hrows) as [-> ->]. by rewrite Hrows.
  - intros Hne. apply Htop. intros Hrows. apply Hne. by rewrite Hrows.
Qed.

(** ** The window of a week token *)

Section Window.
Import Calendar CalendarFacts TextFacts.
Variable py_float : string → option float.

(** A week token is not the empty string. *)
Lemma week_token_cons y w : ∃ c s, week_token y w = String c s.
Proof. unfold week_token, Text.four_digits. by eexists _, _. Qed.

(** On a valid week token the week selection is the Monday of that
    week, and the token is handed back as it came. *)
Lemma select_week_token env req y w :
  valid_week y w = true →
  args req !! "week" = Some (week_token y w) →
  select_week env req
  = Return (DateTime (fromordinal (monday_ordinal y w)) 0, week_token y w).
Proof.
  intros Hvalid Hweek. unfold select_week. rewrite Hweek.
  destruct (week_token_cons y w) as (c & s & Htoken).
  rewrite Htoken, <- Htoken. by rewrite (week_monday_token y w Hvalid).
Qed.

(** The window of a valid week token whose Sunday is a date. *)
Lemma summary_token env req uid db y w :
  valid_week y w = true →
  monday_ordinal y w + 6 ≤ MAXORDINAL →
  args req !! "week" = Some (week_token y w) →
  summary env req uid db
  = prepare (week_token y w)
      (select_totals uid
         (isoformat (fromordinal (monday_ordinal y w)))
         (isoformat (fromordinal (monday_ordinal y w + 6))) db).
Proof.
  intros Hvalid Hsunday Hweek.
  pose proof (monday_bounds y w Hvalid) as (Hmonday & _ & _).
  unfold summary. rewrite (select_week_token env req y w Hvalid Hweek).
  cbv beta iota delta [obind]. unfold add_days. simpl date_of.
  destruct (fromordinal_spec _ Hmonday) as [_ ->].
  replace ((0 <? monday_ordinal y w + 6) && (monday_ordinal y w + 6 <=? MAXORDINAL))
    with true; [done|].
  symmetry. apply andb_true_iff. rewrite Z.ltb_lt, Z.leb_le. lia.
Qed.

(** Between two dates of the calendar, text order is date order. *)
Lemma between_dates d lo hi :
  valid_date d = true →
  1 ≤ lo ≤ MAXORDINAL →
  1 ≤ hi ≤ MAXORDINAL →
  between (isoformat d) (isoformat (fromordinal lo)) (isoformat (fromordinal hi))
  = true
  ↔ lo ≤ toordinal d ≤ hi.
Proof.
  intros Hd Hlo Hhi.
  destruct (fromordinal_spec lo Hlo) as [Hvlo Holo].
  destruct (fromordinal_spec hi Hhi) as [Hvhi Hohi].
  unfold between, text_le.
  rewrite (isoformat_compare _ _ Hvlo Hd), (isoformat_compare _ _ Hd Hvhi).
  rewrite Holo, Hohi, andb_true_iff.
  destruct (Z.compare_spec lo (toordinal d)),
    (Z.compare_spec (toordinal d) hi); split; intros Hin; try lia;
    try done; destruct Hin; done.
Qed.

(** Comparing a text that goes on after a prefix as long as the other
    text. *)
Lemma compare_append_left (a b s : string) :
  String.length a = String.length b →
  String.compare (a +:+ s) b
  = match String.compare a b with
    | Eq => match s with "" => Eq | _ => Gt end
    | ne => ne
    end.
Proof.
  revert b. induction a as [|x a IH]; intros [|y b] Hlen; try done.
  - rewrite append_nil. by destruct s.
  - rewrite append_cons, !compare_cons.
    destruct (Ascii.compare x y); try done.
    apply IH. by injection Hlen.
Qed.

Lemma compare_append_right (a b s : string) :
  String.length a = String.length b →
  String.compare b (a +:+ s)
  = match String.compare b a with
    | Eq => match s with "" => Eq | _ => Lt end
    | ne => ne
    end.
Proof.
  revert b. induction a as [|x a IH]; intros [|y b] Hlen; try done.
  rewrite append_cons, !compare_cons.
  destruct (Ascii.compare y x); try done.
  apply IH. by injection Hlen.
Qed.

Lemma isoformat_length d : String.length (isoformat d) = 10%nat.
Proof.
  unfold isoformat, Text.four_digits, Text.two_digits.
  by rewrite !append_cons, !append_nil.
Qed.

(** A stored date that goes on after the date, for instance with a time
    of day: it is in the window on its first six days, and on the last
    day only with nothing after the date. *)
Lemma between_dates_suffix d s lo hi :
  valid_date d = true →
  1 ≤ lo ≤ MAXORDINAL →
  1 ≤ hi ≤ MAXORDINAL →
  between (isoformat d +:+ s) (isoformat (fromordinal lo))
    (isoformat (fromordinal hi)) = true
  ↔ lo ≤ toordinal d ∧ (toordinal d < hi ∨ (toordinal d = hi ∧ s = "")).
Proof.
  intros Hd Hlo Hhi.
  destruct (fromordinal_spec lo Hlo) as [Hvlo Holo].
  destruct (fromordinal_spec hi Hhi) as [Hvhi Hohi].
  unfold between, text_le.
  rewrite compare_append_right, compare_append_left
    by (by rewrite !isoformat_length).
  rewrite (isoformat_compare _ _ Hvlo Hd), (isoformat_compare _ _ Hd Hvhi).
  rewrite Holo, Hohi, andb_true_iff.
  destruct (Z.compare_spec lo (toordinal d)),
    (Z.compare_spec (toordinal d) hi), s as [|c s'];
    (split;
     [ intros [Ha Hb];
       first [ done
             | split; [lia|]; first [left; lia | right; split; [lia|done]] ]
     | intros [Ha [Hb|[Hb Hs]]]; first [lia | done] ]).
Qed.

End Window.

(** The categories of the groups are those of the rows. *)
Lemma group_add_keys category amount (groups : list (string * float)) c :
  c ∈ (group_add category amount groups).*1 ↔ c = category ∨ c ∈ groups.*1.
Proof.
  induction groups as [|[c0 total] groups IH]; simpl.
  - rewrite list_elem_of_singleton, elem_of_nil. tauto.
  - destruct (String.compare category c0) eqn:Hcmp; simpl.
    + apply String.compare_eq_iff in Hcmp as ->.
      rewrite !elem_of_cons. tauto.
    + rewrite !elem_of_cons. tauto.
    + rewrite !elem_of_cons, IH. tauto.
Qed.

Lemma group_sum_from_keys (rows : list expense_row)
    (groups : list (string * float)) c :
  c ∈ (foldl (λ groups e, group_add (e_category e) (e_amount e) groups)
         groups rows).*1
  ↔ c ∈ groups.*1 ∨ ∃ e, e ∈ rows ∧ e_category e = c.
Proof.
  revert groups. induction rows as [|r rows IH]; intros groups; simpl.
  - split; [by left|]. intros [?|(e & He & _)]; [done|].
    by apply elem_of_nil in He.
  - rewrite IH, group_add_keys. split.
    + intros [[->|?]|(e & He & Hc)].
      * right. exists r. split; [left|done].
      * by left.
      * right. exists e. split; [by right|done].
    + intros [?|(e & He & Hc)]; [by left; right|].
      apply elem_of_cons in He as [->|He].
      * left. by left.
      * right. by exists e.
Qed.

(** A category is listed by the aggregation exactly when an expense of
    that category passes the [WHERE] clause. *)
Lemma select_totals_categories uid lo hi db c :
  c ∈ (select_totals uid lo hi db).*1
  ↔ ∃ e, e ∈ expenses db ∧ in_window uid lo hi e = true ∧ e_category e = c.
Proof.
  unfold select_totals, group_sum.
  rewrite <- list_fmap_compose.
  change (fst ∘ prod_map id result_double) with (@fst string float).
  rewrite group_sum_from_keys. split.
  - intros [Hnil|(e & He & Hc)]; [by apply elem_of_nil in Hnil|].
    apply list_elem_of_In, filter_In in He as [He Hw].
    exists e. by rewrite list_elem_of_In.
  - intros (e & He & Hw & Hc). right. exists e. split; [|done].
    apply list_elem_of_In, filter_In. by rewrite <- list_elem_of_In.
Qed.

(** The rows of the aggregation for a user who owns a single expense. *)
Lemma select_totals_single uid lo hi db amount category date :
  user_view uid db = [(amount, category, date)] →
  select_totals uid lo hi db
  = if between date lo hi
    then [(category, result_double (fadd zero amount))]
    else [].
Proof.
  intros Hview.
  rewrite (select_totals_view uid lo hi db
             (Database [] [ExpenseRow 0 uid amount category date])).
  - unfold select_totals, group_sum, in_window. simpl.
    rewrite Z.eqb_refl. simpl. by destruct (between date lo hi).
  - rewrite Hview. unfold user_view. simpl. by rewrite Z.eqb_refl.
Qed.

Import Grouping.

(** ** The groups of the aggregation *)

Section Groups.

(** The byte order of strings is transitive and irreflexive. *)
Lemma compare_lt_trans (x y z : string) :
  String.compare x y = Lt → String.compare y z = Lt → String.compare x z = Lt.
Proof.
  revert y z. induction x as [|a x IH]; intros [|b y] [|c z]; simpl; try done.
  unfold Ascii.compare.
  destruct (N.compare_spec (N_of_ascii a) (N_of_ascii b)),
    (N.compare_spec (N_of_ascii b) (N_of_ascii c)),
    (N.compare_spec (N_of_ascii a) (N_of_ascii c));
    try done; try lia.
  apply IH.
Qed.

Lemma compare_refl (x : string) : String.compare x x = Eq.
Proof.
  induction x as [|a x IH]; simpl; [done|].
  unfold Ascii.compare. by rewrite N.compare_refl.
Qed.

Lemma compare_gt_lt (x y : string) :
  String.compare x y = Gt → String.compare y x = Lt.
Proof. intros H. rewrite String.compare_antisym, H. done. Qed.

Lemma group_add_ascending category amount groups :
  ascending groups → ascending (group_add category amount groups).
Proof.
  unfold ascending.
  induction groups as [|[c total] groups IH]; simpl; intros Hs.
  - by repeat constructor.
  - apply StronglySorted_inv in Hs as [Hs Hc].
    destruct (String.compare category c) eqn:Hcmp; simpl.
    + by constructor.
    + constructor; [by constructor|]. constructor; [done|].
      eapply Forall_impl; [exact Hc|]. intros k Hk. simpl in Hk.
      by eapply compare_lt_trans.
    + constructor; [by apply IH|].
      apply Forall_forall. intros k Hk.
      apply group_add_keys in Hk as [->|Hk].
      * by apply compare_gt_lt.
      * by apply (proj1 (Forall_forall _ _) Hc).
Qed.

Lemma group_sum_ascending rows : ascending (group_sum rows).
Proof.
  unfold group_sum.
  assert (Hgen : ∀ groups, ascending groups →
            ascending (foldl (λ groups e, group_add (e_category e) (e_amount e) groups)
                         groups rows)).
  { induction rows as [|r rows IH]; intros groups Hs; [done|].
    simpl. by apply IH, group_add_ascending. }
  apply Hgen. constructor.
Qed.

Lemma ascending_NoDup groups : ascending groups → NoDup groups.*1.
Proof.
  unfold ascending. induction groups.*1 as [|k ks IH]; intros Hs.
  - constructor.
  - apply StronglySorted_inv in Hs as [Hs Hk].
    constructor; [|by apply IH].
    intros Hin.
    pose proof (proj1 (Forall_forall _ _) Hk k Hin) as Hlt. simpl in Hlt.
    by rewrite compare_refl in Hlt.
Qed.

Lemma total_of_absent category groups :
  category ∉ groups.*1 → total_of category groups = None.
Proof.
  unfold total_of. induction groups as [|[c t] groups IH]; simpl; [done|].
  intros Hnot. destruct (String.eqb_spec c category) as [->|_].
  - exfalso. apply Hnot. left.
  - apply IH. intros Hin. apply Hnot. by right.
Qed.

Lemma total_of_group_add category amount groups c :
  ascending groups →
  total_of c (group_add category amount groups)
  = if String.eqb category c
    then Some (fadd (default zero (total_of category groups)) amount)
    else total_of c groups.
Proof.
  unfold ascending, total_of.
  induction groups as [|[c0 t0] groups IH]; simpl; intros Hs.
  - destruct (String.eqb_spec category c) as [->|Hne]; simpl; [done|].
    by destruct (String.eqb_spec c category) as [->|_].
  - apply StronglySorted_inv in Hs as [Hs Hc0].
    destruct (String.compare category c0) eqn:Hcmp; simpl.
    + apply String.compare_eq_iff in Hcmp as ->.
      rewrite String.eqb_refl. simpl.
      rewrite (String.eqb_sym c0 c). by destruct (String.eqb c c0).
    + assert (Hne : String.eqb c0 category = false).
      { apply String.eqb_neq. intros ->. by rewrite compare_refl in Hcmp. }
      rewrite Hne.
      assert (Habsent : category ∉ groups.*1).
      { intros Hin.
        pose proof (proj1 (Forall_forall _ _) Hc0 _ Hin) as Hlt. simpl in Hlt.
        pose proof (compare_lt_trans _ _ _ Hcmp Hlt) as Hbad.
        by rewrite compare_refl in Hbad. }
      fold (total_of category groups). rewrite (total_of_absent _ _ Habsent).
      simpl. rewrite (String.eqb_sym category c).
      destruct (String.eqb_spec c category) as [->|_]; [done|].
      done.
    + assert (Hne : String.eqb c0 category = false).
      { apply String.eqb_neq. intros ->. by rewrite compare_refl in Hcmp. }
      rewrite Hne. specialize (IH Hs).
      destruct (String.eqb_spec c0 c) as [->|Hne0].
      * simpl. apply String.eqb_neq in Hne.
        destruct (String.eqb_spec category c) as [->|_]; done.
      * exact IH.
Qed.

Lemma amounts_of_cons c r rows :
  amounts_of c (r :: rows)
  = if String.eqb (e_category r) c then e_amount r :: amounts_of c rows
    else amounts_of c rows.
Proof.
  unfold amounts_of. simpl. by destruct (String.eqb (e_category r) c).
Qed.

Lemma total_of_fold c rows groups :
  ascending groups →
  total_of c (foldl (λ groups e, group_add (e_category e) (e_amount e) groups)
                groups rows)
  = add_all (total_of c groups) (amounts_of c rows).
Proof.
  revert groups. induction rows as [|r rows IH]; intros groups Hs; [done|].
  simpl. rewrite (IH _ (group_add_ascending _ _ _ Hs)).
  rewrite (total_of_group_add _ _ _ _ Hs), amounts_of_cons.
  destruct (String.eqb_spec (e_category r) c) as [<-|_]; [|done].
  destruct (amounts_of (e_category r) rows); reflexivity.
Qed.

Lemma total_of_group_sum c rows :
  total_of c (group_sum rows) = add_all None (amounts_of c rows).
Proof. unfold group_sum. rewrite total_of_fold; [done|constructor]. Qed.

(** In groups with distinct categories, a pair is listed exactly when
    its total is the total of its category. *)
Lemma total_of_elem c t groups :
  NoDup groups.*1 → (c, t) ∈ groups ↔ total_of c groups = Some t.
Proof.
  unfold total_of. induction groups as [|[c0 t0] groups IH]; simpl; intros Hnd.
  - split; [by intros ?%elem_of_nil|done].
  - apply NoDup_cons in Hnd as [Hc0 Hnd]. specialize (IH Hnd).
    destruct (String.eqb_spec c0 c) as [->|Hne]; simpl.
    + split.
      * intros [[= ->]|Hin]%elem_of_cons; [done|].
        exfalso. apply Hc0. apply list_elem_of_fmap. by exists (c, t).
      * intros [= ->]. left.
    + rewrite <- IH. split.
      * intros [[= -> _]|Hin]%elem_of_cons; done.
      * intros Hin. by right.
Qed.

End Groups.

(** The rows of the aggregation keep the categories, and the order, of
    the groups. *)
Lemma select_totals_keys uid lo hi db :
  (select_totals uid lo hi db).*1
  = (group_sum (List.filter (in_window uid lo hi) (expenses db))).*1.
Proof. unfold select_totals. by rewrite <- list_fmap_compose. Qed.

Lemma select_totals_ascending uid lo hi db :
  StronglySorted (λ a b, String.compare a b = Lt) (select_totals uid lo hi db).*1.
Proof. rewrite select_totals_keys. apply group_sum_ascending. Qed.

(** The pairs of the aggregation: one for each category with a selected
    expense, holding the sum of the amounts of the selected expenses of
    the category. *)
Lemma select_totals_elem uid lo hi db c v :
  (c, v) ∈ select_totals uid lo hi db
  ↔ amounts_of c (List.filter (in_window uid lo hi) (expenses db)) ≠ []
    ∧ v = result_double
            (foldl fadd zero
               (amounts_of c (List.filter (in_window uid lo hi) (expenses db)))).
Proof.
  unfold select_totals.
  set (selected := List.filter (in_window uid lo hi) (expenses db)).
  rewrite list_elem_of_fmap.
  pose proof (ascending_NoDup _ (group_sum_ascending selected)) as Hnd.
  split.
  - intros ([c' t] & [= -> ->] & Hrow).
    apply (total_of_elem _ _ _ Hnd) in Hrow.
    rewrite total_of_group_sum in Hrow. unfold add_all in Hrow.
    destruct (amounts_of c' selected) as [|x xs]; [done|].
    inversion Hrow. done.
  - intros [Hne ->].
    exists (c, foldl fadd zero (amounts_of c selected)). split; [done|].
    apply (total_of_elem _ _ _ Hnd). rewrite total_of_group_sum.
    unfold add_all. by destruct (amounts_of c selected).
Qed.


(** [sum] on values of the database: it fails on the first [NULL]. *)
Lemma py_sum_from_null acc items :
  None ∈ items → py_sum_from acc items = Raise TypeError.
Proof.
  revert acc. induction items as [|v items IH]; intros acc Hin.
  - by apply elem_of_nil in Hin.
  - simpl. destruct v as [x|]; [|done].
    apply elem_of_cons in Hin as [?|Hin]; [done|].
    destruct acc; simpl; by apply IH.
Qed.

Lemma py_sum_from_total acc items :
  None ∉ items → ∃ total, py_sum_from acc items = Return total.
Proof.
  revert acc. induction items as [|v items IH]; intros acc Hnot.
  - by eexists.
  - simpl. destruct v as [x|]; [|exfalso; apply Hnot; left].
    assert (Hrest : None ∉ items) by (intros Hin; apply Hnot; by right).
    destruct acc; simpl; by apply IH.
Qed.



(** On rows without a [NULL] total the data preparation renders. *)
Lemma prepare_renders w (rows : list (string * value)) :
  None ∉ rows.*2 →
  Forall sql_value rows.*2 →
  ∃ total top,
    prepare w rows
    = Return (render_template "dashboard.html"
                (Dashboard (DashboardContext w total top rows.*1 rows.*2))).
Proof.
  intros Hnot Hsql.
  destruct (py_sum_from_total (PyInt 0) rows.*2 Hnot) as [total Hsum].
  destruct (prepare w rows) as [r|e] eqn:Hprep.
  - destruct (prepare_spec w rows r Hsql Hprep) as (t & top & -> & _).
    by eexists _, _.
  - exfalso. unfold prepare, py_sum in Hprep. rewrite Hsum in Hprep.
    cbv beta iota delta [obind] in Hprep.
    pose proof (py_sum_from_numbers _ _ _ Hsql Hsum) as Hnum.
    destruct rows as [|row rows'] eqn:Hrows; [done|].
    destruct (pick_top_spec (row :: rows').*1 (row :: rows').*2)
      as (i & c & a & Htop & _); [by rewrite !length_fmap|done|done|].
    by rewrite Htop in Hprep.
Qed.

(** C1, amended.  For a logged-in user and a well-formed week token
    [YYYY-Www] other than [9999-W52], the dashboard is computed, after
    the insertion step, from the rows the aggregation selects between
    the Monday of that week and the day six days later, both included.
    An expense whose stored date is the ISO text [YYYY-MM-DD] of a
    calendar date is selected exactly when it belongs to the user and
    its date lies in that window; when the stored text goes on after
    the date (a time of day, say), the last day of the window is lost.
    The selected expenses are what the
    aggregation holds: a category has a row exactly when an expense of
    that category is selected, and the total of the row is the sum of
    the amounts of the selected expenses of the category, added to
    [0.0] in rowid order ([NULL] when that sum is NaN).  The answer
    hands these rows to the template, unless a total is [NULL]: then
    [sum] raises [TypeError].  The window starts on a Monday, which
    [isocalendar] places on day 1 of week [ww] of ISO year [YYYY].  In
    particular a user whose only expense is (42.50, "Food", 2024-01-17)
    gets the category "Food" with total 42.50 for the token 2024-W03
    and no row for 2024-W04. *)
Theorem weekly_window
    (py_float : string → option float) env req db cookie uid y w :
  cookie !! "user_id" = Some uid →
  uid ≠ 0 →
  valid_week y w = true →
  (y, w) ≠ (9999, 52) →
  args req !! "week" = Some (week_token y w) →
  let monday := monday_ordinal y w in
  let lo := Calendar.isoformat (Calendar.fromordinal monday) in
  let hi := Calendar.isoformat (Calendar.fromordinal (monday + 6)) in
  Calendar.weekday (Calendar.fromordinal monday) = 0
  ∧ Calendar.isocalendar (Calendar.fromordinal monday) = (y, w, 1)
  ∧ serve (dashboard py_float env req) db cookie
    = match inserted py_float uid req db with
      | Return db' =>
          (prepare (week_token y w) (select_totals uid lo hi db'), db', cookie)
      | Raise e => (Raise e, db, cookie)
      end
  ∧ (∀ db' c,
       c ∈ (select_totals uid lo hi db').*1
       ↔ ∃ e, e ∈ expenses db'
              ∧ in_window uid lo hi e = true
              ∧ e_category e = c)
  ∧ (∀ e d,
       Calendar.valid_date d = true →
       e_date e = Calendar.isoformat d →
       in_window uid lo hi e = true
       ↔ e_user_id e = uid
         ∧ monday ≤ Calendar.toordinal d ≤ monday + 6)
  ∧ (is_post (method req) = false →
     user_view uid db = [(Sample.amount_42_50, "Food", "2024-01-17")] →
     ((y, w) = (2024, 3) →
      serve (dashboard py_float env req) db cookie
      = (Return
           (render_template "dashboard.html"
              (Dashboard
                 (DashboardContext "2024-W03" (PyFloat Sample.amount_42_50)
                    (Some "Food") ["Food"] [Some Sample.amount_42_50]))),
         db, cookie))
     ∧ ((y, w) = (2024, 4) →
        serve (dashboard py_float env req) db cookie
        = (Return
             (render_template "dashboard.html"
                (Dashboard (DashboardContext "2024-W04" (PyInt 0) None [] []))),
           db, cookie)))
  ∧ (∀ db' c v,
       let selected := List.filter (in_window uid lo hi) (expenses db') in
       (c, v) ∈ select_totals uid lo hi db'
       ↔ amounts_of c selected ≠ []
         ∧ v = result_double (foldl fadd zero (amounts_of c selected)))
  ∧ (∀ db',
       let rows := select_totals uid lo hi db' in
       (None ∈ rows.*2 → prepare (week_token y w) rows = Raise TypeError)
       ∧ (None ∉ rows.*2 →
          ∃ total top,
            prepare (week_token y w) rows
            = Return (render_template "dashboard.html"
                        (Dashboard
                           (DashboardContext (week_token y w) total top
                              rows.*1 rows.*2)))))
  ∧ (∀ e d suffix,
       Calendar.valid_date d = true →
       e_date e = Calendar.isoformat d +:+ suffix →
       in_window uid lo hi e = true
       ↔ e_user_id e = uid
         ∧ monday ≤ Calendar.toordinal d
         ∧ (Calendar.toordinal d < monday + 6
            ∨ (Calendar.toordinal d = monday + 6 ∧ suffix = ""))).
Proof.
  intros Hin Hnz Hvalid Hlast Hweek monday lo hi.
  pose proof (CalendarFacts.monday_bounds y w Hvalid) as (Hmonday & Hmod & Hsunday).
  specialize (Hsunday Hlast).
  assert (Hrun : serve (dashboard py_float env req) db cookie
                 = match inserted py_float uid req db with
                   | Return db' =>
                       (prepare (week_token y w) (select_totals uid lo hi db'),
                        db', cookie)
                   | Raise e => (Raise e, db, cookie)
                   end).
  { rewrite (dashboard_run py_float env req db cookie uid Hin Hnz).
    destruct (inserted py_float uid req db) as [db'|e]; [|done].
    by rewrite (summary_token env req uid db' y w Hvalid Hsunday Hweek). }
  split; [|split; [|split; [done|split; [|split; [|split; [|split; [|split]]]]]]].
  - unfold Calendar.weekday, monday.
    by destruct (CalendarFacts.fromordinal_spec _ Hmonday) as [_ ->].
  - by apply CalendarFacts.isocalendar_monday.
  - intros db' c. apply select_totals_categories.
  - intros e d Hd Hdate.
    unfold in_window. rewrite andb_true_iff, Z.eqb_eq, Hdate.
    unfold lo, hi.
    by rewrite (between_dates d monday (monday + 6) Hd) by (unfold monday; lia).
  - intros Hget Hview. rewrite Hrun. unfold inserted. rewrite Hget.
    rewrite (select_totals_single uid lo hi db _ _ _ Hview).
    split; intros [= -> ->]; reflexivity.
  - intros db' c v selected. apply select_totals_elem.
  - intros db' rows. split.
    + intros Hnull. unfold prepare, py_sum.
      by rewrite (py_sum_from_null _ _ Hnull).
    + intros Hnot. by apply prepare_renders, select_totals_sql_values.
  - intros e d suffix Hd Hdate.
    unfold in_window. rewrite andb_true_iff, Z.eqb_eq, Hdate.
    unfold lo, hi.
    by rewrite (between_dates_suffix d suffix monday (monday + 6) Hd)
      by (unfold monday; lia).
Qed.

(** * The statements on sample requests *)

(** The sample hashing verifies what it generates. *)
Lemma sample_check_generated salt plain :
  Sample.check_password_hash (Sample.generate_password_hash salt plain) plain
  = true.
Proof.
  unfold Sample.check_password_hash, Sample.generate_password_hash.
  induction plain as [|c plain IH].
  - rewrite !TextFacts.append_nil, TextFacts.append_cons. simpl.
    by destruct salt.
  - rewrite !TextFacts.append_cons. simpl.
    by destruct (ascii_dec c c).
Qed.

Lemma dashboard_guard_redirects_without_mutation_witness :
  logged_in ((∅ : gmap string Z) !! "user_id") = false
  ∧ serve (Sample.dashboard Sample.env
             (Sample.post_expense "9.99" "Books" "2024-01-18" ∅))
      Sample.db ∅
    = (Return (redirect "login"), Sample.db, ∅).
Proof.
  split; [reflexivity|].
  apply dashboard_guard_redirects_without_mutation. reflexivity.
Defined.

Lemma signup_duplicate_email_witness :
  (method (Sample.credentials "ann@example.org" "other") = POST
   ∧ form (Sample.credentials "ann@example.org" "other") !! "email"
     = Some "ann@example.org"
   ∧ form (Sample.credentials "ann@example.org" "other") !! "password"
     = Some "other"
   ∧ Sample.ann ∈ users Sample.db
   ∧ u_email Sample.ann = "ann@example.org")
  ∧ serve (Sample.signup Sample.env
             (Sample.credentials "ann@example.org" "other")) Sample.db ∅
    = (Return (render_template "signup.html"
                 (ErrorContext "Email already exists.")),
       Sample.db, ∅).
Proof.
  assert (H1 : method (Sample.credentials "ann@example.org" "other") = POST)
    by reflexivity.
  assert (H2 : form (Sample.credentials "ann@example.org" "other") !! "email"
               = Some "ann@example.org") by reflexivity.
  assert (H3 : form (Sample.credentials "ann@example.org" "other") !! "password"
               = Some "other") by reflexivity.
  assert (H4 : Sample.ann ∈ users Sample.db) by (simpl; left).
  assert (H5 : u_email Sample.ann = "ann@example.org") by reflexivity.
  split; [by repeat split|].
  exact (proj2 (signup_duplicate_email Sample.generate_password_hash
                  Sample.env _ Sample.db ∅ _ _ Sample.ann H1 H2 H3 H4 H5)).
Defined.

Lemma signup_then_login_witness :
  (method (Sample.credentials "bob@example.org" "hunter2") = POST
   ∧ form (Sample.credentials "bob@example.org" "hunter2") !! "email"
     = Some "bob@example.org"
   ∧ form (Sample.credentials "bob@example.org" "hunter2") !! "password"
     = Some "hunter2"
   ∧ ∀ u, u ∈ users Sample.db → u_email u ≠ "bob@example.org")
  ∧ ∃ db' uid,
      serve (Sample.signup Sample.env
               (Sample.credentials "bob@example.org" "hunter2")) Sample.db ∅
      = (Return (redirect "login"), db', ∅)
      ∧ select_user "bob@example.org" db'
        = Some (UserRow uid "bob@example.org"
                  (Sample.generate_password_hash (salt Sample.env) "hunter2"))
      ∧ serve (Sample.login (Sample.credentials "bob@example.org" "hunter2"))
          db' ∅
        = (Return (redirect "dashboard"), db', <["user_id" := uid]> ∅).
Proof.
  assert (H1 : method (Sample.credentials "bob@example.org" "hunter2") = POST)
    by reflexivity.
  assert (H2 : form (Sample.credentials "bob@example.org" "hunter2") !! "email"
               = Some "bob@example.org") by reflexivity.
  assert (H3 : form (Sample.credentials "bob@example.org" "hunter2") !! "password"
               = Some "hunter2") by reflexivity.
  assert (H4 : ∀ u, u ∈ users Sample.db → u_email u ≠ "bob@example.org").
  { intros u Hu. apply list_elem_of_singleton in Hu. by subst u. }
  split; [by repeat split|].
  exact (signup_then_login Sample.generate_password_hash
           Sample.check_password_hash sample_check_generated
           Sample.env _ _ Sample.db ∅ ∅ _ _ H1 H2 H3 H1 H2 H3 H4).
Defined.

Lemma login_failures_indistinguishable_witness :
  (method (Sample.credentials "nobody@example.org" "secret") = POST
   ∧ method (Sample.credentials "ann@example.org" "guess") = POST
   ∧ select_user "nobody@example.org" Sample.db = None
   ∧ select_user "ann@example.org" Sample.db = Some Sample.ann
   ∧ Sample.check_password_hash (u_password Sample.ann) "guess" = false)
  ∧ serve (Sample.login (Sample.credentials "ann@example.org" "guess"))
      Sample.db ∅
    = serve (Sample.login (Sample.credentials "nobody@example.org" "secret"))
        Sample.db ∅.
Proof.
  assert (H1 : method (Sample.credentials "nobody@example.org" "secret") = POST)
    by reflexivity.
  assert (H2 : form (Sample.credentials "nobody@example.org" "secret") !! "email"
               = Some "nobody@example.org") by reflexivity.
  assert (H3 : form (Sample.credentials "nobody@example.org" "secret") !! "password"
               = Some "secret") by reflexivity.
  assert (H4 : method (Sample.credentials "ann@example.org" "guess") = POST)
    by reflexivity.
  assert (H5 : form (Sample.credentials "ann@example.org" "guess") !! "email"
               = Some "ann@example.org") by reflexivity.
  assert (H6 : form (Sample.credentials "ann@example.org" "guess") !! "password"
               = Some "guess") by reflexivity.
  assert (H7 : select_user "nobody@example.org" Sample.db = None)
    by reflexivity.
  assert (H8 : select_user "ann@example.org" Sample.db = Some Sample.ann)
    by reflexivity.
  assert (H9 : Sample.check_password_hash (u_password Sample.ann) "guess" = false)
    by reflexivity.
  split; [by repeat split|].
  exact (proj2 (login_failures_indistinguishable Sample.check_password_hash
                  _ _ Sample.db ∅ _ _ _ _ Sample.ann
                  H1 H2 H3 H4 H5 H6 H7 H8 H9)).
Defined.

Lemma dashboard_depends_on_own_rows_only_witness :
  let crowded :=
    Database [Sample.ann]
      [ExpenseRow 1 2 Sample.amount_42_50 "Rent" "2024-01-16";
       ExpenseRow 2 1 Sample.amount_42_50 "Food" "2024-01-17";
       ExpenseRow 3 3 Sample.amount_42_50 "Food" "2024-01-17"] in
  user_view (default 0 (Sample.cookie !! "user_id")) Sample.db
  = user_view (default 0 (Sample.cookie !! "user_id")) crowded
  ∧ (serve (Sample.dashboard Sample.env (Sample.view_week "2024-W03"))
       Sample.db Sample.cookie).1.1
    = (serve (Sample.dashboard Sample.env (Sample.view_week "2024-W03"))
         crowded Sample.cookie).1.1.
Proof.
  intros crowded.
  assert (H : user_view (default 0 (Sample.cookie !! "user_id")) Sample.db
              = user_view (default 0 (Sample.cookie !! "user_id")) crowded)
    by reflexivity.
  split; [exact H|].
  exact (dashboard_depends_on_own_rows_only Sample.py_float Sample.env _
           Sample.db crowded Sample.cookie H).
Defined.

Lemma post_commits_before_week_is_parsed_witness :
  let req :=
    Sample.post_expense "42.50" "Food" "2024-01-17" {["week" := "notaweek"]} in
  (Sample.cookie !! "user_id" = Some 1
   ∧ method req = POST
   ∧ form req !! "amount" = Some "42.50"
   ∧ Sample.py_float "42.50" = Some Sample.amount_42_50
   ∧ is_nan Sample.amount_42_50 = false
   ∧ week_monday "notaweek" = Raise ValueError)
  ∧ ∃ db',
      expenses db'
      = (expenses Sample.db
         ++ [ExpenseRow 2 1 Sample.amount_42_50 "Food" "2024-01-17"])%list
      ∧ serve (Sample.dashboard Sample.env req) Sample.db Sample.cookie
        = (Raise ValueError, db', Sample.cookie).
Proof.
  intros req.
  assert (H1 : Sample.cookie !! "user_id" = Some 1) by reflexivity.
  assert (H2 : 1 ≠ 0) by lia.
  assert (H3 : method req = POST) by reflexivity.
  assert (H4 : form req !! "amount" = Some "42.50") by reflexivity.
  assert (H5 : Sample.py_float "42.50" = Some Sample.amount_42_50)
    by reflexivity.
  assert (H6 : is_nan Sample.amount_42_50 = false) by reflexivity.
  assert (H7 : form req !! "category" = Some "Food") by reflexivity.
  assert (H8 : form req !! "date" = Some "2024-01-17") by reflexivity.
  assert (H9 : args req !! "week" = Some "notaweek") by reflexivity.
  assert (H10 : week_monday "notaweek" = Raise ValueError) by reflexivity.
  split; [by repeat split|].
  destruct (post_commits_before_week_is_parsed Sample.py_float Sample.env req
              Sample.db Sample.cookie 1 _ _ _ _ H1 H2 H3 H4 H5 H6 H7 H8)
    as (db' & _ & Hrows & _ & Hfail).
  exists db'. split; [exact Hrows|].
  apply (Hfail "notaweek" ValueError H9); [discriminate | exact H10].
Defined.

(** Two categories, 0.1 for books and 0.2 for food: their sum is the
    float 0.30000000000000004, which rounds to 0.3. *)
Lemma dashboard_totals_witness :
  let tenth := S754_finite false 7205759403792794 (-56) in
  let fifth := S754_finite false 7205759403792794 (-55) in
  let sum := S754_finite false 5404319552844596 (-54) in
  let rounded := S754_finite false 5404319552844595 (-54) in
  let db :=
    Database [Sample.ann]
      [ExpenseRow 1 1 fifth "Food" "2024-01-17";
       ExpenseRow 2 1 tenth "Books" "2024-01-16"] in
  let ctx :=
    DashboardContext "2024-W03" (PyFloat rounded) (Some "Food")
      ["Books"; "Food"] [Some tenth; Some fifth] in
  (Sample.py_float "0.1" = Some tenth
   ∧ Sample.py_float "0.2" = Some fifth
   ∧ Sample.py_float "0.3" = Some rounded
   ∧ serve (Sample.dashboard Sample.env (Sample.view_week "2024-W03"))
       db Sample.cookie
     = (Return (render_template "dashboard.html" (Dashboard ctx)),
        db, Sample.cookie))
  ∧ fadd (fadd zero tenth) fifth = sum
  ∧ (∃ xs,
       amounts ctx = Some <$> xs
       ∧ match xs with
         | [] => total_spent ctx = PyInt 0
         | _ =>
             ∃ r, total_spent ctx = PyFloat r
                  ∧ rounded_to_cents (foldl fadd zero xs) r
         end)
  ∧ ∃ i c a,
      top_category ctx = Some c
      ∧ categories ctx !! i = Some c
      ∧ amounts ctx !! i = Some (Some a)
      ∧ ∀ j v, amounts ctx !! j = Some v → ∃ x, v = Some x ∧ fle x a = true.
Proof.
  intros tenth fifth sum rounded db ctx.
  assert (H : serve (Sample.dashboard Sample.env (Sample.view_week "2024-W03"))
                db Sample.cookie
              = (Return (render_template "dashboard.html" (Dashboard ctx)),
                 db, Sample.cookie)) by reflexivity.
  split; [repeat split; try reflexivity; exact H|].
  split; [reflexivity|].
  destruct (dashboard_totals Sample.py_float Sample.env
              (Sample.view_week "2024-W03") db Sample.cookie
              "dashboard.html" ctx db Sample.cookie H)
    as (uid & start_date & end_date & total & _ & _ & _
        & _ & _ & _ & _ & Hsum & _ & Htop).
  split; [exact Hsum|].
  destruct Htop as (i & c & a & Hc & Hi & Ha & Hbound); [discriminate|].
  exists i, c, a. repeat split; assumption.
Defined.

(** Two expenses of one category in the window and an expense of the
    day after it: the category of the first two is listed with the sum
    of their amounts, the third is not counted. *)
Lemma weekly_window_witness :
  let db :=
    Database [Sample.ann]
      [ExpenseRow 1 1 Sample.amount_42_50 "Food" "2024-01-17";
       ExpenseRow 2 1 Sample.amount_42_50 "Food" "2024-01-21";
       ExpenseRow 3 1 Sample.amount_42_50 "Rent" "2024-01-22"] in
  (Sample.cookie !! "user_id" = Some 1
   ∧ valid_week 2024 3 = true
   ∧ (2024, 3) ≠ (9999, 52)
   ∧ args (Sample.view_week "2024-W03") !! "week" = Some (week_token 2024 3))
  ∧ Calendar.isocalendar (Calendar.Date 2024 1 15) = (2024, 3, 1)
  ∧ serve (Sample.dashboard Sample.env (Sample.view_week "2024-W03"))
      Sample.db Sample.cookie
    = (prepare "2024-W03" (select_totals 1 "2024-01-15" "2024-01-21" Sample.db),
       Sample.db, Sample.cookie)
  ∧ ("Food", Some (fadd (fadd zero Sample.amount_42_50) Sample.amount_42_50))
    ∈ select_totals 1 "2024-01-15" "2024-01-21" db
  ∧ ∀ v, ("Rent", v) ∉ select_totals 1 "2024-01-15" "2024-01-21" db.
Proof.
  intros db.
  assert (H1 : Sample.cookie !! "user_id" = Some 1) by reflexivity.
  assert (H2 : 1 ≠ 0) by lia.
  assert (H3 : valid_week 2024 3 = true) by reflexivity.
  assert (H4 : (2024, 3) ≠ (9999, 52)) by discriminate.
  assert (H5 : args (Sample.view_week "2024-W03") !! "week"
               = Some (week_token 2024 3)) by reflexivity.
  split; [by repeat split|].
  destruct (weekly_window Sample.py_float Sample.env
              (Sample.view_week "2024-W03") Sample.db Sample.cookie
              1 2024 3 H1 H2 H3 H4 H5)
    as (_ & Hiso & Hrun & _ & _ & _ & Hrows & _).
  split; [exact Hiso|]. split; [exact Hrun|]. split.
  - apply (proj2 (Hrows db "Food" _)). split; [discriminate|reflexivity].
  - intros v Hrent. apply (proj1 (Hrows db "Rent" v)) in Hrent as [Hne _].
    by apply Hne.
Defined.

(** C1 as stated fails in three ways.

    The last week of year 9999: the token [9999-W52] is well formed,
    its Monday is 9999-12-27, and an expense of the user dated
    9999-12-28 lies in the window; but adding six days to that Monday
    leaves the range of [date], the request raises [OverflowError] and
    nothing is aggregated.

    A date stored with a time of day: the text ["2024-01-21 23:59"]
    names the Sunday of 2024-W03, but it comes after the upper bound
    ["2024-01-21"] in the order of [BETWEEN], and the expense is left
    out.

    Totals that cancel: amounts of [inf] and [-inf] in one category of
    the window add up to NaN, the total comes back as [NULL], and the
    request raises [TypeError] instead of showing the expenses. *)
Lemma weekly_window_counterexamples :
  (let db :=
     Database [Sample.ann]
       [ExpenseRow 1 1 Sample.amount_42_50 "Food" "9999-12-28"] in
   let outcome :=
     (serve (Sample.dashboard Sample.env (Sample.view_week "9999-W52"))
        db Sample.cookie).1.1 in
   valid_week 9999 52 = true
   ∧ week_token 9999 52 = "9999-W52"
   ∧ Calendar.isoformat (Calendar.Date 9999 12 28) = "9999-12-28"
   ∧ Calendar.valid_date (Calendar.Date 9999 12 28) = true
   ∧ outcome = Raise OverflowError
   ∧ ¬ ((∃ ctx, outcome = Return (render_template "dashboard.html" (Dashboard ctx))
                ∧ "Food" ∈ categories ctx)
        ↔ monday_ordinal 9999 52
          ≤ Calendar.toordinal (Calendar.Date 9999 12 28)
          ≤ monday_ordinal 9999 52 + 6))
  ∧ (let db :=
       Database [Sample.ann]
         [ExpenseRow 1 1 Sample.amount_42_50 "Food" "2024-01-21 23:59"] in
     valid_week 2024 3 = true
     ∧ week_token 2024 3 = "2024-W03"
     ∧ String.prefix (Calendar.isoformat (Calendar.Date 2024 1 21))
         "2024-01-21 23:59" = true
     ∧ monday_ordinal 2024 3
       ≤ Calendar.toordinal (Calendar.Date 2024 1 21)
       ≤ monday_ordinal 2024 3 + 6
     ∧ serve (Sample.dashboard Sample.env (Sample.view_week "2024-W03"))
         db Sample.cookie
       = (Return
            (render_template "dashboard.html"
               (Dashboard (DashboardContext "2024-W03" (PyInt 0) None [] []))),
          db, Sample.cookie))
  ∧ (let db :=
       Database [Sample.ann]
         [ExpenseRow 1 1 (S754_infinity false) "Food" "2024-01-16";
          ExpenseRow 2 1 (S754_infinity true) "Food" "2024-01-17"] in
     select_totals 1 "2024-01-15" "2024-01-21" db = [("Food", None)]
     ∧ serve (Sample.dashboard Sample.env (Sample.view_week "2024-W03"))
         db Sample.cookie
       = (Raise TypeError, db, Sample.cookie)).
Proof.
  split; [|split].
  - intros db outcome.
    assert (Hout : outcome = Raise OverflowError) by reflexivity.
    repeat split; try reflexivity.
    rewrite Hout. intros [_ Hback].
    destruct Hback as (ctx & Hctx & _); [|discriminate Hctx].
    vm_compute. split; discriminate.
  - intros db. repeat split; try reflexivity; vm_compute; discriminate.
  - intros db. split; reflexivity.
Qed.

(** * Further properties of the code *)

Import Calendar Text TextFacts CalendarFacts App Invariants Grouping FloatOrder.

(** ** How each route runs *)

Section Runs.
Variable generate_password_hash : string → string → string.
Variable check_password_hash : string → string → bool.
Variable py_float : string → option float.

Lemma index_run db cookie :
  serve index db cookie
  = (Return (render_template "start_page.html" NoContext), db, cookie).
Proof. reflexivity. Qed.

Lemma logout_run db cookie :
  serve logout db cookie = (Return (redirect "login"), db, ∅).
Proof. reflexivity. Qed.

Lemma signup_run env req db cookie :
  serve (signup generate_password_hash env req) db cookie
  = if is_post (method req) then
      match form req !! "email", form req !! "password" with
      | Some email, Some plain =>
          match insert_user email
                  (generate_password_hash (salt env) plain) db with
          | Return db' => (Return (redirect "login"), db', cookie)
          | Raise _ =>
              (Return (render_template "signup.html"
                         (ErrorContext "Email already exists.")),
               db, cookie)
          end
      | _, _ => (Raise BadRequestKeyError, db, cookie)
      end
    else (Return (render_template "signup.html" NoContext), db, cookie).
Proof.
  unfold signup. destruct (is_post (method req)); [|done].
  run_handler.
  destruct (form req !! "email") as [email|]; [|done]. simpl.
  destruct (form req !! "password") as [plain|]; [|done]. simpl.
  unfold insert_user.
  by destruct (existsb _ (users db)).
Qed.

Lemma login_run req db cookie :
  serve (login check_password_hash req) db cookie
  = if is_post (method req) then
      match form req !! "email", form req !! "password" with
      | Some email, Some password =>
          match select_user email db with
          | Some u =>
              if check_password_hash (u_password u) password
              then (Return (redirect "dashboard"), db,
                    <["user_id" := u_id u]> cookie)
              else (Return (render_template "login.html"
                              (ErrorContext "Invalid credentials.")),
                    db, cookie)
          | None =>
              (Return (render_template "login.html"
                         (ErrorContext "Invalid credentials.")),
               db, cookie)
          end
      | _, _ => (Raise BadRequestKeyError, db, cookie)
      end
    else (Return (render_template "login.html" NoContext), db, cookie).
Proof.
  unfold login. destruct (is_post (method req)); [|done].
  run_handler.
  destruct (form req !! "email") as [email|]; [|done]. simpl.
  destruct (form req !! "password") as [password|]; [|done]. simpl.
  destruct (select_user email db) as [u|]; [|done]. simpl.
  by destruct (check_password_hash (u_password u) password).
Qed.

(** The dashboard, for any session. *)
Lemma dashboard_serve env req db cookie :
  serve (dashboard py_float env req) db cookie
  = match cookie !! "user_id" with
    | Some uid =>
        if uid =? 0 then (Return (redirect "login"), db, cookie)
        else match inserted py_float uid req db with
             | Return db' => (summary env req uid db', db', cookie)
             | Raise e => (Raise e, db, cookie)
             end
    | None => (Return (redirect "login"), db, cookie)
    end.
Proof.
  destruct (cookie !! "user_id") as [uid|] eqn:Hin.
  - destruct (Z.eqb_spec uid 0) as [->|Hnz].
    + unfold serve. by rewrite dashboard_anonymous by (simpl; by rewrite Hin).
    + by apply dashboard_run.
  - unfold serve. by rewrite dashboard_anonymous by (simpl; by rewrite Hin).
Qed.

End Runs.

(** ** What the statements keep *)

Section Keeping.

(** A new rowid is positive and above every rowid of the table. *)
Lemma next_rowid_above (ids : list Z) :
  0 < next_rowid ids ∧ ∀ i, i ∈ ids → i < next_rowid ids.
Proof.
  unfold next_rowid. induction ids as [|j ids [IH0 IH]]; simpl.
  - split; [lia|]. intros i Hi. by apply elem_of_nil in Hi.
  - split; [lia|]. intros i [->|Hi]%elem_of_cons; [lia|].
    specialize (IH i Hi). lia.
Qed.

Lemma next_rowid_fresh (ids : list Z) : next_rowid ids ∉ ids.
Proof.
  intros Hin. destruct (next_rowid_above ids) as [_ Habove].
  specialize (Habove _ Hin). lia.
Qed.

(** An accepted [INSERT] into [users]: the email was in no row, and the
    row goes to the end of the table. *)
Lemma insert_user_spec email password db db' :
  insert_user email password db = Return db' →
  (∀ u, u ∈ users db → u_email u ≠ email)
  ∧ db' = Database
            (users db ++ [UserRow (next_rowid (u_id <$> users db)) email password])
            (expenses db).
Proof.
  unfold insert_user.
  destruct (existsb _ (users db)) eqn:Hex; [done|]. intros [= <-].
  split; [|done]. intros u Hu Hmail.
  assert (existsb (λ u, String.eqb (u_email u) email) (users db) = true);
    [|congruence].
  apply existsb_exists. exists u. split; [by apply list_elem_of_In|].
  by apply String.eqb_eq.
Qed.

Lemma insert_user_rejected email password db e :
  insert_user email password db = Raise e →
  e = IntegrityError ∧ ∃ u, u ∈ users db ∧ u_email u = email.
Proof.
  unfold insert_user.
  destruct (existsb _ (users db)) eqn:Hex; [|done]. intros [= <-].
  split; [done|]. apply existsb_exists in Hex as (u & Hu & Heq).
  exists u. split; [by apply list_elem_of_In|]. by apply String.eqb_eq.
Qed.

Lemma insert_user_consistent email password db db' :
  insert_user email password db = Return db' →
  consistent db → consistent db'.
Proof.
  intros [Hfresh ->]%insert_user_spec [He Hi Hp Hx Ha Ho].
  destruct (next_rowid_above (u_id <$> users db)) as [Hpos Habove].
  constructor; simpl; try done.
  - rewrite fmap_app. apply NoDup_app. split; [done|]. split.
    + intros mail Hmail. simpl. rewrite list_elem_of_singleton. intros ->.
      apply list_elem_of_fmap in Hmail as (u & Hu & Hin). by apply (Hfresh u).
    + simpl. apply NoDup_singleton.
  - rewrite fmap_app. apply NoDup_app. split; [done|]. split.
    + intros i Hin. simpl. rewrite list_elem_of_singleton. intros ->.
      by apply (next_rowid_fresh (u_id <$> users db)).
    + simpl. apply NoDup_singleton.
  - intros u [Hu|Hu]%elem_of_app; [by apply Hp|].
    apply list_elem_of_singleton in Hu as ->. done.
  - intros e He'. destruct (Ho e He') as (u & Hu & Hid).
    exists u. split; [|done]. apply elem_of_app. by left.
Qed.

(** An accepted [INSERT] into [expenses]. *)
Lemma insert_expense_spec uid amount category date db db' :
  insert_expense uid amount category date db = Return db' →
  is_nan amount = false
  ∧ db' = Database (users db)
            (expenses db
             ++ [ExpenseRow (next_rowid (e_id <$> expenses db)) uid amount
                   category date]).
Proof.
  unfold insert_expense. destruct (is_nan amount); [done|]. by intros [= <-].
Qed.

Lemma insert_expense_rejected uid amount category date db e :
  insert_expense uid amount category date db = Raise e →
  e = IntegrityError ∧ is_nan amount = true.
Proof.
  unfold insert_expense. destruct (is_nan amount); [|done]. by intros [= <-].
Qed.

Lemma insert_expense_consistent uid amount category date db db' :
  insert_expense uid amount category date db = Return db' →
  (∃ u, u ∈ users db ∧ u_id u = uid) →
  consistent db → consistent db'.
Proof.
  intros [Hnan ->]%insert_expense_spec Howner [He Hi Hp Hx Ha Ho].
  constructor; simpl; try done.
  - rewrite fmap_app. apply NoDup_app. split; [done|]. split.
    + intros i Hin. simpl. rewrite list_elem_of_singleton. intros ->.
      by apply (next_rowid_fresh (e_id <$> expenses db)).
    + simpl. apply NoDup_singleton.
  - intros e [He'|He']%elem_of_app; [by apply Ha|].
    apply list_elem_of_singleton in He' as ->. done.
  - intros e [He'|He']%elem_of_app; [by apply Ho|].
    apply list_elem_of_singleton in He' as ->. done.
Qed.

Variable py_float : string → option float.

(** What the insertion step commits. *)
Lemma inserted_spec uid req db db' :
  inserted py_float uid req db = Return db' →
  (is_post (method req) = false ∧ db' = db)
  ∨ (is_post (method req) = true
     ∧ ∃ text amount category date,
         form req !! "amount" = Some text
         ∧ py_float text = Some amount
         ∧ form req !! "category" = Some category
         ∧ form req !! "date" = Some date
         ∧ insert_expense uid amount category date db = Return db').
Proof.
  unfold inserted. destruct (is_post (method req)).
  - intros Hins. right. split; [done|].
    destruct (form req !! "amount") as [text|] eqn:H1; simpl in Hins; [|done].
    destruct (py_float text) as [amount|] eqn:H2; simpl in Hins; [|done].
    destruct (form req !! "category") as [category|] eqn:H3; simpl in Hins;
      [|done].
    destruct (form req !! "date") as [date|] eqn:H4; simpl in Hins; [|done].
    by exists text, amount, category, date.
  - intros [= <-]. by left.
Qed.

End Keeping.

Section Steps.
Variable generate_password_hash : string → string → string.
Variable check_password_hash : string → string → bool.
Variable py_float : string → option float.


Lemma is_post_true m : is_post m = true → m = POST.
Proof. by destruct m. Qed.

(** A row that [SELECT ... WHERE email = ?] returns is a row of the
    table with that email. *)
Lemma select_user_found email db u :
  select_user email db = Some u → u ∈ users db ∧ u_email u = email.
Proof.
  unfold select_user. intros [Hin Heq]%find_some.
  split; [by apply list_elem_of_In | by apply String.eqb_eq].
Qed.

(** The users table after a request. *)
Lemma route_users c db cookie :
  users (serve (App.route generate_password_hash check_password_hash py_float c) db cookie).1.2 = users db
  ∨ ∃ env req email plain,
      c = ToSignup env req
      ∧ method req = POST
      ∧ form req !! "email" = Some email
      ∧ form req !! "password" = Some plain
      ∧ insert_user email (generate_password_hash (salt env) plain) db
        = Return (serve (App.route generate_password_hash check_password_hash py_float c) db cookie).1.2.
Proof.
  destruct c as [|env req|req| |env req]; simpl.
  - by left.
  - rewrite signup_run.
    destruct (is_post (method req)) eqn:Hpost; [|by left].
    destruct (form req !! "email") as [email|] eqn:Hmail; [|by left].
    destruct (form req !! "password") as [plain|] eqn:Hplain; [|by left].
    destruct (insert_user email _ db) as [db'|e] eqn:Hins; [|by left].
    right. exists env, req, email, plain.
    split; [done|]. split; [by apply is_post_true|]. done.
  - rewrite login_run. left.
    destruct (is_post (method req)); [|done].
    destruct (form req !! "email") as [email|]; [|done].
    destruct (form req !! "password") as [password|]; [|done].
    destruct (select_user email db) as [u|]; [|done].
    by destruct (check_password_hash _ _).
  - by left.
  - rewrite (dashboard_serve py_float). left.
    destruct (cookie !! "user_id") as [uid|]; [|done].
    destruct (uid =? 0); [done|].
    destruct (inserted py_float uid req db) as [db'|e] eqn:Hins; [|done].
    simpl. apply inserted_spec in Hins as [[_ ->]|(_ & t & a & c & d & _ & _ & _ & _ & Hins)]; [done|].
    by apply insert_expense_spec in Hins as [_ ->].
Qed.

(** The expenses table after a request. *)
Lemma route_expenses c db cookie :
  expenses (serve (App.route generate_password_hash check_password_hash py_float c) db cookie).1.2 = expenses db
  ∨ ∃ env req uid text amount category date,
      c = ToDashboard env req
      ∧ method req = POST
      ∧ cookie !! "user_id" = Some uid
      ∧ uid ≠ 0
      ∧ form req !! "amount" = Some text
      ∧ py_float text = Some amount
      ∧ form req !! "category" = Some category
      ∧ form req !! "date" = Some date
      ∧ insert_expense uid amount category date db
        = Return (serve (App.route generate_password_hash check_password_hash py_float c) db cookie).1.2.
Proof.
  destruct c as [|env req|req| |env req]; simpl.
  - by left.
  - rewrite signup_run. left.
    destruct (is_post (method req)); [|done].
    destruct (form req !! "email") as [email|]; [|done].
    destruct (form req !! "password") as [plain|]; [|done].
    destruct (insert_user email _ db) as [db'|e] eqn:Hins; [|done].
    by apply insert_user_spec in Hins as [_ ->].
  - rewrite login_run. left.
    destruct (is_post (method req)); [|done].
    destruct (form req !! "email") as [email|]; [|done].
    destruct (form req !! "password") as [password|]; [|done].
    destruct (select_user email db) as [u|]; [|done].
    by destruct (check_password_hash _ _).
  - by left.
  - rewrite (dashboard_serve py_float).
    destruct (cookie !! "user_id") as [uid|] eqn:Hin; [|by left].
    destruct (Z.eqb_spec uid 0) as [|Hnz]; [by left|].
    destruct (inserted py_float uid req db) as [db'|e] eqn:Hins; [|by left].
    simpl.
    apply inserted_spec in Hins
      as [[_ ->]|(Hpost & t & a & c & d & Ht & Ha & Hc & Hd & Hins)];
      [by left|].
    right. exists env, req, uid, t, a, c, d.
    split; [done|]. split; [by apply is_post_true|]. done.
Qed.

(** The session after a request: the one presented, an empty one, or
    one that names the account a login found. *)
Lemma route_session c db cookie :
  (serve (App.route generate_password_hash check_password_hash py_float c) db cookie).2 = cookie
  ∨ (serve (App.route generate_password_hash check_password_hash py_float c) db cookie).2 = ∅
  ∨ ∃ u, u ∈ users db
         ∧ (serve (App.route generate_password_hash check_password_hash py_float c) db cookie).2 = <["user_id" := u_id u]> cookie.
Proof.
  destruct c as [|env req|req| |env req]; simpl.
  - by left.
  - rewrite signup_run. left.
    destruct (is_post (method req)); [|done].
    destruct (form req !! "email") as [email|]; [|done].
    destruct (form req !! "password") as [plain|]; [|done].
    by destruct (insert_user email _ db).
  - rewrite login_run.
    destruct (is_post (method req)); [|by left].
    destruct (form req !! "email") as [email|]; [|by left].
    destruct (form req !! "password") as [password|]; [|by left].
    destruct (select_user email db) as [u|] eqn:Hu; [|by left].
    destruct (check_password_hash _ _); [|by left].
    right; right. exists u. split; [|done].
    by apply select_user_found in Hu as [Hu _].
  - right. by left.
  - rewrite (dashboard_serve py_float). left.
    destruct (cookie !! "user_id") as [uid|]; [|done].
    destruct (uid =? 0); [done|].
    by destruct (inserted py_float uid req db).
Qed.

Lemma session_owned_users db db' cookie :
  (∀ u, u ∈ users db → u ∈ users db') →
  session_owned db cookie → session_owned db' cookie.
Proof.
  intros Hsub Hown uid Huid. destruct (Hown uid Huid) as (u & Hu & Hid).
  exists u. split; [by apply Hsub | done].
Qed.

(** One request keeps the database consistent and every session owned. *)
Lemma route_consistent c db cookie :
  consistent db →
  session_owned db cookie →
  consistent (serve (App.route generate_password_hash check_password_hash py_float c) db cookie).1.2
  ∧ (∀ u, u ∈ users db → u ∈ users (serve (App.route generate_password_hash check_password_hash py_float c) db cookie).1.2)
  ∧ session_owned (serve (App.route generate_password_hash check_password_hash py_float c) db cookie).1.2 (serve (App.route generate_password_hash check_password_hash py_float c) db cookie).2.
Proof.
  intros Hdb Hown.
  assert (Hstep : consistent (serve (App.route generate_password_hash check_password_hash py_float c) db cookie).1.2
                  ∧ ∀ u, u ∈ users db → u ∈ users (serve (App.route generate_password_hash check_password_hash py_float c) db cookie).1.2).
  { destruct (route_users c db cookie)
      as [Hu|(env & req & email & plain & -> & _ & _ & _ & Hins)].
    - destruct (route_expenses c db cookie)
        as [He|(env & req & uid & t & a & ct & d & -> & _ & Hin & _ & _ & _ & _ & _ & Hins)].
      + split; [|by rewrite Hu].
        destruct (serve (App.route generate_password_hash check_password_hash py_float c) db cookie).1.2 as [us es].
        simpl in *. subst. by destruct db.
      + split; [|by rewrite Hu].
        eapply insert_expense_consistent; [exact Hins| |done].
        by apply Hown.
    - split; [by eapply insert_user_consistent|].
      apply insert_user_spec in Hins as [_ ->]. simpl.
      intros u Hu. apply elem_of_app. by left. }
  destruct Hstep as [Hdb' Hsub]. split; [done|]. split; [done|].
  destruct (route_session c db cookie) as [->|[->|(u & Hu & ->)]].
  - by eapply session_owned_users.
  - intros uid Huid. by rewrite lookup_empty in Huid.
  - intros uid Huid. rewrite lookup_insert_eq in Huid. inversion Huid; subst.
    exists u. split; [by apply Hsub | done].
Qed.

End Steps.

(** X1. Whatever requests a deployment that started on an empty
    database has served, its database is consistent (unique emails,
    unique positive ids, no NaN amount, every expense owned by an
    account), and every session cookie it issued names no account or an
    account of the database, with an id that passes the guard. *)
Theorem reachable_consistent
    (generate_password_hash : string → string → string)
    (check_password_hash : string → string → bool)
    (py_float : string → option float) db issued :
  App.reachable generate_password_hash check_password_hash py_float db issued →
  consistent db
  ∧ ∀ cookie,
      cookie ∈ issued →
      session_owned db cookie
      ∧ (is_Some (cookie !! "user_id") →
         logged_in (cookie !! "user_id") = true).
Proof.
  intros Hreach.
  assert (Hinv : consistent db ∧ ∀ cookie, cookie ∈ issued → session_owned db cookie).
  { induction Hreach as [|db issued cookie c o db' cookie' _ [Hdb Hown] Hin Hrun].
    - split.
      + constructor; simpl; try apply NoDup_nil_2;
          intros x Hx; by apply elem_of_nil in Hx.
      + intros cookie ->%list_elem_of_singleton uid Huid.
        by rewrite lookup_empty in Huid.
    - destruct (route_consistent generate_password_hash check_password_hash
                  py_float c db cookie Hdb (Hown cookie Hin))
        as (Hdb' & Hsub & Hown').
      rewrite Hrun in Hdb', Hsub, Hown'. simpl in Hdb', Hsub, Hown'.
      split; [done|].
      intros k [->|Hk]%elem_of_cons; [done|].
      eapply session_owned_users; [exact Hsub|]. by apply Hown. }
  destruct Hinv as [Hdb Hown]. split; [done|].
  intros cookie Hin. split; [by apply Hown|].
  intros [uid Huid]. rewrite Huid. simpl.
  destruct (Hown cookie Hin uid Huid) as (u & Hu & <-).
  pose proof (user_ids_positive db Hdb u Hu).
  destruct (Z.eqb_spec (u_id u) 0); [lia|done].
Qed.

(** X2. No route deletes or alters a stored row: after any request the
    two tables are the old ones with rows added at the end.  The users
    table changes only on a POST to [/signup], by one row with a fresh
    id, the email of the form and the hash generated from the password
    of the form; the expenses table changes only on a POST to
    [/dashboard], by one row with a fresh id, the user id of the
    session, the amount [float] reads from the form (never NaN), and
    the category and the date of the form.  No request changes both
    tables. *)
Theorem routes_only_append
    (generate_password_hash : string → string → string)
    (check_password_hash : string → string → bool)
    (py_float : string → option float) c db cookie :
  let db' :=
    (serve (App.route generate_password_hash check_password_hash py_float c)
       db cookie).1.2 in
  extended_by (users db) (users db')
  ∧ extended_by (expenses db) (expenses db')
  ∧ (users db' ≠ users db →
     expenses db' = expenses db
     ∧ ∃ env req email plain,
         c = ToSignup env req
         ∧ method req = POST
         ∧ form req !! "email" = Some email
         ∧ form req !! "password" = Some plain
         ∧ (∀ u, u ∈ users db → u_email u ≠ email)
         ∧ users db'
           = (users db
              ++ [UserRow (next_rowid (u_id <$> users db)) email
                    (generate_password_hash (salt env) plain)])%list)
  ∧ (expenses db' ≠ expenses db →
     users db' = users db
     ∧ ∃ env req uid text amount category date,
         c = ToDashboard env req
         ∧ method req = POST
         ∧ cookie !! "user_id" = Some uid
         ∧ uid ≠ 0
         ∧ form req !! "amount" = Some text
         ∧ py_float text = Some amount
         ∧ is_nan amount = false
         ∧ form req !! "category" = Some category
         ∧ form req !! "date" = Some date
         ∧ expenses db'
           = (expenses db
              ++ [ExpenseRow (next_rowid (e_id <$> expenses db)) uid amount
                    category date])%list).
Proof.
  intros db'. subst db'.
  pose proof (route_users generate_password_hash check_password_hash py_float
                c db cookie) as Husers.
  pose proof (route_expenses generate_password_hash check_password_hash py_float
                c db cookie) as Hexpenses.
  set (db' := (serve _ db cookie).1.2) in *.
  assert (Hu : users db' = users db
               ∨ expenses db' = expenses db
                 ∧ ∃ env req email plain,
                     c = ToSignup env req
                     ∧ method req = POST
                     ∧ form req !! "email" = Some email
                     ∧ form req !! "password" = Some plain
                     ∧ (∀ u, u ∈ users db → u_email u ≠ email)
                     ∧ users db'
                       = (users db
                          ++ [UserRow (next_rowid (u_id <$> users db)) email
                                (generate_password_hash (salt env) plain)])%list).
  { destruct Husers
      as [?|(env & req & email & plain & Hc & Hpost & Hmail & Hplain & Hins)];
      [by left|].
    right. apply insert_user_spec in Hins as [Hfresh Hdb']. rewrite Hdb'.
    split; [done|]. by exists env, req, email, plain. }
  assert (He : expenses db' = expenses db
               ∨ users db' = users db
                 ∧ ∃ env req uid text amount category date,
                     c = ToDashboard env req
                     ∧ method req = POST
                     ∧ cookie !! "user_id" = Some uid
                     ∧ uid ≠ 0
                     ∧ form req !! "amount" = Some text
                     ∧ py_float text = Some amount
                     ∧ is_nan amount = false
                     ∧ form req !! "category" = Some category
                     ∧ form req !! "date" = Some date
                     ∧ expenses db'
                       = (expenses db
                          ++ [ExpenseRow (next_rowid (e_id <$> expenses db))
                                uid amount category date])%list).
  { destruct Hexpenses
      as [?|(env & req & uid & t & a & ct & d & Hc & Hpost & Hin & Hnz & Ht
             & Ha & Hct & Hd & Hins)];
      [by left|].
    right. apply insert_expense_spec in Hins as [Hnan Hdb']. rewrite Hdb'.
    split; [done|]. by exists env, req, uid, t, a, ct, d. }
  split; [|split; [|split]].
  - destruct Hu as [->|(_ & env & req & email & pw & _ & _ & _ & _ & _ & ->)].
    + exists []. by rewrite app_nil_r.
    + by eexists.
  - destruct He
      as [->|(_ & env & req & uid & t & a & ct & d & _ & _ & _ & _ & _ & _ & _
              & _ & _ & ->)].
    + exists []. by rewrite app_nil_r.
    + by eexists.
  - intros Hne. by destruct Hu.
  - intros Hne. by destruct He.
Qed.

(** With unique emails, the lookup by email returns the row that has
    the email. *)
Lemma select_user_unique email db u :
  NoDup (u_email <$> users db) →
  u ∈ users db →
  u_email u = email →
  select_user email db = Some u.
Proof.
  unfold select_user. destruct db as [rows es]. simpl. clear es.
  induction rows as [|r rows IH]; intros Hnd Hin Hmail.
  - by apply elem_of_nil in Hin.
  - simpl in *. apply NoDup_cons in Hnd as [Hr Hnd].
    destruct (String.eqb_spec (u_email r) email) as [Heq|Hne].
    + apply elem_of_cons in Hin as [->|Hin]; [done|].
      exfalso. apply Hr. rewrite Heq, <- Hmail.
      apply list_elem_of_fmap. by exists u.
    + apply elem_of_cons in Hin as [->|Hin]; [done|]. by apply IH.
Qed.

(** X3. With unique emails, a login succeeds exactly when the account
    with the email of the form has a hash that verifies the password of
    the form: the session then names that account, and the answer is a
    redirect to the dashboard.  In every other case the answer is the
    login form with the message, and the session is the one presented.
    The database is never written. *)
Theorem login_succeeds_exactly
    (check_password_hash : string → string → bool)
    req db cookie email password :
  method req = POST →
  form req !! "email" = Some email →
  form req !! "password" = Some password →
  NoDup (u_email <$> users db) →
  (∀ u,
     u ∈ users db →
     u_email u = email →
     check_password_hash (u_password u) password = true →
     serve (login check_password_hash req) db cookie
     = (Return (redirect "dashboard"), db, <["user_id" := u_id u]> cookie))
  ∧ ((∀ u,
        u ∈ users db →
        u_email u = email →
        check_password_hash (u_password u) password = false) →
     serve (login check_password_hash req) db cookie
     = (Return (render_template "login.html"
                  (ErrorContext "Invalid credentials.")),
        db, cookie)).
Proof.
  intros Hpost Hmail Hpw Hnd.
  rewrite login_run, Hpost, Hmail, Hpw. simpl. split.
  - intros u Hu Hemail Hcheck.
    by rewrite (select_user_unique email db u Hnd Hu Hemail), Hcheck.
  - intros Hbad. destruct (select_user email db) as [u|] eqn:Hsel; [|done].
    apply select_user_found in Hsel as [Hu Hemail].
    by rewrite (Hbad u Hu Hemail).
Qed.

(** X4. A POST to [/dashboard] by a logged-in user that the insertion
    step refuses leaves the database as it was, and the exception leaves
    the route: a missing field is a [BadRequestKeyError], an amount that
    [float] does not read is a [ValueError], an amount that is NaN is an
    [IntegrityError].  The fields are looked at in the order amount,
    category, date. *)
Theorem dashboard_rejected_post
    (py_float : string → option float) env req db cookie uid :
  cookie !! "user_id" = Some uid →
  uid ≠ 0 →
  method req = POST →
  (form req !! "amount" = None →
   serve (dashboard py_float env req) db cookie
   = (Raise BadRequestKeyError, db, cookie))
  ∧ (∀ text,
       form req !! "amount" = Some text →
       py_float text = None →
       serve (dashboard py_float env req) db cookie
       = (Raise ValueError, db, cookie))
  ∧ (∀ text amount,
       form req !! "amount" = Some text →
       py_float text = Some amount →
       form req !! "category" = None ∨ form req !! "date" = None →
       serve (dashboard py_float env req) db cookie
       = (Raise BadRequestKeyError, db, cookie))
  ∧ (∀ text amount category date,
       form req !! "amount" = Some text →
       py_float text = Some amount →
       form req !! "category" = Some category →
       form req !! "date" = Some date →
       is_nan amount = true →
       serve (dashboard py_float env req) db cookie
       = (Raise IntegrityError, db, cookie)).
Proof.
  intros Hin Hnz Hpost.
  rewrite (dashboard_run py_float env req db cookie uid Hin Hnz).
  unfold inserted. rewrite Hpost. simpl is_post. cbv iota.
  split; [|split; [|split]].
  - intros Hnone. by rewrite Hnone.
  - intros text -> Hnone. simpl. by rewrite Hnone.
  - intros text amount -> Hsome Hmissing. simpl. rewrite Hsome. simpl.
    destruct (form req !! "category") as [category|]; [|done]. simpl.
    destruct Hmissing as [?| ->]; done.
  - intros text amount category date -> Hsome -> -> Hnan. simpl.
    rewrite Hsome. simpl. unfold insert_expense. by rewrite Hnan.
Qed.

(** X5. A request to [/dashboard] that is no POST writes nothing,
    whatever its session and its [week] parameter and whether it is
    answered or fails: the database and the session are those it found,
    so that asking again gives the same answer. *)
Theorem dashboard_read_only
    (py_float : string → option float) env req db cookie :
  is_post (method req) = false →
  (serve (dashboard py_float env req) db cookie).1.2 = db
  ∧ (serve (dashboard py_float env req) db cookie).2 = cookie
  ∧ serve (dashboard py_float env req)
      (serve (dashboard py_float env req) db cookie).1.2
      (serve (dashboard py_float env req) db cookie).2
    = serve (dashboard py_float env req) db cookie.
Proof.
  intros Hget.
  assert (Hrun : ∃ o, serve (dashboard py_float env req) db cookie
                      = (o, db, cookie)).
  { rewrite dashboard_serve. unfold inserted. rewrite Hget.
    destruct (cookie !! "user_id") as [uid|]; [|by eexists].
    destruct (uid =? 0); by eexists. }
  destruct Hrun as [o Hrun]. rewrite Hrun. simpl. by rewrite Hrun.
Qed.

(** X6. [/logout] empties the session whatever it held and leaves the
    database alone; it can be repeated; and the session it leaves is
    turned away by [/dashboard], POST included, with nothing written. *)
Theorem logout_ends_session
    (py_float : string → option float) env req db cookie :
  serve logout db cookie = (Return (redirect "login"), db, ∅)
  ∧ serve logout db (serve logout db cookie).2 = serve logout db cookie
  ∧ serve (dashboard py_float env req) db (serve logout db cookie).2
    = (Return (redirect "login"), db, ∅).
Proof.
  rewrite !logout_run. simpl. split; [done|]. split; [done|].
  by rewrite dashboard_serve, lookup_empty.
Qed.

(** X7. After a signup attempt with an email, accepted or not, every
    later signup with that email is refused: the form comes back with
    "Email already exists." and the database is not touched, so that an
    email is registered at most once and keeps its first hash. *)
Theorem signup_once_per_email
    (generate_password_hash : string → string → string)
    env1 req1 cookie1 env2 req2 cookie2 db email plain1 plain2 :
  method req1 = POST →
  form req1 !! "email" = Some email →
  form req1 !! "password" = Some plain1 →
  method req2 = POST →
  form req2 !! "email" = Some email →
  form req2 !! "password" = Some plain2 →
  serve (signup generate_password_hash env2 req2)
    (serve (signup generate_password_hash env1 req1) db cookie1).1.2 cookie2
  = (Return (render_template "signup.html"
               (ErrorContext "Email already exists.")),
     (serve (signup generate_password_hash env1 req1) db cookie1).1.2,
     cookie2).
Proof.
  intros Hp1 Hm1 Hw1 Hp2 Hm2 Hw2.
  set (db1 := (serve (signup generate_password_hash env1 req1) db cookie1).1.2).
  assert (Hthere : ∃ u, u ∈ users db1 ∧ u_email u = email).
  { subst db1. rewrite signup_run, Hp1, Hm1, Hw1. simpl.
    destruct (insert_user email _ db) as [db'|e] eqn:Hins; simpl.
    - apply insert_user_spec in Hins as [_ ->]. simpl.
      eexists. split; [apply elem_of_app; right; left|done].
    - by apply insert_user_rejected in Hins as [_ Hu]. }
  destruct Hthere as (u & Hu & Hmail).
  rewrite signup_run, Hp2, Hm2, Hw2. simpl.
  by rewrite (insert_user_duplicate email _ db1 u Hu Hmail).
Qed.

(** X8. The two account forms without a complete submission: a request
    that is no POST gets the empty form, a POST that lacks the email or
    the password fails with [BadRequestKeyError]; in both cases neither
    the database nor the session changes. *)
Theorem account_forms_without_effect
    (generate_password_hash : string → string → string)
    (check_password_hash : string → string → bool)
    env req db cookie :
  (is_post (method req) = false →
   serve (signup generate_password_hash env req) db cookie
   = (Return (render_template "signup.html" NoContext), db, cookie)
   ∧ serve (login check_password_hash req) db cookie
     = (Return (render_template "login.html" NoContext), db, cookie))
  ∧ (is_post (method req) = true →
     form req !! "email" = None ∨ form req !! "password" = None →
     serve (signup generate_password_hash env req) db cookie
     = (Raise BadRequestKeyError, db, cookie)
     ∧ serve (login check_password_hash req) db cookie
       = (Raise BadRequestKeyError, db, cookie)).
Proof.
  rewrite signup_run, login_run. split.
  - intros Hget. by rewrite Hget.
  - intros -> Hmissing.
    destruct (form req !! "email") as [email|]; [|done].
    by destruct Hmissing as [?| ->].
Qed.

(** X9. The rows of the aggregation come in strictly ascending byte
    order of their categories, so that no category is listed twice, and
    the two lists handed to the template have the same length. *)
Theorem aggregation_categories_ascending uid lo hi db :
  StronglySorted (λ a b, String.compare a b = Lt) (select_totals uid lo hi db).*1
  ∧ NoDup (select_totals uid lo hi db).*1
  ∧ length (select_totals uid lo hi db).*1
    = length (select_totals uid lo hi db).*2.
Proof.
  split; [apply select_totals_ascending|].
  split; [rewrite select_totals_keys; apply ascending_NoDup, group_sum_ascending|].
  by rewrite !length_fmap.
Qed.

(** X10. The aggregation lists a category exactly when the user has an
    expense of that category in the window, and the total it lists is
    the sum of the amounts of those expenses, added to [0.0] from left
    to right in rowid order; a sum that is NaN is listed as [NULL]. *)
Theorem aggregation_totals uid lo hi db c v :
  let selected := List.filter (in_window uid lo hi) (expenses db) in
  (c, v) ∈ select_totals uid lo hi db
  ↔ amounts_of c selected ≠ []
    ∧ v = result_double (foldl fadd zero (amounts_of c selected)).
Proof.
  intros selected. unfold select_totals. fold selected.
  rewrite list_elem_of_fmap.
  pose proof (ascending_NoDup _ (group_sum_ascending selected)) as Hnd.
  split.
  - intros ([c' t] & [= -> ->] & Hin).
    apply (total_of_elem _ _ _ Hnd) in Hin.
    rewrite total_of_group_sum in Hin. unfold add_all in Hin.
    destruct (amounts_of c' selected) as [|x xs]; [done|].
    inversion Hin. done.
  - intros [Hne ->].
    exists (c, foldl fadd zero (amounts_of c selected)). split; [done|].
    apply (total_of_elem _ _ _ Hnd). rewrite total_of_group_sum.
    unfold add_all. by destruct (amounts_of c selected).
Qed.

(** X11. The data preparation fails in one way only: when a category's
    total came back as [NULL] (its sum was NaN), [sum(amounts)] raises
    [TypeError].  Otherwise the dashboard is rendered; in particular
    [categories[amounts.index(max(amounts))]] raises neither
    [ValueError] nor [IndexError]. *)
Theorem prepare_fails_on_null_only uid lo hi db w :
  let rows := select_totals uid lo hi db in
  (None ∈ rows.*2 → prepare w rows = Raise TypeError)
  ∧ (None ∉ rows.*2 →
     ∃ total top,
       prepare w rows
       = Return (render_template "dashboard.html"
                   (Dashboard
                      (DashboardContext w (py_round2 total) top
                         rows.*1 rows.*2)))).
Proof.
  intros rows. split.
  - intros Hnull. unfold prepare, py_sum.
    by rewrite (py_sum_from_null _ _ Hnull).
  - intros Hnot.
    destruct (py_sum_from_total (PyInt 0) rows.*2 Hnot) as [total Hsum].
    pose proof (select_totals_sql_values uid lo hi db) as Hsql.
    fold rows in Hsql.
    destruct (prepare w rows) as [r|e] eqn:Hprep.
    + destruct (prepare_spec w rows r Hsql Hprep) as (t & top & -> & _).
      by exists t, top.
    + exfalso. unfold prepare, py_sum in Hprep. rewrite Hsum in Hprep.
      cbv beta iota delta [obind] in Hprep.
      pose proof (py_sum_from_numbers _ _ _ Hsql Hsum) as Hnum.
      destruct rows as [|row rows'] eqn:Hrows.
      * done.
      * destruct (pick_top_spec (row :: rows').*1 (row :: rows').*2)
          as (i & c & a & Htop & _); [by rewrite !length_fmap|done|done|].
        by rewrite Htop in Hprep.
Qed.

Section Weeks.

(** The ordinal of a date lies in its year. *)
Lemma toordinal_in_year d :
  valid_date d = true →
  1 ≤ year d ≤ 9999
  ∧ days_before_year (year d) < toordinal d ≤ days_before_year (year d + 1).
Proof.
  intros (Hy & Hm & Hd)%valid_date_spec.
  pose proof (day_of_year_bounds _ _ _ Hm Hd) as Hdoy.
  pose proof (days_before_year_succ (year d)) as Hsucc.
  unfold toordinal, ymd2ord. unfold MINYEAR, MAXYEAR in *. lia.
Qed.

(** [isocalendar] on every date: the week it names is a week of the ISO
    calendar, whose Monday is the Monday on or before the date. *)
Lemma isocalendar_spec d :
  valid_date d = true →
  ∃ y w,
    isocalendar d = (y, w, weekday d + 1)
    ∧ valid_week y w = true
    ∧ monday_ordinal y w = toordinal d - weekday d
    ∧ (y = year d ∨ (y = year d - 1 ∧ 52 ≤ w) ∨ (y = year d + 1 ∧ w = 1)).
Proof.
  intros Hd. destruct (toordinal_in_year d Hd) as [Hy Hn].
  unfold weekday. set (n := toordinal d) in *. set (y := year d) in *.
  destruct (isoweek1monday_spec y) as (f & Hf & Hfmod & Hw1m).
  destruct (isoweek1monday_spec (y + 1)) as (f' & Hf' & Hfmod' & Hw1m').
  destruct (isoweek1monday_spec (y - 1)) as (f'' & Hf'' & Hfmod'' & Hw1m'').
  pose proof (days_before_year_succ y) as Hsucc.
  pose proof (days_before_year_succ (y - 1)) as Hpred.
  replace (y - 1 + 1) with y in Hpred by lia.
  pose proof (long_year_spec y f Hfmod) as Hlong.
  pose proof (long_year_spec (y - 1) f'' Hfmod'') as Hlong''.
  assert (Hl : 0 ≤ leap_days y ≤ 1 ∧ 0 ≤ leap_days (y - 1) ≤ 1
               ∧ (leap_days y = 1 → is_leap y = true)
               ∧ (leap_days (y - 1) = 1 → is_leap (y - 1) = true)).
  { unfold leap_days. destruct (is_leap y), (is_leap (y - 1)); lia. }
  assert (HD1 : y = 1 → days_before_year y = 0) by (intros ->; done).
  assert (HD9 : y = 9999 → days_before_year (y + 1) = 3652059)
    by (intros ->; done).
  unfold isocalendar. fold y n. unfold monday_ordinal.
  set (D := days_before_year y) in *.
  set (D' := days_before_year (y + 1)) in *.
  set (D'' := days_before_year (y - 1)) in *.
  assert (Hrel' : f' = (f + 1 + leap_days y) mod 7) by div_lia.
  assert (Hrel'' : f = (f'' + 1 + leap_days (y - 1)) mod 7) by div_lia.
  set (A := isoweek1monday y) in *.
  set (A' := isoweek1monday (y + 1)) in *.
  set (A'' := isoweek1monday (y - 1)) in *.
  assert (HA : (A + 6) mod 7 = 0 ∧ D - 2 ≤ A ≤ D + 4
               ∧ (A ≤ D + 1 - f ∨ A = D + 8 - f)).
  { rewrite Hw1m. destruct (Z.gtb_spec f 3); div_lia. }
  assert (HA' : (A' + 6) mod 7 = 0 ∧ D' - 2 ≤ A' ≤ D' + 4).
  { rewrite Hw1m'. destruct (Z.gtb_spec f' 3); div_lia. }
  assert (HA'' : (A'' + 6) mod 7 = 0 ∧ D'' - 2 ≤ A'' ≤ D'' + 4).
  { rewrite Hw1m''. destruct (Z.gtb_spec f'' 3); div_lia. }
  destruct (Z.ltb_spec ((n - A) / 7) 0) as [Hneg|Hpos].
  - (* the last week of the year before *)
    assert (Hy2 : 2 ≤ y).
    { destruct (Z.eq_dec y 1) as [Hy1|]; [|lia]. specialize (HD1 Hy1).
      rewrite Hw1m in Hneg. destruct (Z.gtb_spec f 3); div_lia. }
    exists (y - 1), ((n - A'') / 7 + 1).
    split; [f_equal; div_lia|].
    split.
    + apply valid_week_spec. split; [lia|]. split; [div_lia|].
      rewrite Hlong''.
      assert (Hw : (n - A'') / 7 + 1 ≤ 52
                   ∨ ((n - A'') / 7 + 1 = 53
                      ∧ (f'' = 3 ∨ (f'' = 2 ∧ leap_days (y - 1) = 1)))).
      { rewrite Hw1m, Hw1m'' in *.
        destruct (Z.gtb_spec f 3), (Z.gtb_spec f'' 3); div_lia. }
      destruct Hw as [?|[? [->|[-> Hleap]]]]; [by left|by right|].
      right. split; [done|]. destruct Hl as (_ & _ & _ & Hl).
      by rewrite (Hl Hleap).
    + split; [div_lia|]. right. left. split; [done|].
      rewrite Hw1m, Hw1m'' in *.
      destruct (Z.gtb_spec f 3), (Z.gtb_spec f'' 3); div_lia.
  - destruct ((n - A) / 7 >=? 52) eqn:H52; simpl andb.
    + rewrite Z.geb_leb in H52. apply Z.leb_le in H52.
      destruct (n >=? A') eqn:Hnext.
      * (* the first week of the year after *)
        rewrite Z.geb_leb in Hnext. apply Z.leb_le in Hnext.
        assert (Hy9 : y ≤ 9998).
        { destruct (Z.eq_dec y 9999) as [Hy9|]; [|lia]. specialize (HD9 Hy9).
          fold D' in HD9. rewrite Hw1m' in Hnext.
          destruct (Z.gtb_spec f' 3); div_lia. }
        exists (y + 1), 1.
        split; [f_equal; div_lia|].
        split; [apply valid_week_spec; lia|].
        split; [div_lia|]. right. by right.
      * (* week 53 *)
        rewrite Z.geb_leb in Hnext. apply Z.leb_gt in Hnext.
        exists y, ((n - A) / 7 + 1).
        split; [f_equal; div_lia|].
        split.
        -- apply valid_week_spec. split; [lia|]. split; [lia|].
           right. rewrite Hlong.
           assert (Hw : (n - A) / 7 + 1 = 53
                        ∧ (f = 3 ∨ (f = 2 ∧ leap_days y = 1))).
           { rewrite Hw1m, Hw1m' in *.
             destruct (Z.gtb_spec f 3), (Z.gtb_spec f' 3); div_lia. }
           destruct Hw as [? [->|[-> Hleap]]]; [done|].
           split; [done|]. destruct Hl as (_ & _ & Hl & _).
           by rewrite (Hl Hleap).
        -- split; [div_lia|]. by left.
    + rewrite Z.geb_leb in H52. apply Z.leb_gt in H52.
      exists y, ((n - A) / 7 + 1).
      split; [f_equal; div_lia|].
      split; [apply valid_week_spec; lia|].
      split; [div_lia|]. by left.
Qed.

End Weeks.

Section Selection.
Variable py_float : string → option float.

(** The Monday on or before a date is a date. *)
Lemma monday_of_date d :
  valid_date d = true →
  1 ≤ toordinal d - weekday d
  ∧ toordinal d - weekday d ≤ toordinal d ≤ toordinal d - weekday d + 6
  ∧ toordinal d ≤ MAXORDINAL
  ∧ (toordinal d - weekday d + 6) mod 7 = 0.
Proof.
  intros Hd. destruct (toordinal_in_year d Hd) as [Hy Hn].
  pose proof (days_before_year_mono (year d + 1) 10000 ltac:(lia)) as Hmono.
  change (days_before_year 10000) with 3652059 in Hmono.
  assert (H0 : 0 ≤ days_before_year (year d)) by (unfold days_before_year; div_lia).
  unfold weekday, MAXORDINAL. div_lia.
Qed.

(** [add_days] inside the calendar. *)
Lemma add_days_inside dt n :
  1 ≤ toordinal (date_of dt) + n ≤ MAXORDINAL →
  add_days dt n
  = Return (DateTime (fromordinal (toordinal (date_of dt) + n)) (time_of dt)).
Proof.
  intros Hn. unfold add_days.
  replace ((0 <? toordinal (date_of dt) + n)
           && (toordinal (date_of dt) + n <=? MAXORDINAL)) with true; [done|].
  symmetry. apply andb_true_iff. rewrite Z.ltb_lt, Z.leb_le. lia.
Qed.

Lemma add_days_outside dt n :
  MAXORDINAL < toordinal (date_of dt) + n →
  add_days dt n = Raise OverflowError.
Proof.
  intros Hn. unfold add_days.
  replace (toordinal (date_of dt) + n <=? MAXORDINAL) with false;
    [by rewrite andb_false_r|].
  symmetry. apply Z.leb_gt. lia.
Qed.

(** Without a [week] parameter, or with an empty one, the window starts
    on the Monday on or before today, at today's time of day. *)
Lemma select_week_default env req :
  valid_date (date_of (today env)) = true →
  args req !! "week" = None ∨ args req !! "week" = Some "" →
  select_week env req
  = Return (DateTime
              (fromordinal (toordinal (date_of (today env))
                            - weekday (date_of (today env))))
              (time_of (today env)),
            strftime_Y_W_V (today env)).
Proof.
  intros Hd Hweek.
  destruct (monday_of_date _ Hd) as (H1 & H2 & H3 & _).
  assert (Hsel : select_week env req
                 = let? start_date :=
                     add_days (today env) (- weekday (date_of (today env))) in
                   Return (start_date, strftime_Y_W_V (today env))).
  { unfold select_week. by destruct Hweek as [-> | ->]. }
  rewrite Hsel, add_days_inside by lia. simpl. do 3 f_equal; lia.
Qed.

(** The summary without a [week] parameter. *)
Lemma summary_default env req uid db :
  valid_date (date_of (today env)) = true →
  args req !! "week" = None ∨ args req !! "week" = Some "" →
  summary env req uid db
  = let monday :=
      toordinal (date_of (today env)) - weekday (date_of (today env)) in
    if monday + 6 <=? MAXORDINAL
    then prepare (strftime_Y_W_V (today env))
           (select_totals uid (isoformat (fromordinal monday))
              (isoformat (fromordinal (monday + 6))) db)
    else Raise OverflowError.
Proof.
  intros Hd Hweek.
  destruct (monday_of_date _ Hd) as (H1 & H2 & H3 & _).
  unfold summary. rewrite (select_week_default env req Hd Hweek).
  cbv beta iota zeta delta [obind].
  set (monday := toordinal (date_of (today env)) - weekday (date_of (today env)))
    in *.
  assert (Hm : 1 ≤ monday ≤ MAXORDINAL) by lia.
  destruct (fromordinal_spec _ Hm) as [_ Hord].
  destruct (Z.leb_spec (monday + 6) MAXORDINAL).
  - rewrite add_days_inside by (simpl; rewrite Hord; lia).
    simpl. by rewrite Hord.
  - by rewrite add_days_outside by (simpl; rewrite Hord; lia).
Qed.

(** The expenses of a calendar date that a window between two days
    selects. *)
Lemma in_window_dates uid lo hi e d :
  1 ≤ lo ≤ MAXORDINAL →
  1 ≤ hi ≤ MAXORDINAL →
  valid_date d = true →
  e_date e = isoformat d →
  in_window uid (isoformat (fromordinal lo)) (isoformat (fromordinal hi)) e
  = true
  ↔ e_user_id e = uid ∧ lo ≤ toordinal d ≤ hi.
Proof.
  intros Hlo Hhi Hd Hdate.
  unfold in_window. rewrite andb_true_iff, Z.eqb_eq, Hdate.
  by rewrite (between_dates d lo hi Hd Hlo Hhi).
Qed.

(** [int] and the reading of the week fail with [ValueError] only. *)
Lemma py_int_raises s e : py_int s = Raise e → e = ValueError.
Proof.
  unfold py_int, of_option.
  destruct (_ ≫= _); [done|]. by intros [= <-].
Qed.

Lemma parse_week_raises s e : parse_week s = Raise e → e = ValueError.
Proof.
  unfold parse_week.
  destruct (Text.split "-W" s) as [|a [|b [|c l]]];
    try by intros [= <-].
  destruct (py_int a) as [y|e1] eqn:Ha; simpl.
  - destruct (py_int b) as [w|e2] eqn:Hb; simpl; [done|].
    intros [= <-]. by eapply py_int_raises.
  - intros [= <-]. by eapply py_int_raises.
Qed.

(** A token the route accepts names a week of the ISO calendar; one it
    refuses is refused with [ValueError]. *)
Lemma week_monday_outcomes s :
  match week_monday s with
  | Return start =>
      ∃ y w, parse_week s = Return (y, w)
             ∧ valid_week y w = true
             ∧ start = DateTime (fromordinal (monday_ordinal y w)) 0
  | Raise e => e = ValueError
  end.
Proof.
  unfold week_monday.
  destruct (parse_week s) as [[y w]|e] eqn:Hparse.
  - cbv beta iota delta [obind].
    unfold fromisocalendar, MINYEAR, MAXYEAR.
    change (fits_int 1) with true. rewrite andb_true_r.
    destruct (fits_int y && fits_int w) eqn:Hfits; simpl negb; cbv iota;
      [|done].
    destruct ((1 <=? y) && (y <=? 9999)) eqn:Hy; simpl negb; cbv iota;
      [|done].
    destruct (negb ((0 <? w) && (w <? 53)) && negb ((w =? 53) && long_year y))
      eqn:Hw; [done|].
    assert (Hvalid : valid_week y w = true).
    { apply valid_week_spec. apply andb_true_iff in Hy as [Hy1 Hy2].
      apply Z.leb_le in Hy1, Hy2. split; [lia|].
      apply andb_false_iff in Hw as [Hw|Hw]; apply negb_false_iff in Hw.
      - apply andb_true_iff in Hw as [Hw1 Hw2].
        apply Z.ltb_lt in Hw1, Hw2. lia.
      - apply andb_true_iff in Hw as [Hw1 Hw2].
        apply Z.eqb_eq in Hw1. subst w. split; [lia|]. by right. }
    pose proof (monday_bounds y w Hvalid) as (Hrange & _ & _).
    replace ((w - 1) * 7 + (1 - 1)) with ((w - 1) * 7) by lia.
    fold (monday_ordinal y w).
    destruct (fromordinal_spec _ Hrange) as [-> _].
    by exists y, w.
  - cbv beta iota delta [obind]. by eapply parse_week_raises.
Qed.

End Selection.

(** The first Monday of an ISO year is within four days of January 1st. *)
Lemma isoweek1monday_bounds y :
  days_before_year y - 2 ≤ isoweek1monday y ≤ days_before_year y + 4.
Proof.
  destruct (isoweek1monday_spec y) as (f & Hf & _ & ->).
  destruct (Z.gtb_spec f 3); lia.
Qed.

(** The Monday of the week a text names, once the two numbers are
    read. *)
Lemma week_monday_parsed s y w :
  parse_week s = Return (y, w) →
  valid_week y w = true →
  week_monday s = Return (DateTime (fromordinal (monday_ordinal y w)) 0).
Proof.
  intros Hparse Hvalid.
  pose proof (week_monday_token y w Hvalid) as Htoken.
  apply valid_week_spec in Hvalid as (Hy & Hw1 & Hw).
  unfold week_monday in *. rewrite Hparse.
  rewrite parse_week_token in Htoken by lia. exact Htoken.
Qed.

Lemma select_week_parsed env req c t y w :
  args req !! "week" = Some (String c t) →
  parse_week (String c t) = Return (y, w) →
  valid_week y w = true →
  select_week env req
  = Return (DateTime (fromordinal (monday_ordinal y w)) 0, String c t).
Proof.
  intros Hweek Hparse Hvalid. unfold select_week. rewrite Hweek.
  by rewrite (week_monday_parsed _ y w Hparse Hvalid).
Qed.

(** The route reads the default token back, padded or not. *)
Lemma parse_week_unpadded y w :
  0 ≤ y ≤ 9999 → 0 ≤ w ≤ 99 →
  parse_week (unpadded y +:+ "-W" +:+ two_digits w) = Return (y, w).
Proof.
  intros Hy Hw. destruct (Z.ltb_spec y 1000) as [Hlt|Hge].
  - assert (Hall : forallb
                     (λ y, forallb
                             (λ w, match parse_week
                                           (unpadded y +:+ "-W"
                                              +:+ two_digits w) with
                                   | Return (a, b) => (a =? y) && (b =? w)
                                   | Raise _ => false
                                   end)
                             (seqZ 0 100))
                     (seqZ 0 1000) = true) by (by vm_compute).
    pose proof (range_check _ 0 100
                  (range_check _ 0 1000 Hall y ltac:(lia)) w ltac:(lia))
      as Hread.
    cbv beta in Hread.
    destruct (parse_week _) as [[a b]|]; [|done].
    apply andb_true_iff in Hread as [Ha Hb].
    apply Z.eqb_eq in Ha, Hb. by subst.
  - assert (Hfour : unpadded y = four_digits y).
    { unfold unpadded.
      destruct (Z.ltb_spec y 10); [lia|].
      destruct (Z.ltb_spec y 100); [lia|].
      destruct (Z.ltb_spec y 1000); [lia|done]. }
    rewrite Hfour. by apply parse_week_token.
Qed.

Lemma unpadded_cons n : ∃ c t, unpadded n = String c t.
Proof.
  unfold unpadded, two_digits, four_digits.
  destruct (n <? 10); [by eexists _, _|].
  destruct (n <? 100); [by eexists _, _|].
  destruct (n <? 1000); by eexists _, _.
Qed.

Lemma strftime_week today :
  valid_date (date_of today) = true →
  ∃ c t,
    strftime_Y_W_V today = String c t
    ∧ parse_week (String c t)
      = Return (year (date_of today), (isocalendar (date_of today)).1.2).
Proof.
  intros Hd.
  destruct (isocalendar_spec _ Hd) as (y & w & Hiso & Hvalid & _).
  destruct (toordinal_in_year _ Hd) as [Hy _].
  apply valid_week_spec in Hvalid as (_ & Hw1 & Hw).
  unfold strftime_Y_W_V. rewrite Hiso.
  change ((y, w, weekday (date_of today) + 1).1.2) with w.
  destruct (unpadded_cons (year (date_of today))) as (c & t & Hc).
  exists c, (t +:+ "-W" +:+ two_digits w).
  rewrite <- append_cons, <- Hc. split; [done|].
  apply parse_week_unpadded; lia.
Qed.

(** X12. Without a [week] parameter, or with an empty one, the window
    of the dashboard is the week of today: it starts on the Monday on
    or before today and ends six days later, so that it holds today,
    and an expense whose date is a calendar date is selected exactly
    when it belongs to the user and lies in these seven days.  The
    request fails with [OverflowError], after the insertion step, from
    9999-12-27 on. *)
Theorem default_week_window
    (py_float : string → option float) env req db cookie uid :
  cookie !! "user_id" = Some uid →
  uid ≠ 0 →
  valid_date (date_of (today env)) = true →
  args req !! "week" = None ∨ args req !! "week" = Some "" →
  let d := date_of (today env) in
  let monday := toordinal d - weekday d in
  let lo := isoformat (fromordinal monday) in
  let hi := isoformat (fromordinal (monday + 6)) in
  weekday (fromordinal monday) = 0
  ∧ monday ≤ toordinal d ≤ monday + 6
  ∧ serve (dashboard py_float env req) db cookie
    = match inserted py_float uid req db with
      | Return db' =>
          (if toordinal d <? toordinal (Date 9999 12 27)
           then prepare (strftime_Y_W_V (today env))
                  (select_totals uid lo hi db')
           else Raise OverflowError,
           db', cookie)
      | Raise e => (Raise e, db, cookie)
      end
  ∧ (toordinal d < toordinal (Date 9999 12 27) →
     ∀ e d',
       valid_date d' = true →
       e_date e = isoformat d' →
       in_window uid lo hi e = true
       ↔ e_user_id e = uid ∧ monday ≤ toordinal d' ≤ monday + 6).
Proof.
  intros Hin Hnz Hd Hweek d monday lo hi.
  destruct (monday_of_date _ Hd) as (H1 & H2 & H3 & H4).
  fold d in H1, H2, H3, H4. fold monday in H1, H2, H4.
  change (toordinal (Date 9999 12 27)) with 3652055.
  unfold MAXORDINAL in *.
  assert (Hm : 1 ≤ monday ≤ MAXORDINAL) by (unfold MAXORDINAL; lia).
  split.
  { unfold weekday. destruct (fromordinal_spec _ Hm) as [_ ->]. done. }
  split; [done|]. split.
  - rewrite (dashboard_run py_float env req db cookie uid Hin Hnz).
    destruct (inserted py_float uid req db) as [db'|e]; [|done].
    rewrite (summary_default env req uid db' Hd Hweek).
    cbv zeta. fold d. fold monday. fold lo hi. unfold MAXORDINAL.
    destruct (Z.leb_spec (monday + 6) 3652059), (Z.ltb_spec (toordinal d) 3652055);
      try done; exfalso; div_lia.
  - intros Hbefore e d' Hd' Hdate.
    apply in_window_dates; try done.
    unfold MAXORDINAL. div_lia.
Qed.

(** X13. The week token the dashboard shows by default, sent back as
    the [week] parameter, gives the same answer as the request without
    a parameter when the ISO year of today is its calendar year.  When
    the two years differ (the first days of January in ISO week 52 or
    53, the last days of December in ISO week 1), a token the route
    accepts names another Monday than the one of today's week. *)
Theorem default_token_round_trip
    (py_float : string → option float) env req req' db cookie :
  valid_date (date_of (today env)) = true →
  is_post (method req) = false →
  is_post (method req') = false →
  args req !! "week" = None →
  args req' !! "week" = Some (strftime_Y_W_V (today env)) →
  let d := date_of (today env) in
  ((isocalendar d).1.1 = year d →
   serve (dashboard py_float env req') db cookie
   = serve (dashboard py_float env req) db cookie)
  ∧ ((isocalendar d).1.1 ≠ year d →
     ∀ start,
       week_monday (strftime_Y_W_V (today env)) = Return start →
       toordinal (date_of start) ≠ toordinal d - weekday d).
Proof.
  intros Hd Hget Hget' Hnone Htoken d.
  destruct (isocalendar_spec _ Hd) as (y & w & Hiso & Hvalid & Hmonday & Hyear).
  fold d in Hiso, Hmonday, Hyear.
  destruct (strftime_week _ Hd) as (c & t & Hfmt & Hparse).
  fold d in Hparse. rewrite Hiso in Hparse.
  change ((y, w, weekday d + 1).1.2) with w in Hparse.
  rewrite Hiso. simpl. split.
  - intros ->. subst d. rewrite !dashboard_serve.
    destruct (cookie !! "user_id") as [uid|]; [|done].
    destruct (uid =? 0); [done|].
    unfold inserted. rewrite Hget, Hget'.
    do 2 f_equal. unfold summary.
    rewrite (select_week_default env req Hd (or_introl Hnone)).
    rewrite Hfmt in Htoken |- *.
    rewrite (select_week_parsed env req' c t _ w Htoken Hparse Hvalid).
    rewrite Hmonday. cbv beta iota delta [obind].
    unfold add_days. simpl date_of.
    match goal with
    | |- context [if ?c then _ else _] => destruct c
    end; cbv beta iota; [|reflexivity].
    simpl date_of. reflexivity.
  - intros Hne start. rewrite Hfmt. intros Hstart.
    pose proof (week_monday_outcomes (String c t)) as Hout.
    rewrite Hstart in Hout. destruct Hout as (y' & w' & Hparse' & Hvalid' & ->).
    rewrite Hparse in Hparse'. injection Hparse' as <- <-.
    pose proof (monday_bounds _ _ Hvalid') as (Hrange & _ & _).
    simpl date_of. destruct (fromordinal_spec _ Hrange) as [_ ->].
    rewrite <- Hmonday. unfold monday_ordinal.
    pose proof (isoweek1monday_bounds (year d)) as Hb.
    pose proof (isoweek1monday_bounds y) as Hb'.
    destruct Hyear as [?|[[-> _]|[-> _]]]; [done| |].
    + pose proof (days_before_year_succ (year d - 1)) as Hs.
      replace (year d - 1 + 1) with (year d) in Hs by lia.
      unfold leap_days in Hs. destruct (is_leap _); lia.
    + pose proof (days_before_year_succ (year d)) as Hs.
      unfold leap_days in Hs. destruct (is_leap _); lia.
Qed.

(** X14. An expense posted with a calendar date and the token of the
    ISO week of that date is counted by the same request: the row is
    committed, the window is the week that holds the date, and the
    aggregation lists the category of the new expense with a total that
    is the sum of the amounts the user already had in that category and
    window, plus the new amount.  The answer shows these rows, unless a
    total of the window is NaN: then it is a [TypeError], with the row
    committed all the same. *)
Theorem expense_listed_in_its_week
    (py_float : string → option float) env req db cookie uid
    text amount category d y w wd :
  cookie !! "user_id" = Some uid →
  uid ≠ 0 →
  method req = POST →
  form req !! "amount" = Some text →
  py_float text = Some amount →
  is_nan amount = false →
  form req !! "category" = Some category →
  form req !! "date" = Some (isoformat d) →
  valid_date d = true →
  toordinal d < toordinal (Date 9999 12 27) →
  isocalendar d = (y, w, wd) →
  args req !! "week" = Some (week_token y w) →
  let monday := toordinal d - weekday d in
  let lo := isoformat (fromordinal monday) in
  let hi := isoformat (fromordinal (monday + 6)) in
  let db' :=
    Database (users db)
      (expenses db
       ++ [ExpenseRow (next_rowid (e_id <$> expenses db)) uid amount category
             (isoformat d)])%list in
  let rows := select_totals uid lo hi db' in
  let before :=
    amounts_of category (List.filter (in_window uid lo hi) (expenses db)) in
  serve (dashboard py_float env req) db cookie
  = (prepare (week_token y w) rows, db', cookie)
  ∧ category ∈ rows.*1
  ∧ (category, result_double (fadd (foldl fadd zero before) amount)) ∈ rows
  ∧ (None ∈ rows.*2 →
     serve (dashboard py_float env req) db cookie
     = (Raise TypeError, db', cookie))
  ∧ (None ∉ rows.*2 →
     ∃ total top,
       serve (dashboard py_float env req) db cookie
       = (Return
            (render_template "dashboard.html"
               (Dashboard
                  (DashboardContext (week_token y w) total top
                     rows.*1 rows.*2))),
          db', cookie)).
Proof.
  intros Hin Hnz Hpost Hamount Hfloat Hnan Hcat Hdate Hd Hbefore Hiso Hweek
    monday lo hi db' rows before.
  change (toordinal (Date 9999 12 27)) with 3652055 in Hbefore.
  destruct (isocalendar_spec _ Hd) as (y0 & w0 & Hiso0 & Hvalid & Hmonday & _).
  rewrite Hiso in Hiso0. injection Hiso0 as <- <- ->.
  destruct (monday_of_date _ Hd) as (H1 & H2 & H3 & H4).
  fold monday in Hmonday, H1, H2, H4. unfold MAXORDINAL in *.
  assert (Hsunday : monday + 6 ≤ 3652059) by div_lia.
  assert (Hrun : serve (dashboard py_float env req) db cookie
                 = (prepare (week_token y w) rows, db', cookie)).
  { rewrite (dashboard_run py_float env req db cookie uid Hin Hnz).
    unfold inserted. rewrite Hpost, Hamount. simpl. rewrite Hfloat, Hcat. simpl.
    rewrite Hdate. simpl. unfold insert_expense. rewrite Hnan. fold db'.
    rewrite (summary_token env req uid db' y w Hvalid); try done.
    + by rewrite Hmonday.
    + by rewrite Hmonday. }
  assert (Hnew : in_window uid lo hi
                   (ExpenseRow (next_rowid (e_id <$> expenses db)) uid amount
                      category (isoformat d)) = true).
  { apply (in_window_dates uid monday (monday + 6) _ d); try done;
      unfold MAXORDINAL; simpl; lia. }
  split; [done|]. split; [|split; [|split]].
  - apply select_totals_categories.
    eexists. split; [apply elem_of_app; right; apply list_elem_of_singleton; done|].
    by split.
  - apply select_totals_elem.
    assert (Hafter : amounts_of category
                       (List.filter (in_window uid lo hi) (expenses db'))
                     = (before ++ [amount])%list).
    { unfold db', amounts_of. simpl expenses.
      rewrite List.filter_app. cbn [List.filter].
      rewrite Hnew, List.filter_app. cbn [List.filter e_category].
      rewrite String.eqb_refl. by rewrite fmap_app. }
    rewrite Hafter. split; [by destruct before|].
    by rewrite foldl_app.
  - intros Hnull. rewrite Hrun. unfold prepare, py_sum.
    by rewrite (py_sum_from_null _ _ Hnull).
  - intros Hnot. rewrite Hrun.
    destruct (prepare_renders (week_token y w) rows Hnot
                (select_totals_sql_values uid lo hi db'))
      as (total & top & ->).
    by exists total, top.
Qed.

(** X15. Whatever text the [week] parameter holds, a logged-in request
    whose insertion step went through ends in one of three ways: a
    [ValueError], when the text does not read as two numbers that name
    a week of the ISO calendar; an [OverflowError], when they name week
    52 of year 9999; or the data preparation on the rows selected
    between the Monday of the week they name and the day six days
    later.  The parameter is handed to the template as it came. *)
Theorem week_parameter_outcomes
    (py_float : string → option float) env req db db' cookie uid s :
  cookie !! "user_id" = Some uid →
  uid ≠ 0 →
  args req !! "week" = Some s →
  s ≠ "" →
  inserted py_float uid req db = Return db' →
  ∃ o,
    serve (dashboard py_float env req) db cookie = (o, db', cookie)
    ∧ ((o = Raise ValueError
        ∧ ∀ y w, parse_week s = Return (y, w) → valid_week y w = false)
       ∨ (o = Raise OverflowError ∧ parse_week s = Return (9999, 52))
       ∨ ∃ y w,
           parse_week s = Return (y, w)
           ∧ valid_week y w = true
           ∧ (y, w) ≠ (9999, 52)
           ∧ o = prepare s
                   (select_totals uid
                      (isoformat (fromordinal (monday_ordinal y w)))
                      (isoformat (fromordinal (monday_ordinal y w + 6)))
                      db')).
Proof.
  intros Hin Hnz Hweek Hne Hins.
  rewrite (dashboard_run py_float env req db cookie uid Hin Hnz), Hins.
  eexists. split; [done|].
  unfold summary, select_week. rewrite Hweek.
  destruct s as [|c s]; [done|].
  pose proof (week_monday_outcomes (String c s)) as Hout.
  destruct (week_monday (String c s)) as [start|e] eqn:Hstart.
  - destruct Hout as (y & w & Hparse & Hvalid & ->).
    cbv beta iota delta [obind].
    pose proof (monday_bounds y w Hvalid) as (Hrange & _ & Hsunday).
    destruct (fromordinal_spec _ Hrange) as [_ Hord].
    destruct (decide ((y, w) = (9999, 52))) as [[= -> ->]|Hlast].
    + right. left. split; [reflexivity|done].
    + right. right. exists y, w. split; [done|]. split; [done|].
      split; [done|]. specialize (Hsunday Hlast).
      rewrite add_days_inside by (simpl; rewrite Hord; lia).
      simpl. by rewrite Hord.
  - cbv beta iota delta [obind]. subst e. left. split; [done|].
    intros y w Hparse.
    destruct (valid_week y w) eqn:Hvalid; [|done].
    by rewrite (week_monday_parsed _ y w Hparse Hvalid) in Hstart.
Qed.

(** X16. [init_db] leaves both tables in place, keeps the rows of a
    table that exists, and changes nothing when it runs again: starting
    the application on the file of an earlier run loses no account and
    no expense, and on a new file the routes start from two empty
    tables. *)
Theorem init_db_keeps_rows (file : Schema.db_file) :
  is_Some (Schema.tables (Schema.init_db file))
  ∧ (∀ rows,
       Schema.users_table file = Some rows →
       Schema.users_table (Schema.init_db file) = Some rows)
  ∧ (∀ rows,
       Schema.expenses_table file = Some rows →
       Schema.expenses_table (Schema.init_db file) = Some rows)
  ∧ (∀ db,
       Schema.tables file = Some db →
       Schema.tables (Schema.init_db file) = Some db)
  ∧ Schema.init_db (Schema.init_db file) = Schema.init_db file
  ∧ (Schema.users_table file = None →
     Schema.expenses_table file = None →
     Schema.tables (Schema.init_db file) = Some (Database [] [])).
Proof.
  destruct file as [[users|] [expenses|]]; simpl;
    repeat split; try done; try by eexists.
  all: by intros ? [= <-].
Qed.

(** X17. [/dashboard] answers with the redirect to the login page
    exactly when [login_required] would: a logged-in user is never sent
    to the login page, whatever the request holds. *)
Theorem dashboard_guard_is_login_required
    (py_float : string → option float) env req db cookie :
  (serve (dashboard py_float env req) db cookie).1.1
  = Return (redirect "login")
  ↔ (login_required (Store db db cookie)).1
    = Return (Some (redirect "login")).
Proof.
  rewrite dashboard_serve. unfold login_required. run_handler.
  destruct (cookie !! "user_id") as [uid|]; simpl; [|done].
  destruct (Z.eqb_spec uid 0) as [->|Hnz]; simpl; [done|].
  split; [|done]. intros Hredirect. exfalso.
  destruct (inserted py_float uid req db) as [db'|e]; [|done].
  simpl in Hredirect. unfold summary in Hredirect.
  destruct (select_week env req) as [[start w]|e]; [|done].
  cbv beta iota delta [obind] in Hredirect.
  destruct (add_days start 6) as [end_date|e]; [|done].
  unfold prepare in Hredirect.
  destruct (py_sum _); [|done]. cbv beta iota delta [obind] in Hredirect.
  destruct (pick_top _ _); done.
Qed.

Section Ties.

Lemma feq_trans (x y z : float) :
  feq x y = true → feq y z = true → feq x z = true.
Proof. float_order. Qed.

(** [index] returns the first position of a value equal to the one
    looked for. *)
Lemma py_index_first (items : list value) (v : value) (i : nat) :
  py_index items v = Return i →
  ∀ j u, items !! j = Some u → py_eq u v = true → (i ≤ j)%nat.
Proof.
  revert i. induction items as [|item items IH]; intros i Hidx j u Hj Hu;
    [done|].
  simpl in Hidx. destruct (py_eq item v) eqn:Heq.
  - injection Hidx as <-. lia.
  - destruct (py_index items v) as [i'|] eqn:Hrest; [|done].
    injection Hidx as <-.
    destruct j as [|j]; simpl in Hj.
    + injection Hj as ->. congruence.
    + specialize (IH i' eq_refl j u Hj Hu). lia.
Qed.

(** In a list in strictly ascending order, positions are ordered as
    their elements. *)
Lemma sorted_lookup (keys : list string) (i j : nat) (a b : string) :
  StronglySorted (λ a b, String.compare a b = Lt) keys →
  keys !! i = Some a → keys !! j = Some b → (i < j)%nat →
  String.compare a b = Lt.
Proof.
  intros Hs. revert i j. induction Hs as [|k keys Hs IH Hk]; intros i j Hi Hj Hlt;
    [done|].
  destruct j as [|j]; [lia|]. simpl in Hj.
  destruct i as [|i]; simpl in Hi.
  - injection Hi as ->.
    apply (proj1 (Forall_forall _ _) Hk). by eapply list_elem_of_lookup_2.
  - apply (IH i j); [done|done|lia].
Qed.

(** The top category is at the first position of a largest total. *)
Lemma pick_top_first (categories : list string) (amounts : list value) :
  length categories = length amounts →
  amounts ≠ [] →
  Forall number amounts →
  ∃ i c a,
    pick_top categories amounts = Return (Some c)
    ∧ categories !! i = Some c
    ∧ amounts !! i = Some (Some a)
    ∧ ∀ j x, amounts !! j = Some (Some x) →
             fle x a = true ∧ (feq x a = true → (i ≤ j)%nat).
Proof.
  intros Hlen Hne Hnum. destruct amounts as [|v0 rest]; [done|].
  inversion Hnum as [|? ? [b [-> Hb]] Hrest]; subst.
  destruct (py_max_from_spec b _ Hb Hrest) as (m & Hmax & Hm & Hin & Hbound).
  destruct (py_index_spec (Some b :: rest) m Hm Hin)
    as (i & v & Hidx & Hlook & Heq).
  destruct v as [a|]; [|done]. simpl in Heq.
  destruct (lookup_lt_is_Some_2 categories i) as [c Hc].
  { rewrite Hlen. by eapply lookup_lt_Some. }
  exists i, c, a.
  split.
  { unfold pick_top, py_max. cbv beta iota. rewrite Hmax.
    cbv beta iota delta [obind]. rewrite Hidx.
    unfold py_getitem. by rewrite Hc. }
  split; [done|]. split; [done|].
  intros j x Hj. split.
  - apply (fle_feq a m); [done|]. apply Hbound.
    apply list_elem_of_lookup. by exists j.
  - intros Hxa. apply (py_index_first _ _ _ Hidx j (Some x) Hj).
    simpl. by apply (feq_trans x a m).
Qed.

End Ties.

(** X18. When several categories share the largest total of the
    window, the top category the dashboard shows is the first of them
    in the byte order of the categories: [max] keeps the first largest
    total, [index] finds its first position, and the rows come in
    ascending order of the category.  Totals are compared as floats, so
    that [0.0] and [-0.0] count as equal. *)
Theorem top_category_first_of_largest uid lo hi db w ctx :
  prepare w (select_totals uid lo hi db)
  = Return (render_template "dashboard.html" (Dashboard ctx)) →
  select_totals uid lo hi db ≠ [] →
  ∃ c a,
    top_category ctx = Some c
    ∧ (c, Some a) ∈ select_totals uid lo hi db
    ∧ ∀ c' a',
        (c', Some a') ∈ select_totals uid lo hi db →
        fle a' a = true
        ∧ (feq a' a = true → c' ≠ c → String.compare c c' = Lt).
Proof.
  intros Hprep Hne.
  pose proof (select_totals_ascending uid lo hi db) as Hsorted.
  pose proof (select_totals_sql_values uid lo hi db) as Hsql.
  set (rows := select_totals uid lo hi db) in *.
  unfold prepare in Hprep.
  destruct (py_sum rows.*2) as [total|e] eqn:Hsum; [|done].
  cbv beta iota delta [obind] in Hprep.
  pose proof (py_sum_from_numbers _ _ _ Hsql Hsum) as Hnum.
  destruct (pick_top_first rows.*1 rows.*2)
    as (i & c & a & Htop & Hc & Ha & Hbound);
    [by rewrite !length_fmap|by destruct rows|done|].
  rewrite Htop in Hprep. injection Hprep as <-. simpl.
  exists c, a. split; [done|].
  rewrite list_lookup_fmap in Hc. rewrite list_lookup_fmap in Ha.
  destruct (rows !! i) as [[c0 a0]|] eqn:Hi; [|done].
  simpl in Hc, Ha. injection Hc as ->. injection Ha as ->.
  split; [by eapply list_elem_of_lookup_2|].
  intros c' a' Hin. apply list_elem_of_lookup in Hin as [j Hj].
  assert (Hj2 : rows.*2 !! j = Some (Some a'))
    by (by rewrite list_lookup_fmap, Hj).
  destruct (Hbound j a' Hj2) as [Hle Hfirst].
  split; [done|]. intros Heq Hdiff. specialize (Hfirst Heq).
  destruct (decide (i = j)) as [->|Hij]; [congruence|].
  apply (sorted_lookup rows.*1 i j); [done| | |lia].
  - by rewrite list_lookup_fmap, Hi.
  - by rewrite list_lookup_fmap, Hj.
Qed.

(** * The further properties on sample requests *)

(** Three requests from the empty database lead to the sample data: a
    signup, a login, and an expense posted to the dashboard. *)
Lemma reachable_consistent_witness :
  let issued := [Sample.cookie; Sample.cookie; ∅; ∅] in
  App.reachable Sample.generate_password_hash Sample.check_password_hash
    Sample.py_float Sample.db issued
  ∧ consistent Sample.db
  ∧ ∀ cookie,
      cookie ∈ issued →
      session_owned Sample.db cookie
      ∧ (is_Some (cookie !! "user_id") →
         logged_in (cookie !! "user_id") = true).
Proof.
  intros issued.
  assert (H : App.reachable Sample.generate_password_hash
                Sample.check_password_hash Sample.py_float Sample.db issued).
  { apply (reachable_request _ _ _ (Database [Sample.ann] [])
             [Sample.cookie; ∅; ∅] Sample.cookie
             (ToDashboard Sample.env
                (Sample.post_expense "42.50" "Food" "2024-01-17" ∅))
             (Return
                (render_template "dashboard.html"
                   (Dashboard
                      (DashboardContext "2024-W03"
                         (PyFloat Sample.amount_42_50) (Some "Food")
                         ["Food"] [Some Sample.amount_42_50]))))).
    - apply (reachable_request _ _ _ (Database [Sample.ann] []) [∅; ∅] ∅
               (ToLogin (Sample.credentials "ann@example.org" "secret"))
               (Return (redirect "dashboard"))).
      + apply (reachable_request _ _ _ (Database [] []) [∅] ∅
                 (ToSignup Sample.env
                    (Sample.credentials "ann@example.org" "secret"))
                 (Return (redirect "login"))).
        * apply reachable_start.
        * left.
        * reflexivity.
      + left.
      + reflexivity.
    - left.
    - reflexivity. }
  split; [exact H|].
  exact (reachable_consistent Sample.generate_password_hash
           Sample.check_password_hash Sample.py_float Sample.db issued H).
Defined.

Lemma login_succeeds_exactly_witness :
  (method (Sample.credentials "ann@example.org" "secret") = POST
   ∧ NoDup (u_email <$> users Sample.db)
   ∧ Sample.ann ∈ users Sample.db
   ∧ Sample.check_password_hash (u_password Sample.ann) "secret" = true)
  ∧ serve (Sample.login (Sample.credentials "ann@example.org" "secret"))
      Sample.db ∅
    = (Return (redirect "dashboard"), Sample.db, <["user_id" := 1]> ∅).
Proof.
  assert (H1 : method (Sample.credentials "ann@example.org" "secret") = POST)
    by reflexivity.
  assert (H2 : form (Sample.credentials "ann@example.org" "secret") !! "email"
               = Some "ann@example.org") by reflexivity.
  assert (H3 : form (Sample.credentials "ann@example.org" "secret") !! "password"
               = Some "secret") by reflexivity.
  assert (H4 : NoDup (u_email <$> users Sample.db))
    by (apply NoDup_singleton).
  assert (H5 : Sample.ann ∈ users Sample.db) by (simpl; left).
  assert (H6 : Sample.check_password_hash (u_password Sample.ann) "secret"
               = true) by reflexivity.
  split; [by repeat split|].
  exact (proj1 (login_succeeds_exactly Sample.check_password_hash
                  _ Sample.db ∅ _ _ H1 H2 H3 H4)
           Sample.ann H5 eq_refl H6).
Defined.

Lemma dashboard_rejected_post_witness :
  let req := Sample.post_expense "a lot" "Food" "2024-01-17" ∅ in
  (Sample.cookie !! "user_id" = Some 1
   ∧ method req = POST
   ∧ form req !! "amount" = Some "a lot"
   ∧ Sample.py_float "a lot" = None)
  ∧ serve (Sample.dashboard Sample.env req) Sample.db Sample.cookie
    = (Raise ValueError, Sample.db, Sample.cookie).
Proof.
  intros req.
  assert (H1 : Sample.cookie !! "user_id" = Some 1) by reflexivity.
  assert (H2 : 1 ≠ 0) by lia.
  assert (H3 : method req = POST) by reflexivity.
  assert (H4 : form req !! "amount" = Some "a lot") by reflexivity.
  assert (H5 : Sample.py_float "a lot" = None) by reflexivity.
  split; [by repeat split|].
  exact (proj1 (proj2 (dashboard_rejected_post Sample.py_float Sample.env req
                         Sample.db Sample.cookie 1 H1 H2 H3))
           "a lot" H4 H5).
Defined.

Lemma dashboard_read_only_witness :
  is_post (method (Sample.view_week "2024-W03")) = false
  ∧ (serve (Sample.dashboard Sample.env (Sample.view_week "2024-W03"))
       Sample.db Sample.cookie).1.2
    = Sample.db.
Proof.
  assert (H : is_post (method (Sample.view_week "2024-W03")) = false)
    by reflexivity.
  split; [exact H|].
  exact (proj1 (dashboard_read_only Sample.py_float Sample.env
                  (Sample.view_week "2024-W03") Sample.db Sample.cookie H)).
Defined.

Lemma signup_once_per_email_witness :
  let first := Sample.credentials "bob@example.org" "hunter2" in
  let second := Sample.credentials "bob@example.org" "other" in
  (method first = POST
   ∧ form first !! "email" = Some "bob@example.org"
   ∧ method second = POST
   ∧ form second !! "email" = Some "bob@example.org")
  ∧ serve (Sample.signup Sample.env second)
      (serve (Sample.signup Sample.env first) Sample.db ∅).1.2 ∅
    = (Return (render_template "signup.html"
                 (ErrorContext "Email already exists.")),
       (serve (Sample.signup Sample.env first) Sample.db ∅).1.2, ∅).
Proof.
  intros first second.
  assert (H1 : method first = POST) by reflexivity.
  assert (H2 : form first !! "email" = Some "bob@example.org") by reflexivity.
  assert (H3 : form first !! "password" = Some "hunter2") by reflexivity.
  assert (H4 : method second = POST) by reflexivity.
  assert (H5 : form second !! "email" = Some "bob@example.org") by reflexivity.
  assert (H6 : form second !! "password" = Some "other") by reflexivity.
  split; [by repeat split|].
  exact (signup_once_per_email Sample.generate_password_hash
           Sample.env first ∅ Sample.env second ∅ Sample.db _ _ _
           H1 H2 H3 H4 H5 H6).
Defined.

Lemma default_week_window_witness :
  let req := Request GET ∅ ∅ in
  (Sample.cookie !! "user_id" = Some 1
   ∧ valid_date (date_of (today Sample.env)) = true
   ∧ args req !! "week" = None)
  ∧ toordinal (date_of (today Sample.env))
    - weekday (date_of (today Sample.env))
    = toordinal (Date 2024 1 15)
  ∧ serve (Sample.dashboard Sample.env req) Sample.db Sample.cookie
    = (prepare "2024-W03"
         (select_totals 1 "2024-01-15" "2024-01-21" Sample.db),
       Sample.db, Sample.cookie).
Proof.
  intros req.
  assert (H1 : Sample.cookie !! "user_id" = Some 1) by reflexivity.
  assert (H2 : 1 ≠ 0) by lia.
  assert (H3 : valid_date (date_of (today Sample.env)) = true) by reflexivity.
  assert (H4 : args req !! "week" = None) by reflexivity.
  split; [by repeat split|]. split; [reflexivity|].
  exact (proj1 (proj2 (proj2
           (default_week_window Sample.py_float Sample.env req Sample.db
              Sample.cookie 1 H1 H2 H3 (or_introl H4))))).
Defined.

Lemma default_token_round_trip_witness :
  let req := Request GET ∅ ∅ in
  let req' := Sample.view_week "2024-W03" in
  (valid_date (date_of (today Sample.env)) = true
   ∧ args req !! "week" = None
   ∧ args req' !! "week" = Some (strftime_Y_W_V (today Sample.env))
   ∧ (isocalendar (date_of (today Sample.env))).1.1
     = year (date_of (today Sample.env)))
  ∧ serve (Sample.dashboard Sample.env req') Sample.db Sample.cookie
    = serve (Sample.dashboard Sample.env req) Sample.db Sample.cookie.
Proof.
  intros req req'.
  assert (H1 : valid_date (date_of (today Sample.env)) = true) by reflexivity.
  assert (H2 : is_post (method req) = false) by reflexivity.
  assert (H3 : is_post (method req') = false) by reflexivity.
  assert (H4 : args req !! "week" = None) by reflexivity.
  assert (H5 : args req' !! "week" = Some (strftime_Y_W_V (today Sample.env)))
    by reflexivity.
  assert (H6 : (isocalendar (date_of (today Sample.env))).1.1
               = year (date_of (today Sample.env))) by reflexivity.
  split; [by repeat split|].
  exact (proj1 (default_token_round_trip Sample.py_float Sample.env req req'
                  Sample.db Sample.cookie H1 H2 H3 H4 H5) H6).
Defined.

Lemma expense_listed_in_its_week_witness :
  let req :=
    Sample.post_expense "42.50" "Food" "2024-01-20" {["week" := "2024-W03"]} in
  let db' :=
    Database (users Sample.db)
      (expenses Sample.db
       ++ [ExpenseRow 2 1 Sample.amount_42_50 "Food" "2024-01-20"]) in
  let eighty_five := fadd (fadd zero Sample.amount_42_50) Sample.amount_42_50 in
  (Sample.cookie !! "user_id" = Some 1
   ∧ method req = POST
   ∧ Sample.py_float "42.50" = Some Sample.amount_42_50
   ∧ form req !! "date" = Some (isoformat (Date 2024 1 20))
   ∧ valid_date (Date 2024 1 20) = true
   ∧ isocalendar (Date 2024 1 20) = (2024, 3, 6)
   ∧ args req !! "week" = Some (week_token 2024 3))
  ∧ ("Food", Some eighty_five)
    ∈ select_totals 1 "2024-01-15" "2024-01-21" db'
  ∧ ∃ total top,
      serve (Sample.dashboard Sample.env req) Sample.db Sample.cookie
      = (Return
           (render_template "dashboard.html"
              (Dashboard
                 (DashboardContext "2024-W03" total top
                    ["Food"] [Some eighty_five]))),
         db', Sample.cookie).
Proof.
  intros req db' eighty_five.
  assert (H1 : Sample.cookie !! "user_id" = Some 1) by reflexivity.
  assert (H2 : 1 ≠ 0) by lia.
  assert (H3 : method req = POST) by reflexivity.
  assert (H4 : form req !! "amount" = Some "42.50") by reflexivity.
  assert (H5 : Sample.py_float "42.50" = Some Sample.amount_42_50)
    by reflexivity.
  assert (H6 : is_nan Sample.amount_42_50 = false) by reflexivity.
  assert (H7 : form req !! "category" = Some "Food") by reflexivity.
  assert (H8 : form req !! "date" = Some (isoformat (Date 2024 1 20)))
    by reflexivity.
  assert (H9 : valid_date (Date 2024 1 20) = true) by reflexivity.
  assert (H10 : toordinal (Date 2024 1 20) < toordinal (Date 9999 12 27))
    by reflexivity.
  assert (H11 : isocalendar (Date 2024 1 20) = (2024, 3, 6)) by reflexivity.
  assert (H12 : args req !! "week" = Some (week_token 2024 3)) by reflexivity.
  split; [by repeat split|].
  destruct (expense_listed_in_its_week Sample.py_float Sample.env req
              Sample.db Sample.cookie 1 "42.50" Sample.amount_42_50 "Food"
              (Date 2024 1 20) 2024 3 6
              H1 H2 H3 H4 H5 H6 H7 H8 H9 H10 H11 H12)
    as (_ & _ & Hpair & _ & Hshown).
  split; [exact Hpair|].
  apply Hshown. vm_compute. intros Hnull.
  apply elem_of_cons in Hnull as [Hnull|Hnull]; [discriminate|].
  by apply elem_of_nil in Hnull.
Defined.

Lemma week_parameter_outcomes_witness :
  let req := Sample.view_week " 2024-W3" in
  (Sample.cookie !! "user_id" = Some 1
   ∧ args req !! "week" = Some " 2024-W3"
   ∧ inserted Sample.py_float 1 req Sample.db = Return Sample.db)
  ∧ ∃ o,
      serve (Sample.dashboard Sample.env req) Sample.db Sample.cookie
      = (o, Sample.db, Sample.cookie)
      ∧ ((o = Raise ValueError
          ∧ ∀ y w, parse_week " 2024-W3" = Return (y, w) →
                   valid_week y w = false)
         ∨ (o = Raise OverflowError
            ∧ parse_week " 2024-W3" = Return (9999, 52))
         ∨ ∃ y w,
             parse_week " 2024-W3" = Return (y, w)
             ∧ valid_week y w = true
             ∧ (y, w) ≠ (9999, 52)
             ∧ o = prepare " 2024-W3"
                     (select_totals 1
                        (isoformat (fromordinal (monday_ordinal y w)))
                        (isoformat (fromordinal (monday_ordinal y w + 6)))
                        Sample.db)).
Proof.
  intros req.
  assert (H1 : Sample.cookie !! "user_id" = Some 1) by reflexivity.
  assert (H2 : 1 ≠ 0) by lia.
  assert (H3 : args req !! "week" = Some " 2024-W3") by reflexivity.
  assert (H4 : " 2024-W3" ≠ "") by discriminate.
  assert (H5 : inserted Sample.py_float 1 req Sample.db = Return Sample.db)
    by reflexivity.
  split; [by repeat split|].
  exact (week_parameter_outcomes Sample.py_float Sample.env req Sample.db
           Sample.db Sample.cookie 1 " 2024-W3" H1 H2 H3 H4 H5).
Defined.

Lemma top_category_first_of_largest_witness :
  let db :=
    Database [Sample.ann]
      [ExpenseRow 1 1 Sample.amount_42_50 "Food" "2024-01-17";
       ExpenseRow 2 1 Sample.amount_42_50 "Books" "2024-01-16"] in
  let rows := select_totals 1 "2024-01-15" "2024-01-21" db in
  let ctx :=
    DashboardContext "2024-W03"
      (py_round2 (PyFloat (fadd Sample.amount_42_50 Sample.amount_42_50)))
      (Some "Books") ["Books"; "Food"]
      [Some Sample.amount_42_50; Some Sample.amount_42_50] in
  (prepare "2024-W03" rows
   = Return (render_template "dashboard.html" (Dashboard ctx))
   ∧ rows ≠ [])
  ∧ ∃ c a,
      top_category ctx = Some c
      ∧ (c, Some a) ∈ rows
      ∧ ∀ c' a',
          (c', Some a') ∈ rows →
          fle a' a = true
          ∧ (feq a' a = true → c' ≠ c → String.compare c c' = Lt).
Proof.
  intros db rows ctx.
  assert (H1 : prepare "2024-W03" rows
               = Return (render_template "dashboard.html" (Dashboard ctx)))
    by (vm_compute; reflexivity).
  assert (H2 : rows ≠ []) by discriminate.
  split; [by split|].
  exact (top_category_first_of_largest 1 "2024-01-15" "2024-01-21" db
           "2024-W03" ctx H1 H2).
Defined.

(** An amount of [inf] and one of [-inf] in one category of the window:
    their sum is NaN, SQLite hands back [NULL], and [sum] raises. *)
Lemma prepare_fails_on_null_only_witness :
  let db :=
    Database [Sample.ann]
      [ExpenseRow 1 1 (S754_infinity false) "Food" "2024-01-16";
       ExpenseRow 2 1 (S754_infinity true) "Food" "2024-01-17"] in
  let rows := select_totals 1 "2024-01-15" "2024-01-21" db in
  (rows = [("Food", None)] ∧ None ∈ rows.*2)
  ∧ prepare "2024-W03" rows = Raise TypeError.
Proof.
  intros db rows.
  assert (H1 : rows = [("Food", None)]) by reflexivity.
  assert (H2 : None ∈ rows.*2) by (rewrite H1; left).
  split; [by split|].
  exact (proj1 (prepare_fails_on_null_only 1 "2024-01-15" "2024-01-21" db
                  "2024-W03") H2).
Defined.
